(** * reVCDOS asset server: a shallow embedding of [server.go]

    The development follows the Go source top-down:

    - [Strings]: the functions of package [strings] the server calls;
    - [IO]: readers, writers, [io.Copy], [io.LimitReader], [io.TeeReader]
      and stream decoders ([brotli.NewReader], [gzip.NewReader]);
    - [World], [op], [prog]: the process state shared by all goroutines
      (cache directory, [activeDownloads], the counters of a bulk run) and
      the programs that act on it, one primitive per library call;
    - the handlers and download functions of [server.go];
    - [Pool]: the goroutines of [downloadWithWorkers] as a step relation;
    - the properties of the proxy-and-cache path and of the bulk downloader;
    - further properties, function by function: configuration, middleware,
      handlers, proxy, single-item fetcher, worker pool.

    Of [server.go], [main] (flag parsing, the request multiplexer, the gzip
    handler, the listener), the log line of [loggingMiddleware] and the
    item lists of [doDownloadAssets] and [doDownloadAudio] are not
    modelled.

    Of the libraries, three things are left open and are parameters of
    the installation ([Env]): what [strings.ToLower] makes of a string
    with a byte outside ASCII (the Unicode case tables), the modification
    time [http.ServeFile] prints, and its answer to a request with a
    precondition or a range (RFC 7232 and 7233).  What [http.ServeFile]
    does with a directory is not modelled: [serveLocalFile] hands it
    regular files only.

    Go integers are modelled by [Z] (no response or counter comes near the
    range of [int64]); strings and byte slices by [string] and [list byte]. *)

From stdpp Require Import gmap strings list pretty.
From Stdlib Require Import ZArith Ascii String Lia.
From Stdlib.Strings Require Import Byte.

Open Scope string_scope.
Open Scope list_scope.
Open Scope Z_scope.

Abbreviation bytes := (list byte).

(** ** Package [strings] *)

Module Strings.

Fixpoint HasPrefix (s prefix : string) {struct prefix} : bool :=
  match prefix, s with
  | EmptyString, _ => true
  | String _ _, EmptyString => false
  | String c prefix', String d s' =>
      if Ascii.eqb c d then HasPrefix s' prefix' else false
  end.

(** [s[n:]] and [s[:n]] *)
Fixpoint from (n : nat) (s : string) : string :=
  match n, s with
  | O, _ => s
  | S _, EmptyString => EmptyString
  | S n', String _ s' => from n' s'
  end.

Fixpoint upto (n : nat) (s : string) : string :=
  match n, s with
  | O, _ => EmptyString
  | S _, EmptyString => EmptyString
  | S n', String c s' => String c (upto n' s')
  end.

Definition HasSuffix (s suffix : string) : bool :=
  (String.length suffix <=? String.length s)%nat &&
  String.eqb (from (String.length s - String.length suffix) s) suffix.

Definition TrimPrefix (s prefix : string) : string :=
  if HasPrefix s prefix then from (String.length prefix) s else s.

Definition TrimSuffix (s suffix : string) : string :=
  if HasSuffix s suffix
  then upto (String.length s - String.length suffix) s
  else s.

Fixpoint Contains (s substr : string) : bool :=
  HasPrefix s substr ||
  match s with
  | EmptyString => false
  | String _ s' => Contains s' substr
  end.

Definition lower (c : ascii) : ascii :=
  let n := nat_of_ascii c in
  if ((65 <=? n) && (n <=? 90))%nat then ascii_of_nat (n + 32) else c.

Fixpoint isASCII (s : string) : bool :=
  match s with
  | EmptyString => true
  | String c s' => (nat_of_ascii c <? 128)%nat && isASCII s'
  end.

Fixpoint lowerASCII (s : string) : string :=
  match s with
  | EmptyString => EmptyString
  | String c s' => String (lower c) (lowerASCII s')
  end.

(** [strings.ToLower]: in a string of ASCII bytes the letters [A-Z] are
    lowered; any other string goes rune by rune through the Unicode case
    tables, which lower more than letters of other alphabets: U+0130
    becomes [i] and U+212A becomes [k].  The tables are not part of the
    development: [mapped s] stands for [strings.Map(unicode.ToLower, s)]. *)
Definition ToLower (mapped : string → string) (s : string) : string :=
  if isASCII s then lowerASCII s else mapped s.

(** [Split s "/"], specialised to the one-character separator. *)
Fixpoint SplitSlash (s : string) : list string :=
  match s with
  | EmptyString => [EmptyString]
  | String c s' =>
      if Ascii.eqb c "/" then EmptyString :: SplitSlash s'
      else match SplitSlash s' with
           | [] => [String c EmptyString]
           | seg :: segs => String c seg :: segs
           end
  end.

End Strings.

(** ** Package [strconv] *)

(** [strconv.Atoi] for the 64-bit [int]: an optional sign, then decimal
    digits and nothing else, and a value in the range of [int];
    [strconv.FormatInt(i, 10)]. *)
Module Strconv.

Definition digit (c : ascii) : option Z :=
  let n := Z.of_nat (nat_of_ascii c) in
  if (48 <=? n) && (n <=? 57) then Some (n - 48) else None.

Fixpoint digits (s : string) (acc : Z) : option Z :=
  match s with
  | EmptyString => Some acc
  | String c s' =>
      match digit c with
      | Some d => digits s' (acc * 10 + d)
      | None => None
      end
  end.

Definition Atoi (s : string) : option Z :=
  let '(neg, ds) :=
    match s with
    | String "-" s' => (true, s')
    | String "+" s' => (false, s')
    | _ => (false, s)
    end in
  match ds with
  | EmptyString => None
  | _ =>
      match digits ds 0 with
      | Some n =>
          let n := if neg then - n else n in
          if (- 2 ^ 63 <=? n) && (n <=? 2 ^ 63 - 1) then Some n else None
      | None => None
      end
  end.

Definition FormatInt (i : Z) : string := pretty i.

End Strconv.

(** ** Package [io] *)

Module IO.

Inductive ioerr : Type :=
| ErrRead         (* the source failed: reset, timeout, cancelled context *)
| ErrWrite        (* the sink failed: client gone, disk full *)
| ErrCodec        (* corrupt compressed input *)
| ErrUnexpectedEOF.

(** A writer keeps what was written so far and how many more bytes it
    accepts before it starts failing ([None]: it never fails). *)
Record Writer : Type := mkWriter { wdata : bytes; wroom : option Z }.

Definition blen (bs : bytes) : Z := Z.of_nat (List.length bs).

(** [w.Write(bs)]: the new writer, the count written and the error. *)
Definition Write (w : Writer) (bs : bytes) : Writer * Z * option ioerr :=
  match wroom w with
  | None => (mkWriter (wdata w ++ bs) None, blen bs, None)
  | Some room =>
      if blen bs <=? room
      then (mkWriter (wdata w ++ bs) (Some (room - blen bs)), blen bs, None)
      else (mkWriter (wdata w ++ take (Z.to_nat room) bs) (Some 0),
            Z.max 0 room, Some ErrWrite)
  end.

(** The body of an upstream response: the chunks successive [Read]s
    return, closed by end of stream or by a failure. *)
Inductive Body : Type :=
| BEOF
| BErr (e : ioerr)
| BData (bs : bytes) (rest : Body).

Fixpoint body_bytes (b : Body) : bytes :=
  match b with
  | BEOF | BErr _ => []
  | BData bs rest => bs ++ body_bytes rest
  end.

Fixpoint body_ok (b : Body) : bool :=
  match b with
  | BEOF => true
  | BErr _ => false
  | BData _ rest => body_ok rest
  end.

(** A reader whose [Read] may act on a state [Σ] before it returns
    (the tee writes to its file): [RAct act rest] updates the state by
    [act] and goes on as [rest] of the state it found. *)
Inductive Reader (Σ : Type) : Type :=
| REOF
| RErr (e : ioerr)
| RData (bs : bytes) (rest : Reader Σ)
| RAct (act : Σ → Σ) (rest : Σ → Reader Σ).
Arguments REOF {Σ}.
Arguments RErr {Σ} e.
Arguments RData {Σ} bs rest.
Arguments RAct {Σ} act rest.

Fixpoint reader {Σ} (b : Body) : Reader Σ :=
  match b with
  | BEOF => REOF
  | BErr e => RErr e
  | BData bs rest => RData bs (reader rest)
  end.

(** [io.LimitReader(r, n)]: [Read] answers EOF once [n] bytes were
    returned and never asks the source for more than what is left. *)
Fixpoint LimitReader (r : Body) (n : Z) : Body :=
  if n <=? 0 then BEOF
  else match r with
       | BEOF => BEOF
       | BErr e => BErr e
       | BData bs rest =>
           if n <? blen bs
           then BData (take (Z.to_nat n) bs) BEOF
           else BData bs (LimitReader rest (n - blen bs))
       end.

(** [io.TeeReader(r, w)] with the file [w] as the state: what [Read]
    returns is first written to [w]; a failed write ends the stream. *)
Fixpoint TeeReader (r : Body) : Reader Writer :=
  match r with
  | BEOF => REOF
  | BErr e => RErr e
  | BData bs rest =>
      RAct (λ w, (Write w bs).1.1)
           (λ w, let '(_, n, ew) := Write w bs in
                 match ew with
                 | Some e => RData (take (Z.to_nat n) bs) (RErr e)
                 | None => RData bs (TeeReader rest)
                 end)
  end.

(** [io.Copy(dst, src)] run from the state [σ] of the source. *)
Fixpoint Copy {Σ} (dst : Writer) (src : Reader Σ) (σ : Σ)
  : Writer * Σ * option ioerr :=
  match src with
  | REOF => (dst, σ, None)
  | RErr e => (dst, σ, Some e)
  | RData bs rest =>
      let '(dst', _, ew) := Write dst bs in
      match ew with
      | Some e => (dst', σ, Some e)
      | None => Copy dst' rest σ
      end
  | RAct act rest => Copy dst (rest σ) (act σ)
  end.

(** A streaming decoder, as the compression libraries provide it: fed
    one input chunk it yields output and goes on or fails; at the end of
    its input it yields the rest and its verdict.  A failure of the
    source is passed on as it is. *)
Record Decoder : Type := mkDecoder {
  dstate : Type;
  dinit : dstate;
  dfeed : dstate → bytes → bytes * (dstate + ioerr);
  dclose : dstate → bytes * option ioerr
}.

Definition emit {Σ} (out : bytes) (r : Reader Σ) : Reader Σ :=
  match out with [] => r | _ => RData out r end.

Fixpoint decode {Σ} (D : Decoder) (st : dstate D) (src : Reader Σ)
  : Reader Σ :=
  match src with
  | REOF =>
      let (out, e) := dclose D st in
      emit out (match e with None => REOF | Some e => RErr e end)
  | RErr e => RErr e
  | RData bs rest =>
      let (out, nxt) := dfeed D st bs in
      emit out (match nxt with
                | inl st' => decode D st' rest
                | inr e => RErr e
                end)
  | RAct act rest => RAct act (λ σ, decode D st (rest σ))
  end.

Definition NewReader {Σ} (D : Decoder) (src : Reader Σ) : Reader Σ :=
  decode D (dinit D) src.

End IO.

Import Strings IO.

(** ** Package [net/http]: requests, responses, the response writer *)

Abbreviation Header := (gmap string (list string)).

Definition Header_Get (h : Header) (key : string) : string :=
  match h !! key with
  | Some (v :: _) => v
  | _ => ""
  end.

(** The inbound request [r]. *)
Record Request : Type := mkRequest {
  Method : string;
  URLPath : string;
  RawQuery : string;
  ReqHeader : Header
}.

(** The request [req] sent to the CDN and the response [resp] to it. *)
Record UpRequest : Type := mkUpRequest {
  UpMethod : string;
  UpURL : string;
  UpHeader : Header
}.

(** What [httpClient.Do] returns.  The status is the three characters of
    the status line read as a number, so it may be below 100; an
    informational answer (100, 102 to 199) is not among them: the client
    reads past it to the answer that follows. *)
Record Response : Type := mkResponse {
  StatusCode : Z;
  ContentLength : Z;            (* -1 when the origin declares none *)
  RespHeader : Header;
  RespBody : Body
}.

(** [w http.ResponseWriter]: the header map, the interim responses sent
    so far, the status once it is written, and the body as a writer that
    fails when the client leaves.  The body holds what the handler wrote
    with [w.Write]: net/http keeps it off the wire for a [HEAD] request,
    and refuses it under a status that has no body, which the origin's
    answers under such a status do not try, their body being empty. *)
Record ResponseWriter : Type := mkRW {
  header : Header;
  interim : list Z;
  status : option Z;
  wbody : Writer
}.

Definition Header_Set (key value : string) (w : ResponseWriter) :=
  mkRW (<[key := [value]]> (header w)) (interim w) (status w) (wbody w).

Definition Header_Del (key : string) (w : ResponseWriter) :=
  mkRW (delete key (header w)) (interim w) (status w) (wbody w).

Definition StatusSwitchingProtocols := 101.
Definition StatusOK := 200.
Definition StatusMovedPermanently := 301.
Definition StatusBadRequest := 400.
Definition StatusNotFound := 404.
Definition StatusForbidden := 403.
Definition StatusInternalServerError := 500.
Definition StatusBadGateway := 502.

(** The codes [WriteHeader] takes: three digits.  For any other it
    panics ([checkWriteHeaderCode]), unless the header is written
    already. *)
Definition validCode (code : Z) : bool := (100 <=? code) && (code <=? 999).

(** The codes [WriteHeader] sends at once as an interim response: 1xx
    but for 101. *)
Definition informational (code : Z) : bool :=
  (100 <=? code) && (code <=? 199) && negb (code =? StatusSwitchingProtocols).

(** [w.WriteHeader(code)], for a code of three digits.  Once the header
    is written, a further call is ignored.  An informational code goes
    out as an interim response and leaves the header to be written; any
    other code is the status of the response. *)
Definition WriteHeader (code : Z) (w : ResponseWriter) :=
  match status w with
  | Some _ => w
  | None =>
      if informational code
      then mkRW (header w) (interim w ++ [code]) None (wbody w)
      else mkRW (header w) (interim w) (Some code) (wbody w)
  end.

(** The header is written. *)
Definition written (w : ResponseWriter) : bool :=
  match status w with Some _ => true | None => false end.

(** [io.Copy(w, src)] into the response; the first write commits the
    header with status 200 if none was written. *)
Definition CopyTo {Σ} (w : ResponseWriter) (src : Reader Σ) (σ : Σ)
  : ResponseWriter * Σ * option ioerr :=
  let w := WriteHeader StatusOK w in
  let '(b, σ', e) := Copy (wbody w) src σ in
  (mkRW (header w) (interim w) (status w) b, σ', e).

Definition http_Write (bs : bytes) (w : ResponseWriter) : ResponseWriter :=
  (CopyTo w (RData bs REOF) tt).1.1.

Definition line (msg : string) : bytes :=
  list_byte_of_string (msg ++ String "010" EmptyString).

Definition http_Error (w : ResponseWriter) (msg : string) (code : Z) :=
  let w := Header_Del "Content-Length" w in
  let w := Header_Set "Content-Type" "text/plain; charset=utf-8" w in
  let w := Header_Set "X-Content-Type-Options" "nosniff" w in
  http_Write (line msg) (WriteHeader code w).

Definition http_NotFound (w : ResponseWriter) :=
  http_Error w "404 page not found" StatusNotFound.

(** ** The state shared by the goroutines of the process *)

(** An entry of the file system: a directory, a regular file (which may
    be unreadable), or a path whose [stat] fails with an I/O error. *)
Inductive node : Type :=
| Dir
| File (readable : bool) (data : bytes)
| Broken.

Inductive stat_result : Type :=
| StatOk (isDir : bool)
| StatNotExist
| StatError.

Inductive open_result : Type :=
| Opened (data : bytes)
| OpenNotExist
| OpenDenied.

(** The three [atomic.Int64] of a bulk run. *)
Inductive counter : Type := downloaded | skipped | failed.

(** What the Go [error] values of this program carry. *)
Inductive error : Type :=
| ErrIO (e : ioerr)
| ErrStatus (code : Z)
| ErrStat
| ErrOpen
| ErrDo
| ErrNewRequest
| ErrMkdirAll
| ErrCreate
| ErrRename
| ErrGzipHeader
| ErrFailed (failedCount total : Z) (label : string).

Inductive arg : Type := AStr (s : string) | AInt (n : Z) | AErr (e : error).

Inductive event : Type :=
| EvStat (p : string)
| EvOpen (p : string)
| EvMkdirAll (p : string)
| EvCreateTemp (dir : string)
| EvCreate (p : string)
| EvClose (p : string)
| EvRemove (p : string)
| EvRename (old new : string)
| EvLoad (p : string)
| EvLoadOrStore (p : string) (loaded : bool)
| EvDelete (p : string)
| EvDo (req : UpRequest)
| EvAdd (c : counter)
| EvCounterLoad (c : counter)
| EvLog (format : string) (args : list arg).

Record World : Type := mkWorld {
  fs : gmap string node;
  activeDownloads : gset string;
  count : counter → Z;
  trace : list event
}.

(** The primitives: one per call into [os], [sync.Map], [net/http],
    [sync/atomic] and [log], indexed by what the call returns. *)
Inductive op : Type → Type :=
| Stat (p : string) : op stat_result
| Open (p : string) : op open_result
| MkdirAll (p : string) : op bool
| CreateTemp (dir pattern : string) : op (option (string * Writer))
| Create (p : string) : op (option Writer)
| Close (p : string) (f : Writer) : op unit
| Remove (p : string) : op unit
| Rename (old new : string) : op bool
| Load (p : string) : op bool
| LoadOrStore (p : string) : op bool
| Delete (p : string) : op unit
| Do (req : UpRequest) : op (option Response)
| Add (c : counter) : op unit
| CounterLoad (c : counter) : op Z
| Log (format : string) (args : list arg) : op unit.

(** Programs over the primitives. *)
Inductive prog (A : Type) : Type :=
| Ret (a : A)
| Vis {X : Type} (o : op X) (k : X → prog A).
Arguments Ret {A} a.
Arguments Vis {A X} o k.

Fixpoint bind {A B} (p : prog A) (f : A → prog B) : prog B :=
  match p with
  | Ret a => f a
  | Vis o k => Vis o (λ x, bind (k x) f)
  end.

Definition call {X} (o : op X) : prog X := Vis o Ret.

Notation "x <- p ; k" := (bind p (λ x, k))
  (at level 20, p at level 100, k at level 200, only parsing).
Notation "p ;; k" := (bind p (λ _, k))
  (at level 100, k at level 200, only parsing, right associativity).

(** What the program is started with and what it cannot control. *)
Record Env : Type := mkEnv {
  (* flags *)
  cdn : string;
  downloadDir : string;
  workers : Z;
  (* library functions *)
  filepath_Join : string → string → string;
  filepath_Dir : string → string;
  filepath_Ext : string → string;
  mime_TypeByExtension : string → string;
  brotli : Decoder;
  gzip : Decoder;
  gzip_header : bytes → bool;
  http_NewRequest : string → string → bool;
  distFS : string → option bytes;
  (* [strings.Map(unicode.ToLower, s)] *)
  lowerUnicode : string → string;
  (* [http.DetectContentType] *)
  http_DetectContentType : bytes → string;
  (* the modification time of a file as the [Last-Modified] header
     prints it, empty for the zero time *)
  lastModified : string → string;
  (* what [http.ServeFile] makes of a file when the request has a
     precondition or a range: 304, 412, 206, 416 or the file *)
  serveConditional : ResponseWriter → Request → string → bytes →
                     ResponseWriter;
  (* the origin, the disk *)
  origin : UpRequest → option Response;
  mkdir_ok : string → bool;
  temp_file : string → string → option (string * option Z);
  create_ok : string → option (option Z);
  rename_ok : string → string → bool
}.

Definition upd (c : counter) (f : counter → Z) : counter → Z :=
  λ c', match c, c' with
        | downloaded, downloaded | skipped, skipped | failed, failed => f c' + 1
        | _, _ => f c'
        end.

Section Exec.
Context (E : Env).

Definition with_fs (w : World) (fs' : gmap string node) : World :=
  mkWorld fs' (activeDownloads w) (count w) (trace w).

Definition record (e : event) (w : World) : World :=
  mkWorld (fs w) (activeDownloads w) (count w) (trace w ++ [e]).

(** Package [os] on the cache directory. *)

(** The paths a path runs through: what stands before each of its
    slashes, the root apart.  One of them that has no entry in the map is
    a directory, or is not there: below it a lookup finds the path
    absent. *)
Fixpoint parents (p : string) : list string :=
  match p with
  | EmptyString => []
  | String c rest =>
      (if HasPrefix rest "/" then [String c EmptyString] else []) ++
      map (String c) (parents rest)
  end.

(** One of them is not a directory: looking the path up fails in the
    kernel, with [ENOTDIR] below a regular file. *)
Definition throughFile (f : gmap string node) (p : string) : bool :=
  existsb (λ q, match f !! q with
                | Some (File _ _) | Some Broken => true
                | _ => false
                end) (parents p).

(** [os.Stat]: [ENOTDIR] is an error that [os.IsNotExist] does not
    match. *)
Definition os_Stat (f : gmap string node) (p : string) : stat_result :=
  if throughFile f p then StatError else
  match f !! p with
  | None => StatNotExist
  | Some Dir => StatOk true
  | Some (File _ _) => StatOk false
  | Some Broken => StatError
  end.

(** [os.Open].  Below a regular file it fails with [ENOTDIR]:
    [serveLocalFile] treats every failure alike, and [http.ServeFile]
    answers that one as it answers a file that is not there
    ([mapOpenError]). *)
Definition os_Open (f : gmap string node) (p : string) : open_result :=
  if throughFile f p then OpenNotExist else
  match f !! p with
  | Some (File true data) => Opened data
  | None => OpenNotExist
  | Some _ => OpenDenied
  end.

Definition os_MkdirAll (f : gmap string node) (p : string)
  : bool * gmap string node :=
  match f !! p with
  | Some Dir => (true, f)
  | Some _ => (false, f)
  | None => if mkdir_ok E p then (true, <[p := Dir]> f) else (false, f)
  end.

(** The name is new: [os.CreateTemp] opens with [O_EXCL]. *)
Definition os_CreateTemp (f : gmap string node) (dir pattern : string)
  : option (string * Writer) * gmap string node :=
  match temp_file E dir pattern with
  | Some (name, room) =>
      match f !! name with
      | None => (Some (name, mkWriter [] room), <[name := File true []]> f)
      | Some _ => (None, f)
      end
  | None => (None, f)
  end.

Definition os_Create (f : gmap string node) (p : string)
  : option Writer * gmap string node :=
  match create_ok E p, f !! p with
  | Some room, None | Some room, Some (File _ _) =>
      (Some (mkWriter [] room), <[p := File true []]> f)
  | _, _ => (None, f)
  end.

(** What was written through the handle is in the file once it is
    closed. *)
Definition os_Close (f : gmap string node) (p : string) (h : Writer)
  : gmap string node :=
  match f !! p with
  | Some (File r _) => <[p := File r (wdata h)]> f
  | _ => f
  end.

Definition os_Rename (f : gmap string node) (old new : string)
  : bool * gmap string node :=
  match f !! old, f !! new with
  | Some _, Some Dir | None, _ => (false, f)
  | Some n, _ =>
      if rename_ok E old new then (true, <[new := n]> (delete old f))
      else (false, f)
  end.

(** One primitive, run atomically on the shared state. *)
Definition exec {X} (o : op X) (w : World) : X * World :=
  match o in op X return X * World with
  | Stat p => (os_Stat (fs w) p, record (EvStat p) w)
  | Open p => (os_Open (fs w) p, record (EvOpen p) w)
  | MkdirAll p =>
      let (ok, f) := os_MkdirAll (fs w) p in
      (ok, with_fs (record (EvMkdirAll p) w) f)
  | CreateTemp dir pattern =>
      let (file, f) := os_CreateTemp (fs w) dir pattern in
      (file, with_fs (record (EvCreateTemp dir) w) f)
  | Create p =>
      let (file, f) := os_Create (fs w) p in
      (file, with_fs (record (EvCreate p) w) f)
  | Close p h =>
      (tt, with_fs (record (EvClose p) w) (os_Close (fs w) p h))
  | Remove p => (tt, with_fs (record (EvRemove p) w) (delete p (fs w)))
  | Rename old new =>
      let (ok, f) := os_Rename (fs w) old new in
      (ok, with_fs (record (EvRename old new) w) f)
  | Load p =>
      (bool_decide (p ∈ activeDownloads w), record (EvLoad p) w)
  | LoadOrStore p =>
      let loaded := bool_decide (p ∈ activeDownloads w) in
      (loaded,
       mkWorld (fs w) ({[p]} ∪ activeDownloads w) (count w)
               (trace w ++ [EvLoadOrStore p loaded]))
  | Delete p =>
      (tt, mkWorld (fs w) (activeDownloads w ∖ {[p]}) (count w)
                   (trace w ++ [EvDelete p]))
  | Do req => (origin E req, record (EvDo req) w)
  | Add c =>
      (tt, mkWorld (fs w) (activeDownloads w) (upd c (count w))
                   (trace w ++ [EvAdd c]))
  | CounterLoad c => (count w c, record (EvCounterLoad c) w)
  | Log format args => (tt, record (EvLog format args) w)
  end.

(** A program run to its end without interference. *)
Fixpoint run {A} (p : prog A) (w : World) : A * World :=
  match p with
  | Ret a => (a, w)
  | Vis o k => let (x, w') := exec o w in run (k x) w'
  end.

End Exec.

(** ** [server.go] *)

Definition maxProxySize : Z := 500 * 1024 * 1024.

Section Server.
Context (E : Env).

(** [_, err := os.Stat(p); err == nil] *)
Definition exists_ (st : stat_result) : bool :=
  match st with StatOk _ => true | _ => false end.

(** [info, err := os.Stat(p); err == nil && !info.IsDir()] *)
Definition regular (st : stat_result) : bool :=
  match st with StatOk false => true | _ => false end.

(** [strings.ToLower] with the case tables of the installation. *)
Local Abbreviation ToLower := (Strings.ToLower (lowerUnicode E)).

Definition acceptEncoding (r : Request) : string :=
  ToLower (Header_Get (ReqHeader r) "Accept-Encoding").

(** *** [http.ServeFile] *)

(** [containsDotDot] of net/http: an element [..] between slashes or
    backslashes. *)
Definition isSlashRune (c : ascii) : bool :=
  Ascii.eqb c "/" || Ascii.eqb c (ascii_of_nat 92).

(** The elements between separators, the empty ones included. *)
Fixpoint SplitFunc (isSep : ascii → bool) (s : string) : list string :=
  match s with
  | EmptyString => [EmptyString]
  | String c s' =>
      if isSep c then EmptyString :: SplitFunc isSep s'
      else match SplitFunc isSep s' with
           | [] => [String c EmptyString]
           | field :: fields => String c field :: fields
           end
  end.

(** [strings.FieldsFunc] *)
Definition FieldsFunc (s : string) (isSep : ascii → bool) : list string :=
  List.filter (λ field, negb (String.eqb field "")) (SplitFunc isSep s).

Definition containsDotDot (v : string) : bool :=
  if negb (Contains v "..") then false
  else existsb (λ ent, String.eqb ent "..") (FieldsFunc v isSlashRune).

(** [serveError]: the headers that describe the file go, then
    [http.Error]. *)
Definition serveError (w : ResponseWriter) (text : string) (code : Z)
  : ResponseWriter :=
  let w := Header_Del "Cache-Control" w in
  let w := Header_Del "Content-Encoding" w in
  let w := Header_Del "Etag" w in
  let w := Header_Del "Last-Modified" w in
  http_Error w text code.

(** [localRedirect]: 301 to a path relative to the request, the query
    kept. *)
Definition localRedirect (w : ResponseWriter) (r : Request)
    (newPath : string) : ResponseWriter :=
  let newPath := if String.eqb (RawQuery r) "" then newPath
                 else newPath +:+ "?" +:+ RawQuery r in
  WriteHeader StatusMovedPermanently (Header_Set "Location" newPath w).

(** The request has a precondition or asks for a range. *)
Definition conditional (r : Request) : bool :=
  negb (String.eqb (Header_Get (ReqHeader r) "If-Match") "") ||
  negb (String.eqb (Header_Get (ReqHeader r) "If-Unmodified-Since") "") ||
  negb (String.eqb (Header_Get (ReqHeader r) "If-None-Match") "") ||
  negb (String.eqb (Header_Get (ReqHeader r) "If-Modified-Since") "") ||
  negb (String.eqb (Header_Get (ReqHeader r) "Range") "").

(** [serveContent] for the open file [name] with the content [data]:
    the modification time is announced; a request with a precondition or
    a range is answered as those say; any other gets the file with status
    200: a content type if none is set yet, by extension (that of the
    last element of [name]) or else by content, the length unless an
    encoding is set, and the bytes unless the method is HEAD. *)
Definition serveContent (w : ResponseWriter) (r : Request) (name : string)
    (data : bytes) : ResponseWriter :=
  let modtime := lastModified E name in
  let w := if String.eqb modtime "" then w
           else Header_Set "Last-Modified" modtime w in
  if conditional r then serveConditional E w r name data else
  let w :=
    match header w !! "Content-Type" with
    | Some _ => w
    | None =>
        let ctype := mime_TypeByExtension E (filepath_Ext E name) in
        let ctype := if String.eqb ctype ""
                     then http_DetectContentType E (take 512 data)
                     else ctype in
        Header_Set "Content-Type" ctype w
    end in
  let w := Header_Set "Accept-Ranges" "bytes" w in
  let w := if String.eqb (Header_Get (header w) "Content-Encoding") ""
           then Header_Set "Content-Length" (Strconv.FormatInt (blen data)) w
           else w in
  let w := WriteHeader StatusOK w in
  if String.eqb (Method r) "HEAD" then w else http_Write data w.

(** [http.ServeFile(w, r, name)] for a [name] that is not a directory.
    A URL with a [..] element is refused; a URL that ends in
    [/index.html] is redirected to its directory before the file is
    looked at; a file that does not open is answered by the status of
    the failure. *)
Definition http_ServeFile (w : ResponseWriter) (r : Request) (name : string)
  : prog ResponseWriter :=
  if containsDotDot (URLPath r)
  then Ret (serveError w "invalid URL path" StatusBadRequest) else
  if HasSuffix (URLPath r) "/index.html"
  then Ret (localRedirect w r "./") else
  o <- call (Open name);
  Ret match o with
      | Opened data => serveContent w r name data
      | OpenNotExist => serveError w "404 page not found" StatusNotFound
      | OpenDenied => serveError w "403 Forbidden" StatusForbidden
      end.

(** *** The handlers *)

(** [serveLocalFile] from "Set content type" on, for the file
    [servePath] it has settled on and the encoding it gives it. *)
Definition serveChosen (w : ResponseWriter) (r : Request)
    (localPath servePath encoding : string) : prog (ResponseWriter * bool) :=
  let clientAcceptsBr := Contains (acceptEncoding r) "br" in
  let basePath := TrimSuffix (TrimSuffix localPath ".br") ".gz" in
  let contentType := mime_TypeByExtension E (filepath_Ext E basePath) in
  let contentType :=
    if String.eqb contentType "" then "application/octet-stream"
    else contentType in
  let contentType :=
    if HasSuffix basePath ".wasm" then "application/wasm"
    else contentType in
  let w := Header_Set "Content-Type" contentType w in
  if String.eqb encoding "br" && negb clientAcceptsBr then
    file <- call (Open servePath);
    match file with
    | Opened data =>
        let reader := NewReader (brotli E) (RData data REOF) in
        let '(w, _, err) := CopyTo w reader tt in
        match err with
        | Some e =>
            call (Log "Error decompressing file %s: %v"
                      [AStr servePath; AErr (ErrIO e)]) ;;
            Ret (w, true)
        | None => Ret (w, true)
        end
    | _ =>
        call (Log "Error opening file %s: %v"
                  [AStr servePath; AErr ErrOpen]) ;;
        Ret (http_Error w "Internal server error"
                        StatusInternalServerError, true)
    end
  else
    let w := if String.eqb encoding "" then w
             else Header_Set "Content-Encoding" encoding w in
    w <- http_ServeFile w r servePath;
    Ret (w, true).

Definition serveLocalFile (w : ResponseWriter) (r : Request)
    (localPath : string) : prog (ResponseWriter * bool) :=
  let clientAcceptsBr := Contains (acceptEncoding r) "br" in
  let clientAcceptsGzip := Contains (acceptEncoding r) "gzip" in
  let basePath := TrimSuffix (TrimSuffix localPath ".br") ".gz" in
  let isBrFile := HasSuffix localPath ".br" in
  let isGzFile := HasSuffix localPath ".gz" in
  let serve := serveChosen w r localPath in
  (* var servePath, encoding string *)
  found <- (if clientAcceptsBr then
              let brPath := basePath +:+ ".br" in
              info <- call (Stat brPath);
              Ret (if regular info then (brPath, "br") else ("", ""))
            else Ret ("", ""));
  found <- (if String.eqb found.1 "" && clientAcceptsGzip then
              let gzPath := basePath +:+ ".gz" in
              info <- call (Stat gzPath);
              Ret (if regular info then (gzPath, "gzip") else found)
            else Ret found);
  if String.eqb found.1 "" then
    info <- call (Stat localPath);
    match info with
    | StatNotExist => Ret (w, false)
    | StatError =>
        call (Log "Error accessing file %s: %v"
                  [AStr localPath; AErr ErrStat]) ;;
        Ret (http_Error w "Internal server error"
                        StatusInternalServerError, true)
    | StatOk true => Ret (w, false)
    | StatOk false =>
        serve localPath
              (if isBrFile then "br" else if isGzFile then "gzip" else "")
    end
  else serve found.1 found.2.

(** The block [w.WriteHeader(resp.StatusCode); io.Copy(w, ...); return]
    that [proxyAndCache] repeats wherever it gives up caching; only the
    first of them names the URL in its log line. *)
Definition proxyOnly (w : ResponseWriter) (resp : Response)
    (limitedBody : Body) (needDecompress : bool) (from : option string)
  : prog ResponseWriter :=
  if negb (validCode (StatusCode resp)) && negb (written w) then
    (* [w.WriteHeader] panics: net/http recovers, logs the panic and
       drops the connection *)
    call (Log "http: panic serving %v: %v"
              [AStr "invalid WriteHeader code"; AInt (StatusCode resp)]) ;;
    Ret w
  else
  let w := WriteHeader (StatusCode resp) w in
  let '(w, _, err) :=
    if needDecompress
    then CopyTo w (NewReader (brotli E) (reader limitedBody)) tt
    else CopyTo w (reader limitedBody) tt in
  match err with
  | Some e =>
      let what := if needDecompress
                  then "Error decompressing proxy response"
                  else "Error copying proxy response" in
      match from with
      | Some url =>
          call (Log (what +:+ " from %s: %v") [AStr url; AErr (ErrIO e)])
      | None => call (Log (what +:+ ": %v") [AErr (ErrIO e)])
      end ;;
      Ret w
  | None => Ret w
  end.

(** [for k, v := range r.Header]: all but [Host] and
    [Accept-Encoding] go to the origin. *)
Definition forwardHeaders (h : Header) : Header :=
  filter (λ kv : string * list string,
            ToLower kv.1 ≠ "host" ∧ ToLower kv.1 ≠ "accept-encoding") h.

(** [for k, v := range resp.Header]: all but the hop-by-hop headers and
    the content security policy go to the client. *)
Definition copyHeaders (h : Header) (w : ResponseWriter) : ResponseWriter :=
  mkRW (filter (λ kv : string * list string,
                  ToLower kv.1 ≠ "transfer-encoding" ∧
                  ToLower kv.1 ≠ "connection" ∧
                  ToLower kv.1 ≠ "content-security-policy") h
        ∪ header w)
       (interim w) (status w) (wbody w).

Definition proxyAndCache (w : ResponseWriter) (r : Request)
    (url localPath : string) : prog ResponseWriter :=
  (* Try local first *)
  local <- serveLocalFile w r localPath;
  if local.2 then Ret local.1 else
  let w := local.1 in
  (* Check if file is being downloaded by background goroutine *)
  alreadyDownloading <- call (Load localPath);
  if negb (http_NewRequest E (Method r) url) then
    call (Log "Error creating proxy request to %s: %v"
              [AStr url; AErr ErrNewRequest]) ;;
    Ret (http_Error w "Proxy error: failed to create request"
                    StatusBadGateway)
  else
  let req := mkUpRequest (Method r) url (forwardHeaders (ReqHeader r)) in
  resp <- call (Do req);
  match resp with
  | None =>
      call (Log "Proxy request to %s failed: %v" [AStr url; AErr ErrDo]) ;;
      Ret (http_Error w "Proxy error: %v" StatusBadGateway)
  | Some resp =>
  (* Check content length for size limit *)
  if maxProxySize <? ContentLength resp then
    call (Log "Proxy response from %s too large: %d bytes"
              [AStr url; AInt (ContentLength resp)]) ;;
    Ret (http_Error w "Response too large" StatusBadGateway)
  else
  (* Limit actual bytes read to prevent chunked encoding bypass *)
  let limitedBody := LimitReader (RespBody resp) maxProxySize in
  let w := copyHeaders (RespHeader resp) w in
  let isBrFile := HasSuffix url ".br" in
  let clientAcceptsBr := Contains (acceptEncoding r) "br" in
  let needDecompress := isBrFile && negb clientAcceptsBr in
  let w := if needDecompress
           then Header_Del "Content-Length" (Header_Del "Content-Encoding" w)
           else w in
  (* Don't cache non-200 responses *)
  if negb (StatusCode resp =? StatusOK) then
    proxyOnly w resp limitedBody needDecompress (Some url)
  (* Skip caching if background download is in progress *)
  else if alreadyDownloading then
    proxyOnly w resp limitedBody needDecompress None
  else
  mk <- call (MkdirAll (filepath_Dir E localPath));
  if negb mk then
    call (Log "Warning: failed to create cache directory for %s: %v"
              [AStr localPath; AErr ErrMkdirAll]) ;;
    proxyOnly w resp limitedBody needDecompress None
  else
  tmp <- call (CreateTemp (filepath_Dir E localPath) ".tmp-*");
  match tmp with
  | None =>
      call (Log "Warning: cannot create temp file for caching %s: %v (proxying without cache)"
                [AStr localPath; AErr ErrCreate]) ;;
      proxyOnly w resp limitedBody needDecompress None
  | Some (tempFileName, tempFile) =>
      let w := WriteHeader (StatusCode resp) w in
      (* Use TeeReader to write to cache while reading *)
      let teeReader := TeeReader limitedBody in
      let '(w, tempFile, copyErr) :=
        if needDecompress
        then CopyTo w (NewReader (brotli E) teeReader) tempFile
        else CopyTo w teeReader tempFile in
      call (Close tempFileName tempFile) ;;
      match copyErr with
      | Some e =>
          call (Log "Error during proxy/cache of %s: %v"
                    [AStr url; AErr (ErrIO e)]) ;;
          call (Remove tempFileName) ;;
          Ret w
      | None =>
          (* Atomically move temp file to final location *)
          renamed <- call (Rename tempFileName localPath);
          if renamed then Ret w
          else
            call (Log "Error caching file %s: %v"
                      [AStr localPath; AErr ErrRename]) ;;
            call (Remove tempFileName) ;;
            Ret w
      end
  end
  end.

Definition handleVcsky (w : ResponseWriter) (r : Request)
  : prog ResponseWriter :=
  let path := TrimPrefix (URLPath r) "/vcsky/" in
  (* Validate path to prevent directory traversal *)
  if Contains path ".." then
    call (Log "Path traversal attempt blocked: %s" [AStr (URLPath r)]) ;;
    Ret (http_NotFound w)
  else
  let localPath := filepath_Join E (downloadDir E) path in
  (* Try local file first *)
  local <- serveLocalFile w r localPath;
  if local.2 then Ret local.1 else
  let w := local.1 in
  (* Proxy to CDN *)
  let url := cdn E +:+ path in
  let url := if String.eqb (RawQuery r) "" then url
             else url +:+ "?" +:+ RawQuery r in
  call (Log "fetch %s%s" [AStr (cdn E); AStr path]) ;;
  proxyAndCache w r url localPath.

Definition serveIndex (w : ResponseWriter) : prog ResponseWriter :=
  match distFS E "dist/index.html" with
  | None =>
      call (Log "Error reading index.html: %v" [AErr ErrOpen]) ;;
      Ret (http_Error w "index.html not found" StatusNotFound)
  | Some content =>
      let w := Header_Set "Content-Type" "text/html; charset=utf-8" w in
      let '(w, _, err) := CopyTo w (RData content REOF) tt in
      match err with
      | Some e =>
          call (Log "Error writing response: %v" [AErr (ErrIO e)]) ;; Ret w
      | None => Ret w
      end
  end.

Definition handleRoot (w : ResponseWriter) (r : Request)
  : prog ResponseWriter :=
  if String.eqb (URLPath r) "/" then serveIndex w else
  let cleanedPath := TrimPrefix (URLPath r) "/" in
  if Contains cleanedPath ".." then
    call (Log "Path traversal attempt blocked: %s" [AStr (URLPath r)]) ;;
    Ret (http_NotFound w)
  else
  match distFS E ("dist/" +:+ cleanedPath) with
  | None => Ret (http_NotFound w)
  | Some data =>
      let contentType :=
        mime_TypeByExtension E (filepath_Ext E cleanedPath) in
      let contentType :=
        if String.eqb contentType "" then "application/octet-stream"
        else contentType in
      Ret (http_Write data (Header_Set "Content-Type" contentType w))
  end.

(** [gzip.NewReader] reads the header at once and may refuse it. *)
Definition gzip_NewReader (b : Body) : option (Reader unit) :=
  match b with
  | BData bs _ =>
      if gzip_header E bs then Some (NewReader (gzip E) (reader b))
      else None
  | _ => None
  end.

(** [downloadFile] from "Double-check file doesn't exist" on: what runs
    between taking the claim and the deferred release. *)
Definition fetchClaimed (url destPath : string) : prog (option error) :=
  info <- call (Stat destPath);
  if exists_ info then Ret None else
  mk <- call (MkdirAll (filepath_Dir E destPath));
  if negb mk then Ret (Some ErrMkdirAll) else
  if negb (http_NewRequest E "GET" url) then Ret (Some ErrNewRequest) else
  let req := mkUpRequest "GET" url {["Accept-Encoding" := ["gzip, br"]]} in
  resp <- call (Do req);
  match resp with
  | None => Ret (Some ErrDo)
  | Some resp =>
  if negb (StatusCode resp =? StatusOK)
  then Ret (Some (ErrStatus (StatusCode resp))) else
  (* Decompress if needed *)
  let encoding := Header_Get (RespHeader resp) "Content-Encoding" in
  let body : option (Reader unit) :=
    if String.eqb encoding "br"
    then Some (NewReader (brotli E) (reader (RespBody resp)))
    else if String.eqb encoding "gzip" then gzip_NewReader (RespBody resp)
    else Some (reader (RespBody resp)) in
  match body with
  | None => Ret (Some ErrGzipHeader)
  | Some body =>
  (* Write to temp file first *)
  let tmpPath := destPath +:+ ".tmp" in
  out <- call (Create tmpPath);
  match out with
  | None => Ret (Some ErrCreate)
  | Some out =>
      let '(out, _, err) := Copy out body tt in
      call (Close tmpPath out) ;;
      match err with
      | Some e => call (Remove tmpPath) ;; Ret (Some (ErrIO e))
      | None =>
          renamed <- call (Rename tmpPath destPath);
          Ret (if renamed then None else Some ErrRename)
      end
  end
  end
  end.

Definition downloadFile (url destPath : string) : prog (option error) :=
  (* Skip if file exists *)
  info <- call (Stat destPath);
  if exists_ info then Ret None else
  (* Skip if already being downloaded *)
  loaded <- call (LoadOrStore destPath);
  if loaded then Ret None else
  err <- fetchClaimed url destPath;
  (* defer activeDownloads.Delete(destPath) *)
  call (Delete destPath) ;;
  Ret err.

(** The body of the worker loop of [downloadWithWorkers], for one
    [file] received from the channel. *)
Definition workItem (baseURL outputDir label : string) (total : Z)
    (file : string) : prog unit :=
  let destPath := filepath_Join E outputDir file in
  let progress (format : string) (args : list arg) : prog unit :=
    d <- call (CounterLoad downloaded);
    s <- call (CounterLoad skipped);
    f <- call (CounterLoad failed);
    call (Log format ([AStr label; AInt (d + s + f); AInt total;
                       AStr file] ++ args)) in
  (* Check if exists *)
  info <- call (Stat destPath);
  if exists_ info then call (Add skipped) else
  let url := baseURL +:+ "/" +:+ file in
  err <- downloadFile url destPath;
  match err with
  | Some e =>
      call (Add failed) ;;
      progress "[%s] %d/%d FAIL: %s (%v)" [AErr e]
  | None =>
      call (Add downloaded) ;;
      progress "[%s] %d/%d OK: %s" []
  end.

End Server.

(** ** [server.go]: configuration and middleware *)

(** The package variables the flags are parsed into. *)
Module Flags.

Record t : Type := mk {
  port : Z;
  login : string;
  password : string;
  cdn : string;
  downloadDir : string;
  download : bool;
  downloadCache : bool;
  workers : Z
}.

End Flags.

(** [loadEnvConfig], with the environment as [os.Getenv] answers: a
    variable that is not set reads as the empty string. *)
Definition loadEnvConfig (Getenv : string → string) (c : Flags.t) : Flags.t :=
  let port :=
    let v := Getenv "PORT" in
    if negb (String.eqb v "") then
      match Strconv.Atoi v with
      | Some n => if 0 <? n then n else Flags.port c
      | None => Flags.port c
      end
    else Flags.port c in
  let login :=
    let v := Getenv "AUTH_LOGIN" in
    if negb (String.eqb v "") then v else Flags.login c in
  let password :=
    let v := Getenv "AUTH_PASSWORD" in
    if negb (String.eqb v "") then v else Flags.password c in
  let cdn :=
    let v := Getenv "CDN" in
    if negb (String.eqb v "") then v else Flags.cdn c in
  let downloadDir :=
    let v := Getenv "DOWNLOAD_DIR" in
    if negb (String.eqb v "") then v else Flags.downloadDir c in
  let downloadCache :=
    let v := Getenv "DOWNLOAD_CACHE" in
    if String.eqb v "1" || String.eqb v "true" then true
    else Flags.downloadCache c in
  let workers :=
    let v := Getenv "WORKERS" in
    if negb (String.eqb v "") then
      match Strconv.Atoi v with
      | Some n => if 0 <? n then n else Flags.workers c
      | None => Flags.workers c
      end
    else Flags.workers c in
  Flags.mk port login password cdn downloadDir (Flags.download c)
           downloadCache workers.

(** [http.HandlerFunc] *)
Definition Handler : Type := ResponseWriter → Request → prog ResponseWriter.

Definition StatusUnauthorized := 401.

(** [w.Write(b)] on the response: the first write commits the header. *)
Definition ResponseWriter_Write (b : bytes) (w : ResponseWriter)
  : ResponseWriter * Z * option ioerr :=
  let w := WriteHeader StatusOK w in
  let '(body, n, err) := Write (wbody w) b in
  (mkRW (header w) (interim w) (status w) body, n, err).

(** [type responseWriter struct]: the writer it embeds, the status it
    records and whether a header went through it. *)
Record responseWriter : Type := mkResponseWriter {
  rw_ResponseWriter : ResponseWriter;
  rw_status : Z;
  wroteHeader : bool
}.

Definition rw_WriteHeader (code : Z) (rw : responseWriter) : responseWriter :=
  if wroteHeader rw then rw
  else mkResponseWriter (WriteHeader code (rw_ResponseWriter rw)) code true.

Definition rw_Write (b : bytes) (rw : responseWriter)
  : responseWriter * Z * option ioerr :=
  let rw := if negb (wroteHeader rw) then rw_WriteHeader StatusOK rw else rw in
  let '(w, n, err) := ResponseWriter_Write b (rw_ResponseWriter rw) in
  (mkResponseWriter w (rw_status rw) (wroteHeader rw), n, err).

(** [rw.Header()] is the header of the embedded writer. *)
Definition rw_Header_Set (key value : string) (rw : responseWriter)
  : responseWriter :=
  mkResponseWriter (Header_Set key value (rw_ResponseWriter rw))
                   (rw_status rw) (wroteHeader rw).

Definition rw_Header_Del (key : string) (rw : responseWriter)
  : responseWriter :=
  mkResponseWriter (Header_Del key (rw_ResponseWriter rw))
                   (rw_status rw) (wroteHeader rw).

(** [rw := &responseWriter{ResponseWriter: w, status: http.StatusOK}] of
    [loggingMiddleware]. *)
Definition logged (w : ResponseWriter) : responseWriter :=
  mkResponseWriter w StatusOK false.

(** [strings.SplitN(s, sep, 2)] for a one-character separator: [s] is cut
    at the first [sep], if there is one. *)
Fixpoint cut (s : string) (sep : ascii) : option (string * string) :=
  match s with
  | EmptyString => None
  | String c s' =>
      if Ascii.eqb c sep then Some (EmptyString, s')
      else match cut s' sep with
           | Some (before, after) => Some (String c before, after)
           | None => None
           end
  end.

Definition SplitN2 (s : string) (sep : ascii) : list string :=
  match cut s sep with
  | Some (before, after) => [before; after]
  | None => [s]
  end.

(** [subtle.ConstantTimeCompare]: 1 for equal slices, 0 otherwise, the
    bytes of slices of one length compared by folding their differences. *)
Definition byte_val (b : byte) : Z := Z.of_N (Byte.to_N b).

Definition ConstantTimeCompare (x y : bytes) : Z :=
  if negb (List.length x =? List.length y)%nat then 0
  else
    let v := foldl (λ v xy, Z.lor v (Z.lxor (byte_val xy.1) (byte_val xy.2)))
                   0 (zip x y) in
    if v =? 0 then 1 else 0.

Section Middleware.
Context (E : Env) (login password : string).
Context (base64_DecodeString : string → option bytes).

Definition unauthorized (w : ResponseWriter) : ResponseWriter :=
  let quote := String "034" "" in
  let challenge := "Basic realm=" +:+ quote +:+ "Restricted" +:+ quote in
  http_Error (Header_Set "WWW-Authenticate" challenge w)
             "Unauthorized" StatusUnauthorized.

Definition basicAuthMiddleware (next : Handler) : Handler :=
  λ w r,
    if String.eqb (Method r) "OPTIONS" then next w r else
    let auth := Header_Get (ReqHeader r) "Authorization" in
    if String.eqb auth "" then Ret (unauthorized w) else
    match SplitN2 auth " " with
    | [scheme; payload] =>
        if negb (String.eqb (ToLower (lowerUnicode E) scheme) "basic")
        then Ret (unauthorized w) else
        match base64_DecodeString payload with
        | None => Ret (unauthorized w)
        | Some decoded =>
            match SplitN2 (string_of_list_byte decoded) ":" with
            | [user; pass] =>
                if negb (ConstantTimeCompare (list_byte_of_string user)
                           (list_byte_of_string login) =? 1) ||
                   negb (ConstantTimeCompare (list_byte_of_string pass)
                           (list_byte_of_string password) =? 1)
                then Ret (unauthorized w)
                else next w r
            | _ => Ret (unauthorized w)
            end
        end
    | _ => Ret (unauthorized w)
    end.

Definition corsHeadersMiddleware (next : Handler) : Handler :=
  λ w r,
    let w := Header_Set "Cross-Origin-Opener-Policy" "same-origin" w in
    let w := Header_Set "Cross-Origin-Embedder-Policy" "require-corp" w in
    next w r.

End Middleware.

(** [baseURL] and [outputDir] of [doDownloadAudio], for the radio
    stations, and [baseURL] of [doDownloadAssets]; a worker asks for
    [baseURL + "/" + file] and writes to [filepath.Join(outputDir, file)]. *)
Definition audioBaseURL (E : Env) : string :=
  TrimSuffix (cdn E) "/" +:+ "/fetched/audio".

Definition audioOutputDir (E : Env) : string :=
  filepath_Join E (downloadDir E) "fetched/audio".

Definition assetsBaseURL (E : Env) : string :=
  TrimSuffix (cdn E) "/" +:+ "/fetched/models/gta3.img".

(** ** The worker pool of [downloadWithWorkers] *)

(** A goroutine started by [downloadWithWorkers]. *)
Inductive worker : Type :=
| Idle                   (* waiting in [for file := range work] *)
| Busy (p : prog unit)   (* in the loop body, with [p] still to run *)
| Gone.                  (* the channel is closed and drained: [wg.Done()] *)

(** A run of [downloadWithWorkers]: what the sending loop still has to
    send, the channel, the workers, the result once the function has
    returned, and the state all goroutines share. *)
Record Pool : Type := mkPool {
  unsent : list string;
  closed : bool;
  work : list string;
  goroutines : list worker;
  returned : option (option error);
  shared : World
}.

(** [downloaded.Load() + skipped.Load() + failed.Load()] *)
Definition sum3 (c : counter → Z) : Z := c downloaded + c skipped + c failed.

Section Workers.
Context (E : Env) (files : list string) (baseURL outputDir label : string).

(** [total := len(files)] *)
Definition total : Z := Z.of_nat (List.length files).

(** From [wg.Wait()] on. *)
Definition downloadWithWorkers_return : prog (option error) :=
  failedCount <- call (CounterLoad failed);
  d <- call (CounterLoad downloaded);
  s <- call (CounterLoad skipped);
  call (Log "[%s] Done: %d total (downloaded: %d, skipped: %d, failed: %d)"
            [AStr label; AInt total; AInt d; AInt s; AInt failedCount]) ;;
  Ret (if 0 <? failedCount
       then Some (ErrFailed failedCount total label)
       else None).

(** The counters are new, the channel is empty, the workers wait. *)
Definition start (w : World) : Pool :=
  mkPool files false [] (replicate (Z.to_nat (workers E)) Idle) None
         (mkWorld (fs w) (activeDownloads w) (λ _, 0) (trace w)).

(** Goroutine [i] moves on to [g], leaving the shared state [w]. *)
Definition with_goroutine (st : Pool) (i : nat) (g : worker) (w : World)
  : Pool :=
  mkPool (unsent st) (closed st) (work st) (<[i := g]> (goroutines st))
         (returned st) w.

(** One step of one goroutine.  [make(chan string, workers)] panics for a
    negative capacity, and a send needs room in the buffer. *)
Inductive step : Pool → Pool → Prop :=
| step_send st file rest :
    unsent st = file :: rest →
    closed st = false →
    Z.of_nat (List.length (work st)) < workers E →
    step st (mkPool rest false (work st ++ [file]) (goroutines st)
                    (returned st) (shared st))
| step_close st :
    unsent st = [] →
    closed st = false →
    step st (mkPool [] true (work st) (goroutines st) (returned st) (shared st))
| step_recv st i file rest :
    goroutines st !! i = Some Idle →
    work st = file :: rest →
    step st (mkPool (unsent st) (closed st) rest
               (<[i := Busy (workItem E baseURL outputDir label total file)]>
                  (goroutines st))
               (returned st) (shared st))
| step_op st i X (o : op X) k :
    goroutines st !! i = Some (Busy (Vis o k)) →
    step st (with_goroutine st i (Busy (k (exec E o (shared st)).1))
                            (exec E o (shared st)).2)
| step_next st i u :
    goroutines st !! i = Some (Busy (Ret u)) →
    step st (with_goroutine st i Idle (shared st))
| step_exit st i :
    goroutines st !! i = Some Idle →
    work st = [] →
    closed st = true →
    step st (with_goroutine st i Gone (shared st))
| step_return st :
    closed st = true →
    Forall (λ g, g = Gone) (goroutines st) →
    returned st = None →
    step st (mkPool (unsent st) true (work st) (goroutines st)
               (Some (run E downloadWithWorkers_return (shared st)).1)
               (run E downloadWithWorkers_return (shared st)).2).

(** The states a call made in the state [w] can be in. *)
Definition reachable (w : World) (st : Pool) : Prop :=
  0 ≤ workers E ∧ rtc step (start w) st.

End Workers.

(** ** What the properties speak about *)

(** A path has a parent-directory segment when one of its
    slash-separated segments is [".."]. *)
Definition hasParentSegment (path : string) : bool :=
  existsb (String.eqb "..") (SplitSlash path).

(** The requests sent to the CDN, in order. *)
Definition fetches (t : list event) : list UpRequest :=
  omap (λ e, match e with EvDo req => Some req | _ => None end) t.

(** The events that reach the disk or the network. *)
Definition touches (e : event) : bool :=
  match e with
  | EvStat _ | EvOpen _ | EvMkdirAll _ | EvCreateTemp _ | EvCreate _
  | EvClose _ | EvRemove _ | EvRename _ _ | EvDo _ => true
  | _ => false
  end.

(** A fresh response writer for a client that reads [room] bytes
    ([None]: the whole response). *)
Definition newResponseWriter (room : option Z) : ResponseWriter :=
  mkRW ∅ [] None (mkWriter [] room).

(** The log line of a refused path. *)
Definition blocked (r : Request) : event :=
  EvLog "Path traversal attempt blocked: %s" [AStr (URLPath r)].

(** The content type [serveLocalFile] derives from the logical name. *)
Definition contentTypeOf (E : Env) (basePath : string) : string :=
  let contentType := mime_TypeByExtension E (filepath_Ext E basePath) in
  let contentType :=
    if String.eqb contentType "" then "application/octet-stream"
    else contentType in
  if HasSuffix basePath ".wasm" then "application/wasm" else contentType.

(** [basePath] of [serveLocalFile]: the name without [.br] and [.gz]. *)
Definition basePathOf (localPath : string) : string :=
  TrimSuffix (TrimSuffix localPath ".br") ".gz".

(** What [serveLocalFile] settles on through its three [stat]s: a file
    to serve and the encoding it gives it, a miss, or an answer of its
    own to a [stat] that failed. *)
Inductive choice : Type :=
| Serve (servePath encoding : string)
| Miss
| Trouble.

Definition chooses (E : Env) (f : gmap string node) (r : Request)
    (localPath : string) : choice :=
  let basePath := basePathOf localPath in
  if Contains (acceptEncoding E r) "br" &&
     regular (os_Stat f (basePath +:+ ".br"))
  then Serve (basePath +:+ ".br") "br"
  else if Contains (acceptEncoding E r) "gzip" &&
          regular (os_Stat f (basePath +:+ ".gz"))
  then Serve (basePath +:+ ".gz") "gzip"
  else match os_Stat f localPath with
       | StatOk false =>
           Serve localPath
                 (if HasSuffix localPath ".br" then "br"
                  else if HasSuffix localPath ".gz" then "gzip" else "")
       | StatError => Trouble
       | _ => Miss
       end.

(** A request [http.ServeFile] answers with the file: no [..] element
    and no [/index.html] at the end of its path, no precondition and no
    range. *)
Definition plain (r : Request) : Prop :=
  containsDotDot (URLPath r) = false ∧
  HasSuffix (URLPath r) "/index.html" = false ∧
  conditional r = false.

(** The response once [serveLocalFile] has set the content type: that of
    the name without [.br] and [.gz]. *)
Definition typed (E : Env) (w : ResponseWriter) (localPath : string)
  : ResponseWriter :=
  Header_Set "Content-Type" (contentTypeOf E (basePathOf localPath)) w.

(** The fallback as a reader of section 4.1 of the design expects it: a
    name of which only the [.br] variant is cached is served, decoded, to
    a client without brotli. *)
Definition br_fallback_by_logical_name : Prop :=
  ∀ E w r world name data,
    fs world !! (name +:+ ".br") = Some (File true data) →
    fs world !! name = None →
    fs world !! (name +:+ ".gz") = None →
    Contains (acceptEncoding E r) "br" = false →
    (run E (serveLocalFile E w r name) world).1.2 = true.

(** The [rename]s and the [remove]s a trace holds. *)
Definition renames (t : list event) : list (string * string) :=
  omap (λ e, match e with EvRename o n => Some (o, n) | _ => None end) t.

(** The request [proxyAndCache] sends to the origin. *)
Definition proxyRequest (E : Env) (r : Request) (url : string) : UpRequest :=
  mkUpRequest (Method r) url (forwardHeaders E (ReqHeader r)).

(** [needDecompress] of [proxyAndCache]. *)
Definition needsDecompress (E : Env) (r : Request) (url : string) : bool :=
  HasSuffix url ".br" && negb (Contains (acceptEncoding E r) "br").

(** The response once the origin's headers are copied and its status is
    written, just before the body is streamed. *)
Definition prepared (E : Env) (w : ResponseWriter) (r : Request)
    (url : string) (resp : Response) : ResponseWriter :=
  let w := copyHeaders E (RespHeader resp) w in
  let w := if needsDecompress E r url
           then Header_Del "Content-Length" (Header_Del "Content-Encoding" w)
           else w in
  WriteHeader (StatusCode resp) w.

(** The shared streaming pass: one [io.Copy] to the client through the
    tee on the temp file, decoding on the way if need be. *)
Definition sharedPass (E : Env) (w : ResponseWriter) (r : Request)
    (url : string) (resp : Response) (tempFile : Writer)
  : ResponseWriter * Writer * option ioerr :=
  let teeReader := TeeReader (LimitReader (RespBody resp) maxProxySize) in
  if needsDecompress E r url
  then CopyTo (prepared E w r url resp) (NewReader (brotli E) teeReader)
              tempFile
  else CopyTo (prepared E w r url resp) teeReader tempFile.

(** The path is taken by a directory. *)
Definition isDir (n : option node) : bool :=
  match n with Some Dir => true | _ => false end.

(** What [proxyAndCache] does from the peek at the registry to the
    closing of the temp file. *)
Definition cachingEvents (E : Env) (r : Request)
    (url localPath tempFileName : string) : list event :=
  [EvLoad localPath; EvDo (proxyRequest E r url);
   EvMkdirAll (filepath_Dir E localPath);
   EvCreateTemp (filepath_Dir E localPath); EvClose tempFileName].

(** A program run while other goroutines act on the shared state: the
    i-th element of [others] acts just before the i-th primitive. *)
Fixpoint interleaved (E : Env) {A} (p : prog A) (others : list (World → World))
    (w : World) : A * World :=
  match p with
  | Ret a => (a, w)
  | Vis o k =>
      let (x, w') := exec E o (match others with f :: _ => f w | [] => w end) in
      interleaved E (k x) (tail others) w'
  end.

(** What [activeDownloads.LoadOrStore] leaves behind when the path was
    free: the claim. *)
Definition claimed (p : string) (w : World) : World :=
  mkWorld (fs w) ({[p]} ∪ activeDownloads w) (count w)
          (trace w ++ [EvLoadOrStore p false]).

(** Every primitive a program may run satisfies [P]. *)
Fixpoint all_ops {A} (P : ∀ X, op X → Prop) (p : prog A) : Prop :=
  match p with
  | Ret _ => True
  | Vis o k => P _ o ∧ ∀ x, all_ops P (k x)
  end.

(** The primitives that only look, and the events they leave. *)
Definition looks {X} (o : op X) : Prop :=
  match o with
  | Stat _ | Open _ | Log _ _ => True
  | _ => False
  end.

Definition looked (e : event) : Prop :=
  match e with
  | EvStat _ | EvOpen _ | EvLog _ _ => True
  | _ => False
  end.

(** Whatever the primitives answer, the program returns a value in [Q]. *)
Fixpoint returns {A} (Q : A → Prop) (p : prog A) : Prop :=
  match p with
  | Ret a => Q a
  | Vis o k => ∀ x, returns Q (k x)
  end.

(** How many times a primitive bumps a counter. *)
Definition adds {X} (o : op X) : nat :=
  match o with Add _ => 1 | _ => 0 end.

(** On every path, the program bumps a counter exactly [n] times. *)
Fixpoint owes {A} (n : nat) (p : prog A) : Prop :=
  match p with
  | Ret _ => n = 0%nat
  | Vis o k => (adds o ≤ n)%nat ∧ ∀ x, owes (n - adds o) (k x)
  end.

(** The increments a goroutine still has to make for the item it has. *)
Definition owed (g : worker) (n : nat) : Prop :=
  match g with Busy p => owes n p | _ => n = 0%nat end.

(** The claims a goroutine holds after a primitive answered [x]. *)
Definition holding {X} (o : op X) : X → gset string → gset string :=
  match o in op X return X → gset string → gset string with
  | LoadOrStore p => λ loaded h, if loaded then h else {[p]} ∪ h
  | Delete p => λ _ h, h ∖ {[p]}
  | _ => λ _ h, h
  end.

(** A goroutine releases only what it holds. *)
Definition releasable {X} (o : op X) (h : gset string) : Prop :=
  match o with Delete p => p ∈ h | _ => True end.

(** Holding the claims [h], the program releases each of them, and each
    claim it takes, on every path to its end, and nothing else. *)
Fixpoint balanced {A} (h : gset string) (p : prog A) : Prop :=
  match p with
  | Ret _ => h = ∅
  | Vis o k => releasable o h ∧ ∀ x, balanced (holding o x h) (k x)
  end.

(** The claims a goroutine holds: those its remaining program gives
    back. *)
Definition holds (g : worker) (h : gset string) : Prop :=
  match g with Busy p => balanced h p | _ => h = ∅ end.

(** Successive [LoadOrStore]s of one path by [n] callers. *)
Fixpoint claimAll (E : Env) (p : string) (n : nat) (w : World)
  : list bool * World :=
  match n with
  | O => ([], w)
  | S n' =>
      let (loaded, w') := exec E (LoadOrStore p) w in
      let (rest, w'') := claimAll E p n' w' in
      (loaded :: rest, w'')
  end.

(** The primitives other than those of [activeDownloads]. *)
Definition claimless {X} (o : op X) : Prop :=
  match o with LoadOrStore _ | Delete _ => False | _ => True end.

(** The error [downloadWithWorkers] returns for [n] failures. *)
Definition verdict (files : list string) (label : string) (n : Z)
  : option error :=
  if 0 <? n then Some (ErrFailed n (total files) label) else None.

(** Every item is in exactly one place: still to be sent, in the
    channel, with a worker that has not counted it yet, or counted. *)
Record accounted (E : Env) (files : list string) (label : string)
    (st : Pool) : Prop := {
  acc_items :
    ∃ ns, Forall2 owed (goroutines st) ns ∧
          sum3 (count (shared st)) + Z.of_nat (sum_list ns) +
          Z.of_nat (List.length (work st)) +
          Z.of_nat (List.length (unsent st)) = total files;
  acc_closed : closed st = true → unsent st = [];
  acc_room : (List.length (work st) ≤ List.length (goroutines st))%nat;
  acc_workers : List.length (goroutines st) = Z.to_nat (workers E);
  acc_gone : Gone ∈ goroutines st → closed st = true ∧ work st = [];
  acc_returned :
    ∀ r, returned st = Some r →
         Forall (λ g, g = Gone) (goroutines st) ∧ closed st = true ∧
         r = verdict files label (count (shared st) failed)
}.

(** All workers waiting, nothing in the channel. *)
Definition waiting (E : Env) (rest : list string) (w : World) : Pool :=
  mkPool rest false [] (replicate (Z.to_nat (workers E)) Idle) None w.

(** The state after the first worker has taken the items one by one. *)
Definition oneByOne (E : Env) (files : list string)
    (baseURL outputDir label : string) (rest : list string) (w : World)
  : World :=
  foldl (λ w file,
           (run E (workItem E baseURL outputDir label (total files) file) w).2)
        w rest.

(** The goroutines [gs] hold pairwise disjoint sets of claims, all of
    them registered in [active], and each goroutine gives back exactly
    what it holds. *)
Definition exclusive_in (gs : list worker) (active : gset string) : Prop :=
  ∃ hs : list (gset string),
    Forall2 holds gs hs ∧
    (∀ i j hi hj, i ≠ j → hs !! i = Some hi → hs !! j = Some hj → hi ## hj) ∧
    (∀ i hi, hs !! i = Some hi → hi ⊆ active).

(** No path is claimed by two workers of the pool at once. *)
Definition exclusive (st : Pool) : Prop :=
  exclusive_in (goroutines st) (activeDownloads (shared st)).

(** ** What the further properties speak about *)

(** The event a primitive leaves in the trace when it answers [x]. *)
Definition ev {X} (o : op X) : X → event :=
  match o in op X return X → event with
  | Stat p => λ _, EvStat p
  | Open p => λ _, EvOpen p
  | MkdirAll p => λ _, EvMkdirAll p
  | CreateTemp dir _ => λ _, EvCreateTemp dir
  | Create p => λ _, EvCreate p
  | Close p _ => λ _, EvClose p
  | Remove p => λ _, EvRemove p
  | Rename old new => λ _, EvRename old new
  | Load p => λ _, EvLoad p
  | LoadOrStore p => λ loaded, EvLoadOrStore p loaded
  | Delete p => λ _, EvDelete p
  | Do req => λ _, EvDo req
  | Add c => λ _, EvAdd c
  | CounterLoad c => λ _, EvCounterLoad c
  | Log format args => λ _, EvLog format args
  end.

(** The primitives that only write to the log. *)
Definition logs {X} (o : op X) : Prop :=
  match o with Log _ _ => True | _ => False end.

(** [localPath] of [handleVcsky]. *)
Definition localPathOf (E : Env) (r : Request) : string :=
  filepath_Join E (downloadDir E) (TrimPrefix (URLPath r) "/vcsky/").

(** The primitives other than a request to the origin. *)
Definition fetchless {X} (o : op X) : Prop :=
  match o with Do _ => False | _ => True end.

(** What the client has when [proxyAndCache] relays the origin's answer
    without caching it: the origin's headers and status, and the body
    below the cap, decoded if need be. *)
Definition relayed (E : Env) (w : ResponseWriter) (r : Request)
    (url : string) (resp : Response) : ResponseWriter :=
  let limitedBody := LimitReader (RespBody resp) maxProxySize in
  (CopyTo (prepared E w r url resp)
          (if needsDecompress E r url
           then NewReader (brotli E) (reader limitedBody)
           else reader limitedBody) tt).1.1.

(** [url] of [handleVcsky]: the CDN address of the path, with the query
    of the request. *)
Definition urlOf (E : Env) (r : Request) : string :=
  let url := cdn E +:+ TrimPrefix (URLPath r) "/vcsky/" in
  if String.eqb (RawQuery r) "" then url else url +:+ "?" +:+ RawQuery r.

(** The request [downloadFile] sends. *)
Definition downloadRequest (url : string) : UpRequest :=
  mkUpRequest "GET" url {["Accept-Encoding" := ["gzip, br"]]}.

(** [body] of [downloadFile]: the body of the response behind the decoder
    its [Content-Encoding] names, if that decoder can be set up. *)
Definition decodedBody (E : Env) (resp : Response) : option (Reader unit) :=
  let encoding := Header_Get (RespHeader resp) "Content-Encoding" in
  if String.eqb encoding "br"
  then Some (NewReader (brotli E) (reader (RespBody resp)))
  else if String.eqb encoding "gzip" then gzip_NewReader E (RespBody resp)
  else Some (reader (RespBody resp)).

(** On the disk [f], the program only stats and counts what it skips. *)
Fixpoint only_skips (f : gmap string node) {A} (p : prog A) : Prop :=
  match p with
  | Ret _ => True
  | Vis o k =>
      match o in op X return (X → prog A) → Prop with
      | Stat path => λ k, only_skips f (k (os_Stat f path))
      | Add c => λ k, c = skipped ∧ only_skips f (k tt)
      | _ => λ _, False
      end k
  end.

(** A pool that has only skipped so far, started on the disk of [w]. *)
Record skipping (files : list string) (w : World) (st : Pool) : Prop := {
  sk_fs : fs (shared st) = fs w;
  sk_fetches : fetches (trace (shared st)) = fetches (trace w);
  sk_downloaded : count (shared st) downloaded = 0;
  sk_failed : count (shared st) failed = 0;
  sk_goroutines :
    Forall (λ g, match g with Busy p => only_skips (fs w) p | _ => True end)
           (goroutines st);
  sk_work : Forall (λ file, file ∈ files) (work st);
  sk_unsent : Forall (λ file, file ∈ files) (unsent st)
}.

(** What [basicAuthMiddleware] takes for the credentials [login] and
    [password]: a header [scheme payload] whose scheme [strings.ToLower]
    turns into [basic] and whose payload decodes to [login:password], cut
    at the first space and at the first colon. *)
Definition credentials (E : Env) (login password : string)
    (base64_DecodeString : string → option bytes) (auth : string) : Prop :=
  ∃ scheme payload decoded,
    auth = scheme +:+ " " +:+ payload ∧
    cut scheme " " = None ∧
    ToLower (lowerUnicode E) scheme = "basic" ∧
    base64_DecodeString payload = Some decoded ∧
    string_of_list_byte decoded = login +:+ ":" +:+ password ∧
    cut login ":" = None.

(** The calls a handler makes on the writer it is given. *)
Inductive wcall : Type :=
| CallWriteHeader (code : Z)
| CallWrite (b : bytes)
| CallHeaderSet (key value : string)
| CallHeaderDel (key : string).

(** A call made on the [responseWriter] of [loggingMiddleware], and the
    same call made on the writer of the server. *)
Definition through (rw : responseWriter) (c : wcall) : responseWriter :=
  match c with
  | CallWriteHeader code => rw_WriteHeader code rw
  | CallWrite b => (rw_Write b rw).1.1
  | CallHeaderSet key value => rw_Header_Set key value rw
  | CallHeaderDel key => rw_Header_Del key rw
  end.

Definition direct (w : ResponseWriter) (c : wcall) : ResponseWriter :=
  match c with
  | CallWriteHeader code => WriteHeader code w
  | CallWrite b => (ResponseWriter_Write b w).1.1
  | CallHeaderSet key value => Header_Set key value w
  | CallHeaderDel key => Header_Del key w
  end.

(** The codes that end up as the status: three digits, and not
    informational. *)
Definition finalCode (code : Z) : bool :=
  validCode code && negb (informational code).

(** The call passes [WriteHeader] no other. *)
Definition finalCall (c : wcall) : Prop :=
  match c with
  | CallWriteHeader code => finalCode code = true
  | _ => True
  end.

(** ** A small concrete installation *)

Module Example.

(** A toy codec: every byte of the compressed form stands for two. *)
Definition expand : Decoder :=
  mkDecoder unit tt
    (λ _ bs, (flat_map (λ b, [b; b]) bs, inl tt))
    (λ _, ([], None)).

Definition abc : bytes := list_byte_of_string "abc".

(** One byte more than the proxy accepts. *)
Definition huge : bytes := repeat "000"%byte (Z.to_nat (maxProxySize + 1)).

(** [filepath.Dir], [filepath.Ext] and [mime.TypeByExtension] for the
    clean slash-separated paths of the examples. *)
Definition dir (path : string) : string :=
  let d := String.concat "/" (removelast (SplitSlash path)) in
  if String.eqb d "" then (if HasPrefix path "/" then "/" else ".") else d.

Fixpoint ext (path : string) : string :=
  match path with
  | EmptyString => EmptyString
  | String c rest =>
      if Contains rest "/" || Contains rest "." then ext rest
      else if Ascii.eqb c "." then path
      else EmptyString
  end.

Definition mimeType (e : string) : string :=
  if String.eqb e ".js" then "text/javascript; charset=utf-8"
  else if String.eqb e ".wasm" then "application/wasm"
  else if String.eqb e ".mp3" then "audio/mpeg"
  else "".

(** An origin that has everything but [missing]. *)
Definition upstream (req : UpRequest) : option Response :=
  if String.eqb (UpURL req) "https://cdn.dos.zone/vcsky/missing"
  then Some (mkResponse 404 (-1) ∅ BEOF)
  else Some (mkResponse 200 6 ∅ (BData abc (BData abc BEOF))).

(** No example has a byte outside ASCII or a request with a
    precondition or a range: what stands for the case tables and for the
    answer to such a request is of no account. *)
Definition env : Env := {|
  cdn := "https://cdn.dos.zone/vcsky/";
  downloadDir := "/cache";
  workers := 2;
  filepath_Join := λ dir name, dir +:+ "/" +:+ name;
  filepath_Dir := dir;
  filepath_Ext := ext;
  mime_TypeByExtension := mimeType;
  brotli := expand;
  gzip := expand;
  gzip_header := λ _, true;
  http_NewRequest := λ _ _, true;
  distFS := λ _, None;
  lowerUnicode := λ s, s;
  http_DetectContentType := λ _, "application/octet-stream";
  lastModified := λ _, "Mon, 02 Jan 2006 15:04:05 GMT";
  serveConditional := λ w _ _ _, WriteHeader 304 w;
  origin := upstream;
  mkdir_ok := λ _, true;
  temp_file := λ dir _, Some (dir +:+ "/.tmp-1", None);
  create_ok := λ _, Some None;
  rename_ok := λ _ _, true
|}.

Definition get (path acceptEncoding : string) : Request :=
  mkRequest "GET" path ""
    (if String.eqb acceptEncoding "" then ∅
     else {["Accept-Encoding" := [acceptEncoding]]}).

Definition disk (files : gmap string node) : World :=
  mkWorld files ∅ (λ _, 0) [].

(** The cache directory, empty, and the same with a temp file in it. *)
Definition cacheDir : gmap string node := {["/cache" := Dir]}.
Definition withTemp : gmap string node :=
  <["/cache/.tmp-1" := File true []]> cacheDir.

Definition hugeResponse : Response :=
  mkResponse 200 (-1) ∅ (BData huge BEOF).

(** The same installation in front of an origin that sends [huge]
    without declaring a length. *)
Definition hugeEnv : Env := {|
  cdn := cdn env;
  downloadDir := downloadDir env;
  workers := workers env;
  filepath_Join := filepath_Join env;
  filepath_Dir := filepath_Dir env;
  filepath_Ext := filepath_Ext env;
  mime_TypeByExtension := mime_TypeByExtension env;
  brotli := brotli env;
  gzip := gzip env;
  gzip_header := gzip_header env;
  http_NewRequest := http_NewRequest env;
  distFS := distFS env;
  lowerUnicode := lowerUnicode env;
  http_DetectContentType := http_DetectContentType env;
  lastModified := lastModified env;
  serveConditional := serveConditional env;
  origin := λ _, Some hugeResponse;
  mkdir_ok := mkdir_ok env;
  temp_file := temp_file env;
  create_ok := create_ok env;
  rename_ok := rename_ok env
|}.

Definition smallResponse : Response :=
  mkResponse 200 6 ∅ (BData abc (BData abc BEOF)).

End Example.

(** ** Further concrete installations *)

Module Sample.

(** [base64.StdEncoding.DecodeString] on input without line breaks: four
    characters of the alphabet give three bytes, the last group may be
    padded. *)
Definition sextet (c : ascii) : option N :=
  let n := N_of_ascii c in
  if ((65 <=? n) && (n <=? 90))%N then Some (n - 65)%N
  else if ((97 <=? n) && (n <=? 122))%N then Some (n - 71)%N
  else if ((48 <=? n) && (n <=? 57))%N then Some (n + 4)%N
  else if (n =? 43)%N then Some 62%N
  else if (n =? 47)%N then Some 63%N
  else None.

Definition octets (n : N) (count : nat) : option bytes :=
  mapM Byte.of_N
    (take count [(n / 65536)%N; ((n / 256) mod 256)%N; (n mod 256)%N]).

Fixpoint base64 (s : string) : option bytes :=
  match s with
  | EmptyString => Some []
  | String a (String b (String c (String d rest))) =>
      match sextet a, sextet b with
      | Some a, Some b =>
          let pad := ascii_of_nat 61 in
          if Ascii.eqb c pad && Ascii.eqb d pad && String.eqb rest "" then
            octets (a * 262144 + b * 4096) 1
          else if Ascii.eqb d pad && String.eqb rest "" then
            match sextet c with
            | Some c => octets (a * 262144 + b * 4096 + c * 64) 2
            | None => None
            end
          else
            match sextet c, sextet d, base64 rest with
            | Some c, Some d, Some more =>
                match octets (a * 262144 + b * 4096 + c * 64 + d) 3 with
                | Some group => Some (group ++ more)
                | None => None
                end
            | _, _, _ => None
            end
      | _, _ => None
      end
  | _ => None
  end.

(** [Example.env] with another worker count, other embedded files,
    another origin and another disk. *)
Definition custom (n : Z) (dist : string → option bytes)
    (o : UpRequest → option Response) (mkdir : string → bool)
    (rename : string → string → bool) : Env := {|
  cdn := cdn Example.env;
  downloadDir := downloadDir Example.env;
  workers := n;
  filepath_Join := filepath_Join Example.env;
  filepath_Dir := filepath_Dir Example.env;
  filepath_Ext := filepath_Ext Example.env;
  mime_TypeByExtension := mime_TypeByExtension Example.env;
  brotli := brotli Example.env;
  gzip := gzip Example.env;
  gzip_header := gzip_header Example.env;
  http_NewRequest := http_NewRequest Example.env;
  distFS := dist;
  lowerUnicode := lowerUnicode Example.env;
  http_DetectContentType := http_DetectContentType Example.env;
  lastModified := lastModified Example.env;
  serveConditional := serveConditional Example.env;
  origin := o;
  mkdir_ok := mkdir;
  temp_file := temp_file Example.env;
  create_ok := create_ok Example.env;
  rename_ok := rename
|}.

Definition html : bytes := list_byte_of_string "<html></html>".
Definition js : bytes := list_byte_of_string "run()".

Definition pages (name : string) : option bytes :=
  if String.eqb name "dist/index.html" then Some html
  else if String.eqb name "dist/app.js" then Some js
  else None.

(** The embedded site in front of the origin of [Example.env]. *)
Definition site : Env :=
  custom 2 pages Example.upstream (λ _, true) (λ _ _, true).

(** An origin that answers [HEAD] with the headers alone. *)
Definition headOrigin (req : UpRequest) : option Response :=
  if String.eqb (UpMethod req) "HEAD"
  then Some (mkResponse 200 6 ∅ BEOF)
  else Some Example.smallResponse.

Definition heading : Env :=
  custom 2 pages headOrigin (λ _, true) (λ _ _, true).

(** An origin that compresses what it sends. *)
Definition compressed : Response :=
  mkResponse 200 3 {["Content-Encoding" := ["br"]]} (BData Example.abc BEOF).

Definition compressing : Env :=
  custom 2 pages (λ _, Some compressed) (λ _, true) (λ _ _, true).

(** No origin; a disk that takes no directory; a disk that renames
    nothing; no worker. *)
Definition offline : Env :=
  custom 2 pages (λ _, None) (λ _, true) (λ _ _, true).

Definition readOnly : Env :=
  custom 2 pages Example.upstream (λ _, false) (λ _ _, true).

Definition noRename : Env :=
  custom 2 pages Example.upstream (λ _, true) (λ _ _, false).

Definition idle : Env :=
  custom 0 pages Example.upstream (λ _, true) (λ _ _, true).

(** The flags as [init] declares them, and an environment that tries to
    turn the port and the workers off. *)
Definition flags : Flags.t :=
  Flags.mk 8000 "" "" "https://cdn.dos.zone/vcsky/" "" false false 8.

Definition getenv (name : string) : string :=
  if String.eqb name "PORT" then "0"
  else if String.eqb name "WORKERS" then "-3"
  else if String.eqb name "AUTH_LOGIN" then "admin"
  else "".

End Sample.

Arguments WriteHeader : simpl never.
Arguments Header_Set : simpl never.
Arguments Header_Del : simpl never.
Arguments CopyTo : simpl never.
Arguments http_Write : simpl never.
Arguments http_Error : simpl never.
Arguments http_NotFound : simpl never.
Arguments maxProxySize : simpl never.
Arguments forwardHeaders : simpl never.
Arguments copyHeaders : simpl never.
Arguments prepared : simpl never.

(** * Properties *)

(** ** Strings *)

Lemma HasPrefix_split s p :
  HasPrefix s p = true → s = p +:+ Strings.from (String.length p) s.
Proof.
  revert s; induction p as [|c p IH]; intros [|d s]; simpl; try done.
  destruct (Ascii.eqb_spec c d) as [->|]; [|done].
  intros H. change (String d s = String d (p +:+ Strings.from (String.length p) s)).
  f_equal. by apply IH.
Qed.

Lemma SplitSlash_cons s : ∃ seg segs, SplitSlash s = seg :: segs.
Proof.
  destruct s as [|c s]; simpl; [by eauto|].
  destruct (Ascii.eqb c "/"); [by eauto|].
  destruct (SplitSlash s); eauto.
Qed.

Lemma SplitSlash_head a seg segs s :
  SplitSlash s = String a seg :: segs → ∃ t, s = String a t.
Proof.
  destruct s as [|c s]; simpl; [done|].
  destruct (Ascii.eqb c "/"); [done|].
  destruct (SplitSlash s); intros [= -> _]; eauto.
Qed.

(** A path with a [".."] segment contains the two dots. *)
Lemma segment_Contains s : ".." ∈ SplitSlash s → Contains s ".." = true.
Proof.
  induction s as [|c s IH]; simpl.
  - intros H. apply list_elem_of_singleton in H. done.
  - destruct (Ascii.eqb c "/") eqn:Hc.
    + intros H. apply elem_of_cons in H as [H|H]; [done|].
      rewrite (IH H). apply orb_true_r.
    + destruct (SplitSlash s) as [|seg segs] eqn:Hs.
      { destruct (SplitSlash_cons s) as (?&?&?). congruence. }
      intros H. apply elem_of_cons in H as [H|H].
      * injection H as <- <-.
        destruct (SplitSlash_head _ _ _ _ Hs) as [t ->]. reflexivity.
      * rewrite IH; [apply orb_true_r|]. by apply elem_of_cons; right.
Qed.

(** The route prefix holds no dot, so stripping it keeps every [".."]. *)
Lemma Contains_TrimPrefix_vcsky s :
  Contains s ".." = true → Contains (TrimPrefix s "/vcsky/") ".." = true.
Proof.
  unfold TrimPrefix. destruct (HasPrefix s "/vcsky/") eqn:Hp; [|done].
  apply HasPrefix_split in Hp. revert Hp. generalize (Strings.from (String.length "/vcsky/") s).
  intros t -> H. simpl in H. destruct t as [|c t]; [done|].
  simpl in H |- *. destruct (Ascii.eqb "." c); simpl in *; done.
Qed.

Lemma Contains_TrimPrefix_slash s :
  Contains s ".." = true → Contains (TrimPrefix s "/") ".." = true.
Proof.
  unfold TrimPrefix. destruct (HasPrefix s "/") eqn:Hp; [|done].
  apply HasPrefix_split in Hp. revert Hp. generalize (Strings.from (String.length "/") s).
  intros t -> H. simpl in H. done.
Qed.

Lemma hasParentSegment_Contains s :
  hasParentSegment s = true → Contains s ".." = true.
Proof.
  unfold hasParentSegment. intros H.
  apply existsb_exists in H as (seg & Hin & Heq).
  apply String.eqb_eq in Heq as <-.
  apply segment_Contains. by apply list_elem_of_In.
Qed.

(** ** Running programs *)

Lemma run_bind E {A B} (p : prog A) (f : A → prog B) w :
  run E (bind p f) w = run E (f (run E p w).1) (run E p w).2.
Proof.
  revert w. induction p as [a|X o k IH]; intros w; simpl; [done|].
  destruct (exec E o w) as [x w']. apply IH.
Qed.

Lemma run_Vis E {A X} (o : op X) (k : X → prog A) w :
  run E (Vis o k) w = run E (k (exec E o w).1) (exec E o w).2.
Proof. simpl. by destruct (exec E o w). Qed.

Lemma run_call E {X} (o : op X) w : run E (call o) w = exec E o w.
Proof. unfold call. simpl. by destruct (exec E o w). Qed.

(** ** The traversal filter *)

Lemma handleVcsky_blocked E w r world :
  Contains (TrimPrefix (URLPath r) "/vcsky/") ".." = true →
  run E (handleVcsky E w r) world = (http_NotFound w, record (blocked r) world).
Proof. intros H. unfold handleVcsky. by rewrite H. Qed.

Lemma handleRoot_blocked E w r world :
  Contains (URLPath r) ".." = true →
  run E (handleRoot E w r) world = (http_NotFound w, record (blocked r) world).
Proof.
  intros H. unfold handleRoot.
  destruct (String.eqb_spec (URLPath r) "/") as [Heq|_].
  { by rewrite Heq in H. }
  by rewrite (Contains_TrimPrefix_slash _ H).
Qed.

Lemma CopyTo_status {Σ} w (src : Reader Σ) σ :
  status (CopyTo w src σ).1.1 = status (WriteHeader StatusOK w).
Proof. unfold CopyTo. by destruct (Copy _ _ _) as [[? ?] ?]. Qed.

Lemma WriteHeader_header code w : header (WriteHeader code w) = header w.
Proof. unfold WriteHeader. by destruct (status w), (informational code). Qed.

Lemma WriteHeader_wbody code w : wbody (WriteHeader code w) = wbody w.
Proof. unfold WriteHeader. by destruct (status w), (informational code). Qed.

(** A code that is not informational is the status, unless one is
    written already. *)
Lemma WriteHeader_status code w :
  informational code = false →
  status (WriteHeader code w) = Some (default code (status w)).
Proof.
  intros Hcode. unfold WriteHeader. rewrite Hcode.
  by destruct (status w) eqn:H; simpl; rewrite ?H.
Qed.

Lemma CopyTo_header {Σ} w (src : Reader Σ) σ :
  header (CopyTo w src σ).1.1 = header w.
Proof.
  unfold CopyTo. destruct (Copy _ _ _) as [[? ?] ?]. simpl.
  apply WriteHeader_header.
Qed.

Lemma CopyTo_wbody {Σ} w (src : Reader Σ) σ :
  wbody (CopyTo w src σ).1.1 = (Copy (wbody w) src σ).1.1.
Proof.
  unfold CopyTo. rewrite WriteHeader_wbody.
  by destruct (Copy _ _ _) as [[? ?] ?].
Qed.

Lemma http_Error_status w msg code :
  informational code = false →
  status w = None → status (http_Error w msg code) = Some code.
Proof.
  intros Hcode Hw. unfold http_Error, http_Write.
  rewrite CopyTo_status, !WriteHeader_status by done. simpl. by rewrite Hw.
Qed.

Lemma http_NotFound_status w :
  status w = None → status (http_NotFound w) = Some StatusNotFound.
Proof. by apply http_Error_status. Qed.

(** C3. A request whose path, once the [/vcsky/] prefix is stripped, has a
    parent-directory segment is answered NotFound, and the handler does
    nothing else than log the attempt: no stat, no open, no write, no
    fetch, and the cache and the in-flight registry are as they were. *)
Theorem parent_segment_never_reaches_filesystem E w r world :
  status w = None →
  hasParentSegment (TrimPrefix (URLPath r) "/vcsky/") = true →
  let out := run E (handleVcsky E w r) world in
  status out.1 = Some StatusNotFound ∧
  fs out.2 = fs world ∧
  activeDownloads out.2 = activeDownloads world ∧
  trace out.2 = trace world ++ [blocked r] ∧
  touches (blocked r) = false.
Proof.
  intros Hw Hseg. apply hasParentSegment_Contains in Hseg.
  rewrite (handleVcsky_blocked _ _ _ _ Hseg). simpl.
  by rewrite (http_NotFound_status _ Hw).
Qed.

Lemma parent_segment_never_reaches_filesystem_witness :
  let r := Example.get "/vcsky/../../etc/passwd" "" in
  let world := Example.disk {["/etc/passwd" := File true Example.abc]} in
  let out := run Example.env
               (handleVcsky Example.env (newResponseWriter None) r) world in
  hasParentSegment (TrimPrefix (URLPath r) "/vcsky/") = true ∧
  status out.1 = Some StatusNotFound ∧
  fs out.2 = fs world ∧
  trace out.2 = [blocked r].
Proof.
  intros r world out. split; [reflexivity|].
  destruct (parent_segment_never_reaches_filesystem Example.env
              (newResponseWriter None) r world) as (H1 & H2 & _ & H4 & _);
    [reflexivity | reflexivity | ].
  auto.
Defined.

(** C9. The filter is a substring test.  Every request path that
    contains two consecutive dots is answered NotFound by [handleVcsky]
    and by [handleRoot] alike, whatever the cache holds, with nothing but
    the log line; this covers every path with a parent-directory segment
    and more: ["a..b.mp3"] has no such segment and is refused too. *)
Theorem dotdot_anywhere_is_refused :
  (∀ E w r world,
     status w = None →
     Contains (URLPath r) ".." = true →
     (let out := run E (handleVcsky E w r) world in
      status out.1 = Some StatusNotFound ∧ fs out.2 = fs world ∧
      trace out.2 = trace world ++ [blocked r]) ∧
     (let out := run E (handleRoot E w r) world in
      status out.1 = Some StatusNotFound ∧ fs out.2 = fs world ∧
      trace out.2 = trace world ++ [blocked r])) ∧
  (∀ path, hasParentSegment path = true → Contains path ".." = true) ∧
  Contains "a..b.mp3" ".." = true ∧
  hasParentSegment "a..b.mp3" = false.
Proof.
  split; [|split; [apply hasParentSegment_Contains|done]].
  intros E w r world Hw H. split.
  - rewrite (handleVcsky_blocked _ _ _ _ (Contains_TrimPrefix_vcsky _ H)).
    simpl. by rewrite (http_NotFound_status _ Hw).
  - rewrite (handleRoot_blocked _ _ _ _ H).
    simpl. by rewrite (http_NotFound_status _ Hw).
Qed.

Lemma dotdot_anywhere_is_refused_witness :
  let r := Example.get "/vcsky/a..b.mp3" "" in
  let world := Example.disk {["/cache/a..b.mp3" := File true Example.abc]} in
  let out := run Example.env
               (handleVcsky Example.env (newResponseWriter None) r) world in
  Contains (URLPath r) ".." = true ∧
  fs world !! "/cache/a..b.mp3" = Some (File true Example.abc) ∧
  status out.1 = Some StatusNotFound ∧
  trace out.2 = [blocked r].
Proof.
  intros r world out. split; [reflexivity|]. split; [reflexivity|].
  destruct (proj1 dotdot_anywhere_is_refused Example.env
              (newResponseWriter None) r world) as [(H1 & _ & H3) _];
    [reflexivity | reflexivity | ].
  auto.
Defined.

(** ** Streams *)



Lemma Write_ok w bs w' n :
  Write w bs = (w', n, None) → wdata w' = wdata w ++ bs.
Proof.
  unfold Write. destruct (wroom w) as [room|].
  - destruct (blen bs <=? room); by intros [= <- _].
  - by intros [= <- _].
Qed.

Lemma Write_unlimited w bs :
  wroom w = None → Write w bs = (mkWriter (wdata w ++ bs) None, blen bs, None).
Proof. unfold Write. by intros ->. Qed.

(** [io.LimitReader] passes at most [n] bytes, and exactly the first [n]
    of a longer body. *)
Lemma LimitReader_bytes b n :
  body_bytes (LimitReader b n) = take (Z.to_nat n) (body_bytes b).
Proof.
  revert n. induction b as [|e|bs rest IH]; intros n; simpl;
    destruct (Z.leb_spec n 0) as [Hn|Hn]; simpl; rewrite ?take_nil; try done.
  - by replace (Z.to_nat n) with 0%nat by lia.
  - destruct (Z.ltb_spec n (blen bs)) as [Hlt|Hge]; simpl.
    + rewrite app_nil_r, take_app_le; [done|]. unfold blen in Hlt. lia.
    + rewrite IH, take_app_ge by (unfold blen in Hge; lia).
      do 2 f_equal. unfold blen. lia.
Qed.

Lemma LimitReader_ok b n : body_ok b = true → body_ok (LimitReader b n) = true.
Proof.
  revert n. induction b as [|e|bs rest IH]; intros n; simpl;
    destruct (n <=? 0); simpl; try done.
  intros H. destruct (n <? blen bs); simpl; auto.
Qed.

(** A body within the limit passes whole. *)
Lemma LimitReader_whole b n :
  blen (body_bytes b) ≤ n →
  body_bytes (LimitReader b n) = body_bytes b.
Proof.
  intros H. rewrite LimitReader_bytes. apply take_ge. unfold blen in H. lia.
Qed.

Lemma Copy_emit {Σ} dst out (r : Reader Σ) σ :
  Copy dst (emit out r) σ =
    match out with
    | [] => Copy dst r σ
    | _ => Copy dst (RData out r) σ
    end.
Proof. by destruct out. Qed.

(** The shared pass without decoding, when it ends without error: the
    body was read to its end and both sinks hold all of it. *)
Lemma Copy_Tee_ok b dst tmp dst' tmp' :
  Copy dst (TeeReader b) tmp = (dst', tmp', None) →
  body_ok b = true ∧
  wdata tmp' = wdata tmp ++ body_bytes b ∧
  wdata dst' = wdata dst ++ body_bytes b.
Proof.
  revert dst tmp. induction b as [|e|bs rest IH]; intros dst tmp; simpl.
  - intros [= <- <-]. by rewrite !app_nil_r.
  - done.
  - destruct (Write tmp bs) as [[tmp1 n] [e|]] eqn:Ht; simpl.
    + destruct (Write dst _) as [[? ?] [?|]]; done.
    + destruct (Write dst bs) as [[dst1 m] [e|]] eqn:Hd; [done|].
      intros H. apply IH in H as (Hok & Htmp & Hdst).
      rewrite Htmp, Hdst, (Write_ok _ _ _ _ Ht), (Write_ok _ _ _ _ Hd).
      by rewrite <- !app_assoc.
Qed.

(** With sinks that never fail, the pass ends without error when the
    body does. *)
Lemma Copy_Tee_unlimited b dst tmp :
  wroom dst = None → wroom tmp = None → body_ok b = true →
  (Copy dst (TeeReader b) tmp).2 = None.
Proof.
  revert dst tmp. induction b as [|e|bs rest IH]; intros dst tmp Hd Ht Hb;
    simpl in *; try done.
  rewrite (Write_unlimited _ _ Ht). simpl.
  rewrite (Write_unlimited _ _ Hd). by apply IH.
Qed.

(** The shared pass with decoding, when it ends without error: the body
    was read to its end, the file holds all of it as it came, and the
    client got what decoding the body alone would have given. *)
Lemma Copy_decode_Tee_ok D st b dst tmp dst' tmp' :
  Copy dst (decode D st (TeeReader b)) tmp = (dst', tmp', None) →
  body_ok b = true ∧
  wdata tmp' = wdata tmp ++ body_bytes b ∧
  Copy dst (decode D st (reader b)) tt = (dst', tt, None).
Proof.
  revert st dst tmp. induction b as [|e|bs rest IH]; intros st dst tmp; simpl.
  - destruct (dclose D st) as [out [e|]]; rewrite !Copy_emit.
    + destruct out; simpl; [done|].
      destruct (Write dst _) as [[? ?] [?|]]; done.
    + intros H. rewrite app_nil_r. split; [done|].
      destruct out; simpl in *.
      * by injection H as <- <-.
      * destruct (Write dst _) as [[? ?] [?|]]; [done|]. by injection H as <- <-.
  - done.
  - destruct (Write tmp bs) as [[tmp1 n] [e|]] eqn:Ht; simpl.
    + destruct (dfeed D st _) as [out [st'|e']]; rewrite Copy_emit;
        destruct out; simpl; try done;
        destruct (Write dst _) as [[? ?] [?|]]; done.
    + destruct (dfeed D st bs) as [out [st'|e']]; rewrite !Copy_emit.
      * destruct out; simpl.
        -- intros H. apply IH in H as (Hok & Htmp & Hc).
           rewrite Htmp, (Write_ok _ _ _ _ Ht), <- app_assoc. done.
        -- destruct (Write dst _) as [[dst1 m] [e|]]; [done|].
           intros H. apply IH in H as (Hok & Htmp & Hc).
           rewrite Htmp, (Write_ok _ _ _ _ Ht), <- app_assoc. done.
      * destruct out; simpl; try done.
        destruct (Write dst _) as [[? ?] [?|]]; done.
Qed.

Arguments Copy : simpl never.
Arguments NewReader : simpl never.
Arguments TeeReader : simpl never.
Arguments LimitReader : simpl never.

(** ** Programs that only look *)

Lemma all_ops_bind {A B} P (p : prog A) (f : A → prog B) :
  all_ops P p → (∀ a, all_ops P (f a)) → all_ops P (bind p f).
Proof. induction p; simpl; [auto|]. intros [? ?] ?. split; auto. Qed.

Ltac explore :=
  repeat (simpl;
          match goal with
          | |- _ ∧ _ => split
          | |- ∀ _, _ => intro
          | |- True => exact I
          | |- all_ops _ (bind _ _) => apply all_ops_bind
          | |- all_ops _ (match ?x with _ => _ end) => destruct x
          end);
  try done.

Lemma looks_exec E {X} (o : op X) w :
  looks o → ∃ e, (exec E o w).2 = record e w ∧ looked e.
Proof. destruct o; simpl; try done; intros _; by eexists. Qed.

(** A program that only stats, opens and logs leaves the cache, the
    registry and the counters as they are. *)
Lemma looks_run E {A} (p : prog A) w :
  all_ops (@looks) p →
  fs (run E p w).2 = fs w ∧
  activeDownloads (run E p w).2 = activeDownloads w ∧
  count (run E p w).2 = count w ∧
  ∃ evs, trace (run E p w).2 = trace w ++ evs ∧ Forall looked evs.
Proof.
  revert w. induction p as [a|X o k IH]; intros w; simpl.
  - intros _. repeat split. exists []. by rewrite app_nil_r.
  - intros [Ho Hk].
    destruct (looks_exec E o w Ho) as (e & He & Hl).
    destruct (exec E o w) as [x w']. simpl in He. subst w'.
    destruct (IH x (record e w) (Hk x)) as (H1 & H2 & H3 & evs & H4 & H5).
    rewrite H1, H2, H3, H4. repeat split.
    exists (e :: evs). simpl. rewrite <- app_assoc. split; [done|].
    by constructor.
Qed.

Lemma serveChosen_looks E w r localPath servePath encoding :
  all_ops (@looks) (serveChosen E w r localPath servePath encoding).
Proof. unfold serveChosen, http_ServeFile. explore. Qed.

Lemma serveLocalFile_looks E w r localPath :
  all_ops (@looks) (serveLocalFile E w r localPath).
Proof. unfold serveLocalFile, serveChosen, http_ServeFile. explore. Qed.

Lemma returns_bind {A B} (Q' : A → Prop) (Q : B → Prop) (p : prog A)
    (f : A → prog B) :
  returns Q' p → (∀ a, Q' a → returns Q (f a)) → returns Q (bind p f).
Proof. induction p; simpl; auto. Qed.

Lemma returns_run E {A} (Q : A → Prop) (p : prog A) w :
  returns Q p → Q (run E p w).1.
Proof.
  revert w. induction p as [a|X o k IH]; intros w; simpl; [done|].
  intros H. destruct (exec E o w) as [x w']. by apply IH.
Qed.

(** A miss leaves the response untouched. *)
Lemma serveLocalFile_untouched E w r localPath :
  returns (λ out, out.2 = false → out.1 = w) (serveLocalFile E w r localPath).
Proof.
  unfold serveLocalFile, serveChosen, http_ServeFile.
  repeat (simpl;
          match goal with
          | |- ∀ _, _ => intro
          | |- returns _ (bind _ _) => eapply (returns_bind (λ _, True))
          | |- returns _ (match ?x with _ => _ end) => destruct x
          | |- True => exact I
          end); done.
Qed.

Lemma serveLocalFile_miss_run E w r localPath world :
  let out := run E (serveLocalFile E w r localPath) world in
  out.1.2 = false →
  out.1.1 = w ∧ fs out.2 = fs world ∧
  activeDownloads out.2 = activeDownloads world.
Proof.
  intros out H.
  pose proof (returns_run E _ _ world (serveLocalFile_untouched E w r localPath)) as Hw.
  destruct (looks_run E _ world (serveLocalFile_looks E w r localPath))
    as (H1 & H2 & _).
  auto.
Qed.

(** ** Serving from the cache *)

Lemma TrimSuffix_none s suffix : HasSuffix s suffix = false → TrimSuffix s suffix = s.
Proof. unfold TrimSuffix. by intros ->. Qed.

(** What a program that only looks returns depends on the disk alone. *)
Lemma looks_run_result E {A} (p : prog A) w1 w2 :
  all_ops (@looks) p → fs w1 = fs w2 → (run E p w1).1 = (run E p w2).1.
Proof.
  revert w1 w2. induction p as [a|X o k IH]; intros w1 w2 Hp Hfs; [done|].
  destruct Hp as [Ho Hk]. rewrite !run_Vis.
  assert ((exec E o w1).1 = (exec E o w2).1 ∧
          fs (exec E o w1).2 = fs (exec E o w2).2) as [Hx Hf]
    by (destruct o; try done; simpl; by rewrite Hfs).
  rewrite Hx. by apply IH.
Qed.

(** A path that runs through no file is what the map says it is. *)
Lemma os_Stat_lookup f p :
  throughFile f p = false →
  os_Stat f p = match f !! p with
                | None => StatNotExist
                | Some Dir => StatOk true
                | Some (File _ _) => StatOk false
                | Some Broken => StatError
                end.
Proof. unfold os_Stat. by intros ->. Qed.

(** Below a file every path fails to [stat], and not as absent. *)
Lemma os_Stat_below f p : throughFile f p = true → os_Stat f p = StatError.
Proof. unfold os_Stat. by intros ->. Qed.

Lemma throughFile_parent f p q rd data :
  q ∈ parents p → f !! q = Some (File rd data) → throughFile f p = true.
Proof.
  intros Hq Hfile. unfold throughFile. apply existsb_exists.
  exists q. split; [by apply list_elem_of_In|]. by rewrite Hfile.
Qed.

(** What [stat] finds to be a regular file is one in the map. *)
Lemma os_Stat_regular f p :
  os_Stat f p = StatOk false → ∃ rd data, f !! p = Some (File rd data).
Proof.
  unfold os_Stat. destruct (throughFile f p); [done|].
  destruct (f !! p) as [[|rd data|]|]; try done. eauto.
Qed.

(** A file in the map is found by [stat] or makes it fail; it is never
    reported absent or as a directory. *)
Lemma os_Stat_file f p rd data :
  f !! p = Some (File rd data) →
  os_Stat f p = StatOk false ∨ os_Stat f p = StatError.
Proof.
  intros Hfile. unfold os_Stat. rewrite Hfile.
  destruct (throughFile f p); auto.
Qed.

Lemma absent_not_exists f p : f !! p = None → exists_ (os_Stat f p) = false.
Proof.
  intros Hnone. unfold os_Stat. rewrite Hnone.
  by destruct (throughFile f p).
Qed.

Lemma variant_named s c t : (s +:+ String c t =? "")%string = false.
Proof. by destruct s. Qed.

(** The three [stat]s of [serveLocalFile] settle its answer. *)
Lemma serveLocalFile_chooses E w r world localPath :
  (run E (serveLocalFile E w r localPath) world).1 =
    match chooses E (fs world) r localPath with
    | Serve servePath encoding =>
        (run E (serveChosen E w r localPath servePath encoding) world).1
    | Miss => (w, false)
    | Trouble =>
        (http_Error w "Internal server error" StatusInternalServerError, true)
    end.
Proof.
  unfold serveLocalFile, chooses. fold (basePathOf localPath).
  set (basePath := basePathOf localPath).
  assert (∀ servePath encoding world',
            fs world' = fs world →
            (run E (serveChosen E w r localPath servePath encoding) world').1 =
            (run E (serveChosen E w r localPath servePath encoding) world).1)
    as Hsame.
  { intros servePath encoding world' Hfs.
    apply looks_run_result; [apply serveChosen_looks|done]. }
  destruct (Contains (acceptEncoding E r) "br") eqn:Hab; simpl;
    try destruct (regular (os_Stat (fs world) (basePath +:+ ".br"))) eqn:Hbr;
    simpl; rewrite ?variant_named; simpl; try (by apply Hsame);
    destruct (Contains (acceptEncoding E r) "gzip") eqn:Hag; simpl;
    try destruct (regular (os_Stat (fs world) (basePath +:+ ".gz"))) eqn:Hgz;
    simpl; rewrite ?variant_named; simpl; try (by apply Hsame);
    destruct (os_Stat (fs world) localPath) as [[|]| |]; simpl;
    try done; by apply Hsame.
Qed.

(** Without an acceptable variant it is the path asked for that
    counts. *)
Lemma chooses_asked E f r localPath :
  Contains (acceptEncoding E r) "br" = false ∨
    regular (os_Stat f (basePathOf localPath +:+ ".br")) = false →
  Contains (acceptEncoding E r) "gzip" = false ∨
    regular (os_Stat f (basePathOf localPath +:+ ".gz")) = false →
  chooses E f r localPath =
    match os_Stat f localPath with
    | StatOk false =>
        Serve localPath
              (if HasSuffix localPath ".br" then "br"
               else if HasSuffix localPath ".gz" then "gzip" else "")
    | StatError => Trouble
    | _ => Miss
    end.
Proof.
  intros Hbr Hgz. unfold chooses.
  replace (Contains (acceptEncoding E r) "br" &&
           regular (os_Stat f (basePathOf localPath +:+ ".br"))) with false
    by (destruct Hbr as [-> | ->]; by rewrite ?andb_false_r).
  by replace (Contains (acceptEncoding E r) "gzip" &&
              regular (os_Stat f (basePathOf localPath +:+ ".gz"))) with false
    by (destruct Hgz as [-> | ->]; by rewrite ?andb_false_r).
Qed.

(** A [br] file for a client without brotli is decoded on the way
    out. *)
Lemma serveChosen_decoded E w r world localPath servePath data :
  Contains (acceptEncoding E r) "br" = false →
  os_Open (fs world) servePath = Opened data →
  (run E (serveChosen E w r localPath servePath "br") world).1 =
    ((CopyTo (typed E w localPath)
        (NewReader (brotli E) (RData data REOF)) tt).1.1, true).
Proof.
  intros Hab Hopen. unfold serveChosen. rewrite Hab. simpl. rewrite Hopen.
  fold (basePathOf localPath). fold (contentTypeOf E (basePathOf localPath)).
  fold (typed E w localPath).
  by destruct (CopyTo _ _ _) as [[w' []] [e|]].
Qed.

(** Any other file goes to [http.ServeFile] as it is, its encoding
    announced. *)
Lemma serveChosen_handed E w r world localPath servePath encoding :
  encoding ≠ "br" ∨ Contains (acceptEncoding E r) "br" = true →
  (run E (serveChosen E w r localPath servePath encoding) world).1 =
    ((run E (http_ServeFile E
               (if String.eqb encoding "" then typed E w localPath
                else Header_Set "Content-Encoding" encoding
                       (typed E w localPath))
               r servePath) world).1, true).
Proof.
  intros Hcase. unfold serveChosen.
  replace (String.eqb encoding "br" && negb (Contains (acceptEncoding E r) "br"))
    with false.
  - rewrite run_bind. simpl. done.
  - destruct Hcase as [Hne| ->]; [|by rewrite andb_false_r].
    by destruct (String.eqb_spec encoding "br").
Qed.

Lemma clean_containsDotDot v : Contains v ".." = false → containsDotDot v = false.
Proof. unfold containsDotDot. by intros ->. Qed.

(** What [http.ServeFile] answers a plain request for a file that
    opens, when the content type is set. *)
Lemma http_ServeFile_plain E w r name world data :
  plain r →
  os_Open (fs world) name = Opened data →
  is_Some (header w !! "Content-Type") →
  let out := (run E (http_ServeFile E w r name) world).1 in
  status out = Some (default StatusOK (status w)) ∧
  wbody out = (if String.eqb (Method r) "HEAD" then wbody w
               else (Copy (wbody w) (RData data REOF) tt).1.1) ∧
  (∀ k, k ≠ "Last-Modified" → k ≠ "Accept-Ranges" → k ≠ "Content-Length" →
        header out !! k = header w !! k) ∧
  header out !! "Accept-Ranges" = Some ["bytes"] ∧
  header out !! "Content-Length" =
    if String.eqb (Header_Get (header w) "Content-Encoding") ""
    then Some [Strconv.FormatInt (blen data)]
    else header w !! "Content-Length".
Proof.
  intros (Hdots & Hindex & Hcond) Hopen [ct Hct] out. subst out.
  unfold http_ServeFile. rewrite Hdots, Hindex. simpl. rewrite Hopen.
  unfold serveContent. rewrite Hcond.
  set (w1 := if String.eqb (lastModified E name) "" then w
             else Header_Set "Last-Modified" (lastModified E name) w).
  assert (status w1 = status w ∧ wbody w1 = wbody w ∧
          ∀ k, k ≠ "Last-Modified" → header w1 !! k = header w !! k)
    as (Hs1 & Hb1 & Hh1).
  { subst w1. destruct (String.eqb (lastModified E name) ""); [done|].
    unfold Header_Set. simpl. repeat split.
    intros k Hk. by rewrite lookup_insert_ne. }
  rewrite (Hh1 "Content-Type") by done. rewrite Hct.
  assert (Header_Get (header (Header_Set "Accept-Ranges" "bytes" w1))
            "Content-Encoding" = Header_Get (header w) "Content-Encoding")
    as Hce.
  { unfold Header_Get, Header_Set. simpl.
    rewrite lookup_insert_ne by done. by rewrite Hh1. }
  rewrite Hce.
  set (w2 := if String.eqb (Header_Get (header w) "Content-Encoding") ""
             then Header_Set "Content-Length" (Strconv.FormatInt (blen data))
                    (Header_Set "Accept-Ranges" "bytes" w1)
             else Header_Set "Accept-Ranges" "bytes" w1).
  assert (status w2 = status w ∧ wbody w2 = wbody w ∧
          (∀ k, k ≠ "Last-Modified" → k ≠ "Accept-Ranges" →
                k ≠ "Content-Length" → header w2 !! k = header w !! k) ∧
          header w2 !! "Accept-Ranges" = Some ["bytes"] ∧
          header w2 !! "Content-Length" =
            if String.eqb (Header_Get (header w) "Content-Encoding") ""
            then Some [Strconv.FormatInt (blen data)]
            else header w !! "Content-Length")
    as (Hs2 & Hb2 & Hh2 & Har & Hcl).
  { subst w2.
    destruct (String.eqb (Header_Get (header w) "Content-Encoding") "");
      unfold Header_Set; simpl; repeat split; try done.
    - intros k H1 H2 H3. rewrite !lookup_insert_ne by done. by apply Hh1.
    - rewrite lookup_insert_ne by done. by rewrite lookup_insert_eq.
    - by rewrite lookup_insert_eq.
    - intros k H1 H2 H3. rewrite !lookup_insert_ne by done. by apply Hh1.
    - by rewrite lookup_insert_eq.
    - rewrite lookup_insert_ne by done. by apply Hh1. }
  destruct (String.eqb (Method r) "HEAD").
  - rewrite WriteHeader_status, WriteHeader_wbody, WriteHeader_header by done.
    by rewrite Hs2, Hb2.
  - unfold http_Write.
    rewrite CopyTo_status, CopyTo_wbody, CopyTo_header.
    rewrite !WriteHeader_status, WriteHeader_wbody, WriteHeader_header by done.
    rewrite Hs2, Hb2. repeat split; done.
Qed.

Lemma gz_is_not_br s : HasSuffix s ".gz" = true → HasSuffix s ".br" = false.
Proof.
  unfold HasSuffix. intros [Hlen Hgz%String.eqb_eq]%andb_true_iff.
  simpl in *. rewrite Hlen, Hgz. done.
Qed.

(** C2, as stated, fails: with only [/cache/foo.js.br] on disk, a request
    for [foo.js] without [Accept-Encoding] is a cache miss. *)
Lemma br_fallback_by_logical_name_fails : ¬ br_fallback_by_logical_name.
Proof.
  intros H.
  specialize (H Example.env (newResponseWriter None)
                (Example.get "/vcsky/foo.js" "")
                (Example.disk {["/cache/foo.js.br" := File true Example.abc]})
                "/cache/foo.js" Example.abc).
  discriminate H; reflexivity.
Qed.

(** C2, amended.  [serveLocalFile] decodes brotli only for the path it
    is asked for, and gzip never.  (1) Asked for a path that ends in
    [.br] and is a regular file that opens, by a client whose
    [Accept-Encoding] has no [br], it sends the decoded bytes and sets no
    [Content-Encoding]; the one exception is a client that takes gzip
    when the [.gz] variant of the name is a regular file.  (2) Asked for
    a name that is absent, by a client without [br], it reports a miss,
    whatever is cached under the name with [.br]; the exception is the
    same.  (3) Asked for a name that is absent, by a client without
    [gzip], it reports a miss as well, whatever is cached under the name
    with [.gz], unless the client takes [br] and the [.br] variant is a
    regular file.  (4) Asked for a path that ends in [.gz] and is a
    regular file, by such a client, it hands the file to [http.ServeFile]
    with [Content-Encoding: gzip]: a plain request that is not a [HEAD]
    gets the compressed bytes as they are. *)
Theorem serveLocalFile_fallback :
  (∀ E w r world localPath data,
     HasSuffix localPath ".br" = true →
     Contains (acceptEncoding E r) "br" = false →
     Contains (acceptEncoding E r) "gzip" = false ∨
       regular (os_Stat (fs world) (basePathOf localPath +:+ ".gz")) = false →
     os_Stat (fs world) localPath = StatOk false →
     os_Open (fs world) localPath = Opened data →
     let out := run E (serveLocalFile E w r localPath) world in
     out.1.2 = true ∧
     wbody out.1.1 =
       (Copy (wbody w) (NewReader (brotli E) (RData data REOF)) tt).1.1 ∧
     header out.1.1 !! "Content-Encoding" = header w !! "Content-Encoding") ∧
  (∀ E w r world name,
     Contains (acceptEncoding E r) "br" = false →
     Contains (acceptEncoding E r) "gzip" = false ∨
       regular (os_Stat (fs world) (basePathOf name +:+ ".gz")) = false →
     os_Stat (fs world) name = StatNotExist →
     (run E (serveLocalFile E w r name) world).1 = (w, false)) ∧
  (∀ E w r world name,
     Contains (acceptEncoding E r) "gzip" = false →
     Contains (acceptEncoding E r) "br" = false ∨
       regular (os_Stat (fs world) (basePathOf name +:+ ".br")) = false →
     os_Stat (fs world) name = StatNotExist →
     (run E (serveLocalFile E w r name) world).1 = (w, false)) ∧
  (∀ E w r world localPath,
     HasSuffix localPath ".gz" = true →
     Contains (acceptEncoding E r) "gzip" = false →
     Contains (acceptEncoding E r) "br" = false ∨
       regular (os_Stat (fs world) (basePathOf localPath +:+ ".br")) = false →
     os_Stat (fs world) localPath = StatOk false →
     let out := run E (serveLocalFile E w r localPath) world in
     let announced :=
       Header_Set "Content-Encoding" "gzip" (typed E w localPath) in
     out.1 = ((run E (http_ServeFile E announced r localPath) world).1, true) ∧
     ∀ data,
       plain r → Method r ≠ "HEAD" →
       os_Open (fs world) localPath = Opened data →
       wbody out.1.1 = (Copy (wbody w) (RData data REOF) tt).1.1 ∧
       header out.1.1 !! "Content-Encoding" = Some ["gzip"]).
Proof.
  split; [|split; [|split]].
  - intros E w r world localPath data Hbr Hab Hag Hstat Hopen out. subst out.
    rewrite serveLocalFile_chooses, chooses_asked by auto.
    rewrite Hstat, Hbr, (serveChosen_decoded _ _ _ _ _ _ data) by done.
    simpl. rewrite CopyTo_wbody, CopyTo_header.
    unfold typed, Header_Set. simpl. split; [done|]. split; [done|].
    by rewrite lookup_insert_ne.
  - intros E w r world name Hab Hag Hstat.
    rewrite serveLocalFile_chooses, chooses_asked by auto. by rewrite Hstat.
  - intros E w r world name Hag Hab Hstat.
    rewrite serveLocalFile_chooses, chooses_asked by auto. by rewrite Hstat.
  - intros E w r world localPath Hgz Hag Hab Hstat out announced.
    assert (out.1 =
              ((run E (http_ServeFile E announced r localPath) world).1, true))
      as Hout.
    { subst out. rewrite serveLocalFile_chooses, chooses_asked by auto.
      rewrite Hstat, (gz_is_not_br _ Hgz), Hgz.
      by rewrite serveChosen_handed by (by left). }
    split; [done|]. intros data Hplain Hmethod Hopen. rewrite Hout. simpl.
    destruct (http_ServeFile_plain E announced r localPath world data)
      as (_ & Hbody & Hsame & _); [done|done| |].
    { subst announced. unfold typed, Header_Set. simpl.
      rewrite lookup_insert_ne by done. by rewrite lookup_insert_eq. }
    rewrite Hbody, Hsame by done.
    destruct (String.eqb_spec (Method r) "HEAD") as [|_]; [done|].
    subst announced. unfold Header_Set. simpl.
    by rewrite lookup_insert_eq.
Qed.

Lemma serveLocalFile_fallback_witness :
  let w := newResponseWriter None in
  let r := Example.get "/vcsky/foo.js.br" "gzip, deflate" in
  let world := Example.disk {["/cache/foo.js.br" := File true Example.abc]} in
  let out := run Example.env
               (serveLocalFile Example.env w r "/cache/foo.js.br") world in
  (HasSuffix "/cache/foo.js.br" ".br" = true ∧
   Contains (acceptEncoding Example.env r) "br" = false ∧
   Contains (acceptEncoding Example.env r) "gzip" = true ∧
   os_Stat (fs world) "/cache/foo.js.gz" = StatNotExist ∧
   os_Stat (fs world) "/cache/foo.js.br" = StatOk false) ∧
  out.1.2 = true ∧
  wdata (wbody out.1.1) = list_byte_of_string "aabbcc" ∧
  (run Example.env (serveLocalFile Example.env w
                      (Example.get "/vcsky/foo.js" "") "/cache/foo.js")
       world).1 = (w, false).
Proof.
  intros w r world out. split; [by repeat split|].
  destruct (proj1 serveLocalFile_fallback Example.env w r world
              "/cache/foo.js.br" Example.abc) as (H1 & H2 & _);
    [reflexivity | reflexivity | right; reflexivity | reflexivity
    | reflexivity |].
  split; [exact H1|]. split.
  - fold out in H2. rewrite H2. reflexivity.
  - apply (proj1 (proj2 serveLocalFile_fallback) Example.env w
             (Example.get "/vcsky/foo.js" "") world "/cache/foo.js");
      first [reflexivity | by left].
Defined.

(** ** Proxying and caching *)


Lemma os_CreateTemp_fresh E f dir pattern name file f' :
  os_CreateTemp E f dir pattern = (Some (name, file), f') →
  f !! name = None ∧ f' = <[name := File true []]> f ∧ wdata file = [].
Proof.
  unfold os_CreateTemp. destruct (temp_file E dir pattern) as [[n room]|]; [|done].
  destruct (f !! n) eqn:Hn; [done|]. by intros [= <- <- <-].
Qed.

Lemma CopyTo_Copy {Σ} w (src : Reader Σ) σ :
  (CopyTo w src σ).1.2 = (Copy (wbody w) src σ).1.2 ∧
  (CopyTo w src σ).2 = (Copy (wbody w) src σ).2.
Proof.
  unfold CopyTo. rewrite WriteHeader_wbody.
  by destruct (Copy _ _ _) as [[? ?] ?].
Qed.

Lemma looked_fetches evs : Forall looked evs → fetches evs = [].
Proof. induction 1 as [|[] ? ? ?]; simpl; done. Qed.

Lemma looked_renames evs : Forall looked evs → renames evs = [].
Proof. induction 1 as [|[] ? ? ?]; simpl; done. Qed.

Lemma fetches_app t1 t2 : fetches (t1 ++ t2) = fetches t1 ++ fetches t2.
Proof. apply omap_app. Qed.

Lemma renames_app t1 t2 : renames (t1 ++ t2) = renames t1 ++ renames t2.
Proof. apply omap_app. Qed.

Lemma os_Close_temp f name h :
  os_Close (<[name := File true []]> f) name h =
    <[name := File true (wdata h)]> f.
Proof.
  unfold os_Close. by rewrite lookup_insert_eq, insert_insert_eq.
Qed.

Lemma os_Rename_temp E f name new data :
  f !! name = None → name ≠ new →
  os_Rename E (<[name := File true data]> f) name new =
    if rename_ok E name new && negb (isDir (f !! new))
    then (true, <[new := File true data]> f)
    else (false, <[name := File true data]> f).
Proof.
  intros Hfresh Hne. unfold os_Rename.
  rewrite lookup_insert_eq, lookup_insert_ne by done.
  rewrite delete_insert_id by done.
  destruct (rename_ok E name new); simpl;
    by destruct (f !! new) as [[]|].
Qed.


Lemma prepared_wbody E w r url resp :
  wbody (prepared E w r url resp) = wbody w.
Proof.
  unfold prepared. rewrite WriteHeader_wbody.
  by destruct (needsDecompress E r url).
Qed.

Lemma prepared_status E w r url resp :
  informational (StatusCode resp) = false →
  status w = None → status (prepared E w r url resp) = Some (StatusCode resp).
Proof.
  intros Hcode Hw. unfold prepared. rewrite WriteHeader_status by done.
  destruct (needsDecompress E r url); simpl; by rewrite Hw.
Qed.


Section Caching.
Context (E : Env) (w : ResponseWriter) (r : Request) (url localPath : string).
Context (world : World) (resp : Response).
Context (cache cache' : gmap string node).
Context (tempFileName : string) (tempFile : Writer).

Let dir := filepath_Dir E localPath.
Let limitedBody := LimitReader (RespBody resp) maxProxySize.
Let miss := run E (serveLocalFile E w r localPath) world.
Let pass := sharedPass E w r url resp tempFile.
Let out := run E (proxyAndCache E w r url localPath) world.

(** The request misses the cache, no bulk fetch is in flight for it, the
    origin answers 200 with an acceptable declared length, and the cache
    directory and a temp file in it can be had. *)
Hypothesis Hmiss : miss.1.2 = false.
Hypothesis Hfree : localPath ∉ activeDownloads world.
Hypothesis Hreq : http_NewRequest E (Method r) url = true.
Hypothesis Horigin : origin E (proxyRequest E r url) = Some resp.
Hypothesis Hlength : ContentLength resp ≤ maxProxySize.
Hypothesis Hstatus : StatusCode resp = StatusOK.
Hypothesis Hmkdir : os_MkdirAll E (fs world) dir = (true, cache).
Hypothesis Htemp :
  os_CreateTemp E cache dir ".tmp-*" = (Some (tempFileName, tempFile), cache').
Hypothesis Hname : tempFileName ≠ localPath.

Let upto_temp := cachingEvents E r url localPath tempFileName.

Lemma proxyAndCache_pass :
  out.1 = pass.1.1 ∧
  activeDownloads out.2 = activeDownloads world ∧
  match pass.2 with
  | Some e =>
      fs out.2 = cache ∧
      trace out.2 =
        trace miss.2 ++ upto_temp ++
        [EvLog "Error during proxy/cache of %s: %v" [AStr url; AErr (ErrIO e)];
         EvRemove tempFileName]
  | None =>
      if rename_ok E tempFileName localPath &&
         negb (isDir (cache !! localPath))
      then
        fs out.2 = <[localPath := File true (wdata pass.1.2)]> cache ∧
        trace out.2 =
          trace miss.2 ++ upto_temp ++ [EvRename tempFileName localPath]
      else
        fs out.2 = cache ∧
        trace out.2 =
          trace miss.2 ++ upto_temp ++
          [EvRename tempFileName localPath;
           EvLog "Error caching file %s: %v" [AStr localPath; AErr ErrRename];
           EvRemove tempFileName]
  end.
Proof.
  destruct (serveLocalFile_miss_run E w r localPath world Hmiss)
    as (Hw & Hfs & Hact).
  destruct (os_CreateTemp_fresh _ _ _ _ _ _ _ Htemp) as (Hfresh & -> & _).
  subst out. unfold proxyAndCache. rewrite run_bind.
  fold miss in Hw, Hfs, Hact |- *. rewrite Hmiss, Hw. simpl.
  rewrite (bool_decide_eq_false_2 _ (eq_ind_r (λ s, localPath ∉ s) Hfree Hact)).
  rewrite Hreq. simpl. fold (proxyRequest E r url). rewrite Horigin.
  rewrite (proj2 (Z.ltb_ge _ _) Hlength).
  replace (StatusCode resp =? StatusOK) with true by (by rewrite Hstatus).
  simpl. rewrite Hfs. fold dir. rewrite Hmkdir. simpl. rewrite Htemp. simpl.
  fold (needsDecompress E r url). fold (prepared E w r url resp).
  fold (sharedPass E w r url resp tempFile). fold pass.
  destruct pass as [[w' tmp'] [e|]]; simpl; rewrite os_Close_temp.
  - rewrite delete_insert_id by done. by rewrite <- !app_assoc.
  - rewrite os_Rename_temp by done.
    destruct (rename_ok E tempFileName localPath && _); simpl.
    + by rewrite <- !app_assoc.
    + rewrite delete_insert_id by done. by rewrite <- !app_assoc.
Qed.

(** A pass that ends without error has read the limited body to its end
    and written every byte of it to the temp file. *)
Lemma sharedPass_complete :
  pass.2 = None →
  body_ok limitedBody = true ∧ wdata pass.1.2 = body_bytes limitedBody.
Proof.
  destruct (os_CreateTemp_fresh _ _ _ _ _ _ _ Htemp) as (_ & _ & Hempty).
  subst pass. unfold sharedPass. fold limitedBody.
  destruct (needsDecompress E r url);
    match goal with |- context [CopyTo ?a ?b ?c] =>
      destruct (CopyTo_Copy a b c) as [-> ->];
      destruct (Copy (wbody a) b c) as [[dst' tmp'] err] eqn:Hc
    end; simpl; intros ->.
  - apply Copy_decode_Tee_ok in Hc as (Hok & Htmp & _).
    by rewrite Htmp, Hempty.
  - apply Copy_Tee_ok in Hc as (Hok & Htmp & _).
    by rewrite Htmp, Hempty.
Qed.

Lemma miss_trace :
  fetches (trace miss.2) = fetches (trace world) ∧
  renames (trace miss.2) = renames (trace world).
Proof.
  destruct (looks_run E _ world (serveLocalFile_looks E w r localPath))
    as (_ & _ & _ & evs & Ht & Hl).
  fold miss in Ht. rewrite Ht, fetches_app, renames_app.
  by rewrite (looked_fetches _ Hl), (looked_renames _ Hl), !app_nil_r.
Qed.

(** C4. Once the temp file exists, the request ends in one of three
    ways, and in each the client has what the pass wrote to it.
    (1) The pass failed: the temp file is removed, nothing was renamed,
    the cache is as it was.  (2) The pass succeeded, so every byte of the
    body is in the temp file, and the rename succeeded: the cache gains
    exactly [localPath] with those bytes, by that one rename.  (3) The
    pass succeeded and the rename failed: the temp file is removed, the
    cache is as it was, and the response is the same as in (2).  The temp
    name is unused in the cache before and after. *)
Theorem temp_file_is_renamed_or_removed :
  out.1 = pass.1.1 ∧
  cache !! tempFileName = None ∧
  match pass.2 with
  | Some _ =>
      fs out.2 = cache ∧ renames (trace out.2) = renames (trace world)
  | None =>
      body_ok limitedBody = true ∧
      wdata pass.1.2 = body_bytes limitedBody ∧
      if rename_ok E tempFileName localPath && negb (isDir (cache !! localPath))
      then
        fs out.2 = <[localPath := File true (wdata pass.1.2)]> cache ∧
        renames (trace out.2) =
          renames (trace world) ++ [(tempFileName, localPath)]
      else
        fs out.2 = cache
  end.
Proof.
  destruct proxyAndCache_pass as (Hout & _ & Hcase).
  destruct miss_trace as [_ Hren].
  destruct (os_CreateTemp_fresh _ _ _ _ _ _ _ Htemp) as (Hfresh & _ & _).
  pose proof sharedPass_complete as Hdone.
  split; [done|]. split; [done|].
  destruct (pass.2) as [e|].
  - destruct Hcase as [-> ->]. split; [done|].
    by rewrite renames_app, Hren, app_nil_r.
  - destruct (Hdone eq_refl) as [Hok Hall]. split; [done|]. split; [done|].
    destruct (rename_ok E tempFileName localPath && _).
    + destruct Hcase as [-> ->]. split; [done|].
      by rewrite renames_app, Hren.
    + by destruct Hcase as [-> _].
Qed.


(** C1, where the code departs from it.  The origin declares no length
    and sends more than the cap; nothing else goes wrong (no decoding,
    sinks that take everything, a rename that works).  Then the pass ends
    without error exactly at the cap: the client has status 200 and the
    first [maxProxySize] bytes, the same truncated bytes are renamed into
    the cache at [localPath], and no error is logged. *)
Theorem body_beyond_cap_is_cached_truncated :
  ContentLength resp = -1 →
  needsDecompress E r url = false →
  body_ok (RespBody resp) = true →
  maxProxySize < blen (body_bytes (RespBody resp)) →
  status w = None →
  wroom (wbody w) = None →
  wroom tempFile = None →
  rename_ok E tempFileName localPath = true →
  isDir (cache !! localPath) = false →
  let truncated := take (Z.to_nat maxProxySize) (body_bytes (RespBody resp)) in
  blen truncated = maxProxySize ∧
  status out.1 = Some StatusOK ∧
  wdata (wbody out.1) = wdata (wbody w) ++ truncated ∧
  fs out.2 !! localPath = Some (File true truncated) ∧
  trace out.2 = trace miss.2 ++ upto_temp ++ [EvRename tempFileName localPath].
Proof.
  intros _ Hraw Hok Hbig Hw Hclient Hfile Hren Hdir truncated.
  destruct proxyAndCache_pass as (Hout & _ & Hcase).
  destruct (os_CreateTemp_fresh _ _ _ _ _ _ _ Htemp) as (_ & _ & Hempty).
  assert (pass.2 = None ∧
          wdata pass.1.2 = truncated ∧
          wdata (wbody pass.1.1) = wdata (wbody w) ++ truncated ∧
          status pass.1.1 = Some StatusOK) as (Hp & Htmp & Hcl & Hst).
  { subst pass. unfold sharedPass. rewrite Hraw.
    rewrite CopyTo_status, WriteHeader_status by done.
    rewrite prepared_status by (by rewrite ?Hstatus).
    match goal with |- context [CopyTo ?a ?b ?c] =>
      destruct (CopyTo_Copy a b c) as [-> ->];
      rewrite (CopyTo_wbody a b c);
      pose proof (Copy_Tee_unlimited (LimitReader (RespBody resp) maxProxySize)
                    (wbody a) c) as Hnone;
      destruct (Copy (wbody a) b c) as [[dst' tmp'] err] eqn:Hc
    end.
    simpl in *. rewrite prepared_wbody in *.
    rewrite Hnone in * by (try apply LimitReader_ok; done).
    apply Copy_Tee_ok in Hc as (_ & H1 & H2).
    rewrite H1, H2, Hempty, LimitReader_bytes, Hstatus. done. }
  rewrite Hp, Hren, Hdir in Hcase. simpl in Hcase.
  destruct Hcase as [Hfs Htrace].
  rewrite Hout, Hfs, Htrace, Hcl, Hst, Htmp, lookup_insert_eq.
  repeat split; try done.
  subst truncated. unfold blen in *. rewrite length_take.
  pose proof (Z.le_refl maxProxySize). unfold maxProxySize in *. lia.
Qed.
End Caching.


Lemma temp_file_is_renamed_or_removed_witness :
  let out := run Example.env
               (proxyAndCache Example.env (newResponseWriter None)
                  (Example.get "/vcsky/foo.js" "")
                  "https://cdn.dos.zone/vcsky/foo.js" "/cache/foo.js")
               (Example.disk ∅) in
  fs out.2 !! "/cache/foo.js" = Some (File true (Example.abc ++ Example.abc)) ∧
  fs out.2 !! "/cache/.tmp-1" = None ∧
  renames (trace out.2) = [("/cache/.tmp-1", "/cache/foo.js")].
Proof.
  intros out.
  destruct (temp_file_is_renamed_or_removed Example.env
              (newResponseWriter None) (Example.get "/vcsky/foo.js" "")
              "https://cdn.dos.zone/vcsky/foo.js" "/cache/foo.js"
              (Example.disk ∅) Example.smallResponse
              Example.cacheDir Example.withTemp
              "/cache/.tmp-1" (mkWriter [] None))
    as (_ & _ & H);
    [reflexivity | apply not_elem_of_empty | reflexivity | reflexivity
    | unfold maxProxySize; simpl; lia | reflexivity | reflexivity
    | reflexivity | done | ].
  change (sharedPass _ _ _ _ _ _).2 with (@None ioerr) in H.
  destruct H as (_ & Hall & H).
  change (rename_ok _ _ _ && _) with true in H. destruct H as [Hfs Hren].
  fold out in Hfs, Hren. rewrite Hfs, Hren.
  split; [|split].
  - rewrite lookup_insert_eq, Hall. reflexivity.
  - reflexivity.
  - reflexivity.
Defined.


(** The half of C1 the code keeps: a declared length above the cap is
    answered 502 as soon as the headers are in; nothing of the body
    reaches the client or the disk. *)
Lemma declared_too_large_is_rejected E w r url localPath world resp :
  let miss := run E (serveLocalFile E w r localPath) world in
  let out := run E (proxyAndCache E w r url localPath) world in
  miss.1.2 = false →
  http_NewRequest E (Method r) url = true →
  origin E (proxyRequest E r url) = Some resp →
  maxProxySize < ContentLength resp →
  out.1 = http_Error w "Response too large" StatusBadGateway ∧
  fs out.2 = fs world ∧
  trace out.2 =
    trace miss.2 ++
    [EvLoad localPath; EvDo (proxyRequest E r url);
     EvLog "Proxy response from %s too large: %d bytes"
       [AStr url; AInt (ContentLength resp)]].
Proof.
  intros miss out Hmiss Hreq Horigin Hbig.
  destruct (serveLocalFile_miss_run E w r localPath world Hmiss)
    as (Hw & Hfs & Hact).
  subst out. unfold proxyAndCache. rewrite run_bind.
  fold miss in Hw, Hfs, Hact |- *. rewrite Hmiss, Hw. simpl.
  rewrite Hreq. simpl. fold (proxyRequest E r url). rewrite Horigin.
  rewrite (proj2 (Z.ltb_lt _ _) Hbig). simpl.
  by rewrite <- !app_assoc.
Qed.

Lemma huge_length : blen Example.huge = maxProxySize + 1.
Proof.
  unfold blen, Example.huge. rewrite repeat_length.
  unfold maxProxySize. lia.
Qed.

Lemma body_beyond_cap_is_cached_truncated_witness :
  let w := newResponseWriter None in
  let r := Example.get "/vcsky/huge.bin" "" in
  let url := "https://cdn.dos.zone/vcsky/huge.bin" in
  let out := run Example.hugeEnv
               (proxyAndCache Example.hugeEnv w r url "/cache/huge.bin")
               (Example.disk ∅) in
  let truncated :=
    take (Z.to_nat maxProxySize) (body_bytes (RespBody Example.hugeResponse)) in
  maxProxySize < blen (body_bytes (RespBody Example.hugeResponse)) ∧
  blen truncated = maxProxySize ∧
  status out.1 = Some StatusOK ∧
  fs out.2 !! "/cache/huge.bin" = Some (File true truncated).
Proof.
  intros w r url out truncated.
  assert (maxProxySize < blen (body_bytes (RespBody Example.hugeResponse)))
    as Hbig.
  { change (body_bytes (RespBody Example.hugeResponse))
      with (Example.huge ++ []).
    rewrite app_nil_r, huge_length. lia. }
  split; [exact Hbig|].
  destruct (body_beyond_cap_is_cached_truncated Example.hugeEnv w r url
              "/cache/huge.bin" (Example.disk ∅) Example.hugeResponse
              Example.cacheDir Example.withTemp
              "/cache/.tmp-1" (mkWriter [] None))
    as (H1 & H2 & _ & H4 & _);
    [reflexivity | apply not_elem_of_empty | reflexivity | reflexivity
    | unfold maxProxySize; simpl; lia | reflexivity | reflexivity
    | reflexivity | done | reflexivity | reflexivity | reflexivity
    | exact Hbig | reflexivity | reflexivity | reflexivity | reflexivity
    | reflexivity | ].
  auto.
Defined.

(** ** The single-item fetcher *)

Lemma interleaved_alone E {A} (p : prog A) w : interleaved E p [] w = run E p w.
Proof.
  revert w. induction p as [a|X o k IH]; intros w; simpl; [done|].
  destruct (exec E o w) as [x w']. apply IH.
Qed.

Lemma run_trace_extends E {A} (p : prog A) w :
  ∃ evs, trace (run E p w).2 = trace w ++ evs.
Proof.
  revert w. induction p as [a|X o k IH]; intros w; simpl.
  - exists []. by rewrite app_nil_r.
  - destruct (exec E o w) as [x w'] eqn:He.
    destruct (IH x w') as [evs ->].
    assert (∃ e, trace w' = trace w ++ [e]) as [e ->].
    { destruct o; simpl in He;
        repeat match type of He with
               | context [let (_, _) := ?t in _] => destruct t
               end;
        injection He as <- <-; simpl; by eexists. }
    exists (e :: evs). by rewrite <- app_assoc.
Qed.

Lemma downloadFile_exists E url destPath world :
  exists_ (os_Stat (fs world) destPath) = true →
  run E (downloadFile E url destPath) world =
    (None, record (EvStat destPath) world).
Proof. intros H. unfold downloadFile. simpl. by rewrite H. Qed.

Lemma downloadFile_deferred E url destPath world :
  exists_ (os_Stat (fs world) destPath) = false →
  destPath ∈ activeDownloads world →
  run E (downloadFile E url destPath) world =
    (None,
     mkWorld (fs world) ({[destPath]} ∪ activeDownloads world) (count world)
             (trace world ++ [EvStat destPath; EvLoadOrStore destPath true])).
Proof.
  intros Hstat Hin. unfold downloadFile. simpl. rewrite Hstat. simpl.
  rewrite bool_decide_eq_true_2 by done. simpl.
  by rewrite <- app_assoc.
Qed.

(** C6. [downloadFile] (1) returns nil after its first [stat] when the
    destination exists: nothing else happens, in particular no request;
    (2) returns nil right after the failed claim when another fetch
    holds it: the cache and the registry are as before, no request;
    (3) having claimed, stats again before anything else, and if by then
    another goroutine has put the file there, releases the claim and
    returns nil, again without a request; (4) without interference, on an
    absent and unclaimed destination, its trace starts with the stat, the
    successful claim and the second stat. *)
Theorem downloadFile_skips_and_rechecks :
  (∀ E url destPath world,
     exists_ (os_Stat (fs world) destPath) = true →
     let out := run E (downloadFile E url destPath) world in
     out.1 = None ∧ fs out.2 = fs world ∧
     activeDownloads out.2 = activeDownloads world ∧
     trace out.2 = trace world ++ [EvStat destPath]) ∧
  (∀ E url destPath world,
     exists_ (os_Stat (fs world) destPath) = false →
     destPath ∈ activeDownloads world →
     let out := run E (downloadFile E url destPath) world in
     out.1 = None ∧ fs out.2 = fs world ∧
     activeDownloads out.2 = activeDownloads world ∧
     trace out.2 =
       trace world ++ [EvStat destPath; EvLoadOrStore destPath true]) ∧
  (∀ E url destPath world (f0 f1 f2 : World → World),
     let w0 := f0 world in
     let w1 := f1 (record (EvStat destPath) w0) in
     let w2 := f2 (claimed destPath w1) in
     exists_ (os_Stat (fs w0) destPath) = false →
     destPath ∉ activeDownloads w1 →
     exists_ (os_Stat (fs w2) destPath) = true →
     let out := interleaved E (downloadFile E url destPath)
                  [f0; f1; f2] world in
     out.1 = None ∧ fs out.2 = fs w2 ∧
     (destPath ∉ activeDownloads out.2) ∧
     trace out.2 = trace w2 ++ [EvStat destPath; EvDelete destPath]) ∧
  (∀ E url destPath world,
     exists_ (os_Stat (fs world) destPath) = false →
     destPath ∉ activeDownloads world →
     ∃ rest,
       trace (run E (downloadFile E url destPath) world).2 =
         trace world ++
         ([EvStat destPath; EvLoadOrStore destPath false; EvStat destPath] ++
          rest)).
Proof.
  split; [|split; [|split]].
  - intros E url destPath world Hstat out. subst out.
    by rewrite downloadFile_exists.
  - intros E url destPath world Hstat Hin out. subst out.
    rewrite downloadFile_deferred by done. simpl.
    repeat split; try done.
    apply subseteq_union_1_L. by apply singleton_subseteq_l.
  - intros E url destPath world f0 f1 f2 w0 w1 w2 Hstat Hfree Hnow out.
    subst out.
    unfold downloadFile. simpl. fold w0. rewrite Hstat. simpl. fold w1.
    rewrite bool_decide_eq_false_2 by done. simpl.
    unfold fetchClaimed. simpl. fold (claimed destPath w1). fold w2.
    rewrite Hnow. simpl. repeat split; try done.
    + intros [_ Hn]%elem_of_difference. by apply Hn, elem_of_singleton.
    + by rewrite <- app_assoc.
  - intros E url destPath world Hstat Hfree.
    unfold downloadFile, fetchClaimed. cbn [bind call].
    rewrite run_Vis. cbn [exec fst snd]. rewrite Hstat.
    rewrite run_Vis. cbn [exec fst snd].
    rewrite bool_decide_eq_false_2 by done.
    rewrite run_Vis. cbn [exec fst snd].
    match goal with |- context [run E ?p ?w] =>
      destruct (run_trace_extends E p w) as [evs ->]
    end.
    exists evs. simpl. by rewrite <- !app_assoc.
Qed.

Lemma downloadFile_skips_and_rechecks_witness :
  let commit (w : World) :=
    with_fs w (<["/cache/x" := File true Example.abc]> (fs w)) in
  let out := interleaved Example.env (downloadFile Example.env "u" "/cache/x")
               [id; id; commit] (Example.disk ∅) in
  exists_ (os_Stat (fs (Example.disk ∅)) "/cache/x") = false ∧
  out.1 = None ∧
  fetches (trace out.2) = [] ∧
  trace out.2 =
    [EvStat "/cache/x"; EvLoadOrStore "/cache/x" false;
     EvStat "/cache/x"; EvDelete "/cache/x"].
Proof.
  intros commit out. split; [reflexivity|].
  destruct (proj1 (proj2 (proj2 downloadFile_skips_and_rechecks))
              Example.env "u" "/cache/x" (Example.disk ∅) id id commit)
    as (H1 & _ & _ & H4); [reflexivity | apply not_elem_of_empty | reflexivity |].
  fold out in H1, H4. rewrite H1, H4. by repeat split.
Defined.

(** C10. While another fetch holds the claim on a destination that is
    not on disk yet, [downloadFile] returns nil without fetching and the
    file is still absent when it returns; the worker that called it
    counts the item as downloaded, and as nothing else. *)
Theorem nil_does_not_mean_the_file_exists
    E baseURL outputDir label total file world :
  let destPath := filepath_Join E outputDir file in
  let url := baseURL +:+ "/" +:+ file in
  fs world !! destPath = None →
  destPath ∈ activeDownloads world →
  (let out := run E (downloadFile E url destPath) world in
   out.1 = None ∧ fs out.2 !! destPath = None ∧
   fetches (trace out.2) = fetches (trace world)) ∧
  (let out := run E (workItem E baseURL outputDir label total file) world in
   fs out.2 !! destPath = None ∧
   count out.2 downloaded = count world downloaded + 1 ∧
   count out.2 skipped = count world skipped ∧
   count out.2 failed = count world failed ∧
   fetches (trace out.2) = fetches (trace world)).
Proof.
  intros destPath url Habsent Hheld.
  assert (exists_ (os_Stat (fs world) destPath) = false) as Hstat.
  { by apply absent_not_exists. }
  split.
  - intros out. subst out. rewrite downloadFile_deferred by done. simpl.
    repeat split; try done. rewrite fetches_app. simpl. apply app_nil_r.
  - intros out. subst out. unfold workItem. fold destPath. fold url.
    cbn [bind call]. rewrite run_Vis. cbn [exec fst snd]. rewrite Hstat.
    rewrite run_bind.
    rewrite downloadFile_deferred
      by (simpl; first [done | by apply elem_of_union_r]).
    simpl. repeat split; try done.
    rewrite !fetches_app. simpl. by rewrite !app_nil_r.
Qed.

Lemma nil_does_not_mean_the_file_exists_witness :
  let world := mkWorld ∅ {["/cache/sfx.raw/7.mp3"]} (λ _, 0) [] in
  let out := run Example.env
               (workItem Example.env "https://cdn.dos.zone/vcsky/fetched/audio/sfx.raw"
                  "/cache/sfx.raw" "sfx" 1 "7.mp3") world in
  fs world !! "/cache/sfx.raw/7.mp3" = None ∧
  "/cache/sfx.raw/7.mp3" ∈ activeDownloads world ∧
  fs out.2 !! "/cache/sfx.raw/7.mp3" = None ∧
  count out.2 downloaded = 1.
Proof.
  intros world out. split; [reflexivity|].
  assert ("/cache/sfx.raw/7.mp3" ∈ activeDownloads world) as Hheld.
  { unfold world. simpl. by apply elem_of_singleton_2. }
  split; [exact Hheld|].
  destruct (nil_does_not_mean_the_file_exists Example.env
              "https://cdn.dos.zone/vcsky/fetched/audio/sfx.raw"
              "/cache/sfx.raw" "sfx" 1 "7.mp3" world)
    as [_ (H1 & H2 & _)]; [reflexivity | exact Hheld |].
  split; [exact H1 | exact H2].
Defined.


(** *** Counting *)

Lemma owes_bind {A B} n m (p : prog A) (f : A → prog B) :
  owes n p → (∀ a, owes m (f a)) → owes (n + m) (bind p f).
Proof.
  revert n. induction p as [a|X o k IH]; intros n; simpl.
  - intros -> Hf. apply Hf.
  - intros [Hle Hk] Hf. split; [lia|]. intros x.
    replace (n + m - adds o)%nat with ((n - adds o) + m)%nat by lia.
    by apply IH.
Qed.

Lemma owes_nothing {A} (p : prog A) :
  all_ops (λ X (o : op X), adds o = 0%nat) p → owes 0 p.
Proof.
  induction p as [a|X o k IH]; simpl; [done|].
  intros [-> Hk]. split; [lia|]. intros x. simpl. by apply IH.
Qed.

Lemma downloadFile_counts_nothing E url destPath :
  owes 0 (downloadFile E url destPath).
Proof.
  apply owes_nothing. unfold downloadFile, fetchClaimed, gzip_NewReader.
  explore.
Qed.

Arguments downloadFile : simpl never.

(** One item, one increment, of one counter. *)
Lemma workItem_counts_once E baseURL outputDir label total file :
  owes 1 (workItem E baseURL outputDir label total file).
Proof.
  unfold workItem. cbn [bind call owes adds]. split; [lia|]. intros info.
  destruct (exists_ info); cbn [bind call owes adds]; [by split|].
  apply (owes_bind 0 1 (downloadFile E _ _));
    [apply downloadFile_counts_nothing|].
  intros [e|]; simpl; repeat split; lia.
Qed.

(** *** Claiming and releasing *)

Lemma claimless_balanced {A} (p : prog A) :
  all_ops (@claimless) p → balanced ∅ p.
Proof.
  induction p as [a|X o k IH]; simpl; [auto|].
  intros [Ho Hk]. split; [by destruct o|]. intros x.
  replace (holding o x ∅) with (∅ : gset string) by (by destruct o).
  by apply IH.
Qed.

(** A program that neither claims nor releases can be put in front of
    one that is balanced. *)
Lemma claimless_bind {A B} h (p : prog A) (f : A → prog B) :
  all_ops (@claimless) p → (∀ a, balanced h (f a)) → balanced h (bind p f).
Proof.
  induction p as [a|X o k IH]; simpl; [auto|].
  intros [Ho Hk] Hf. split; [by destruct o|]. intros x.
  replace (holding o x h) with h by (by destruct o).
  by apply IH.
Qed.

(** A balanced program can be followed by one that neither claims nor
    releases. *)
Lemma bind_claimless {A B} h (p : prog A) (f : A → prog B) :
  balanced h p → (∀ a, all_ops (@claimless) (f a)) → balanced h (bind p f).
Proof.
  revert h. induction p as [a|X o k IH]; intros h; simpl.
  - intros -> Hf. by apply claimless_balanced.
  - intros [Ho Hk] Hf. split; [done|]. intros x. by apply IH.
Qed.

Lemma fetchClaimed_claimless E url destPath :
  all_ops (@claimless) (fetchClaimed E url destPath).
Proof. unfold fetchClaimed, gzip_NewReader. explore. Qed.

(** Every path through [downloadFile] that takes the claim gives it
    back, and no path gives back what it did not take. *)
Lemma downloadFile_balanced E url destPath :
  balanced ∅ (downloadFile E url destPath).
Proof.
  unfold downloadFile. cbn [bind call balanced holding releasable].
  split; [done|]. intros info.
  destruct (exists_ info); cbn [bind call balanced holding releasable];
    [done|].
  split; [done|].
  intros [|]; cbn [bind call balanced holding releasable]; [done|].
  apply (claimless_bind _ (fetchClaimed E _ _));
    [apply fetchClaimed_claimless|].
  intros err. simpl. split.
  - apply elem_of_union_l. by apply elem_of_singleton_2.
  - intros _. apply set_eq. intros x.
    rewrite elem_of_difference, elem_of_union, elem_of_singleton.
    split; [|done]. intros [[?|[]%not_elem_of_empty] ?]; done.
Qed.

Lemma workItem_balanced E baseURL outputDir label total file :
  balanced ∅ (workItem E baseURL outputDir label total file).
Proof.
  unfold workItem. cbn [bind call balanced holding releasable].
  split; [done|]. intros info.
  destruct (exists_ info); cbn [bind call balanced holding releasable];
    [by split|].
  apply (bind_claimless ∅ (downloadFile E _ _));
    [apply downloadFile_balanced|].
  intros [e|]; explore.
Qed.

(** *** What the steps of the pool preserve *)

Lemma exec_count E {X} (o : op X) w :
  sum3 (count (exec E o w).2) = sum3 (count w) + Z.of_nat (adds o).
Proof.
  destruct o; simpl;
    repeat match goal with
           | |- context [let (_, _) := ?t in _] => destruct t
           end;
    simpl; try lia.
  unfold sum3, upd. destruct c; lia.
Qed.

Lemma sum_list_insert (ns : list nat) i n n' :
  ns !! i = Some n →
  (sum_list (<[i := n']> ns) + n = sum_list ns + n')%nat.
Proof.
  revert i. induction ns as [|m ns IH]; intros [|i]; simpl; try done.
  - intros [= ->]. lia.
  - intros H. specialize (IH i H). lia.
Qed.

Lemma owed_nothing gs ns :
  Forall2 owed gs ns → Forall (λ g, g = Gone) gs → sum_list ns = 0%nat.
Proof.
  induction 1 as [|g n gs ns Hg _ IH]; [done|].
  intros [-> Hall]%Forall_cons. simpl in *. rewrite Hg. by apply IH.
Qed.

Lemma gone_insert (gs : list worker) i g :
  g ≠ Gone → Gone ∈ <[i := g]> gs → Gone ∈ gs.
Proof.
  intros Hg [j Hj]%list_elem_of_lookup.
  apply list_lookup_insert_Some in Hj as [(_ & ? & _)|[_ Hj]]; [done|].
  apply list_elem_of_lookup. eauto.
Qed.

Section Counting.
Context (E : Env) (files : list string) (baseURL outputDir label : string).

Local Abbreviation step := (step E files baseURL outputDir label).
Local Abbreviation total := (total files).
Local Abbreviation accounted := (accounted E files label).

Lemma accounted_start w : accounted (start E files w).
Proof.
  split; simpl; try done.
  - exists (replicate (Z.to_nat (workers E)) 0%nat). split.
    + apply Forall2_replicate. done.
    + rewrite sum_list_replicate. unfold sum3, total. lia.
  - lia.
  - by rewrite length_replicate.
  - by intros [[=] _]%elem_of_replicate.
Qed.

Lemma accounted_step st st' : accounted st → step st st' → accounted st'.
Proof.
  intros [(ns & Hns & Hsum) Hclosed Hroom Hlen Hgone Hret] Hstep.
  destruct Hstep as [st file rest Hun Hcl Hcap|st Hun Hcl
                    |st i file rest Hi Hwork|st i X o k Hi|st i u Hi
                    |st i Hi Hwork Hcl|st Hcl Hall Hnone];
    split; simpl; rewrite ?length_insert; try done.
  - (* send *)
    exists ns. split; [done|]. rewrite Hun in Hsum. simpl in Hsum.
    rewrite length_app. simpl. lia.
  - rewrite length_app. simpl. lia.
  - intros Hg. destruct (Hgone Hg). congruence.
  - intros r Hr. destruct (Hret r Hr) as (_ & ? & _). congruence.
  - (* close *)
    exists ns. split; [done|]. by rewrite Hun in Hsum.
  - intros Hg. by destruct (Hgone Hg).
  - intros r Hr. by destruct (Hret r Hr) as (? & _ & ?).
  - (* receive *)
    destruct (Forall2_lookup_l _ _ _ _ _ Hns Hi) as (n & Hn & Hown).
    simpl in Hown. subst n.
    exists (<[i := 1%nat]> ns). split.
    + apply Forall2_insert; [done|]. simpl. apply workItem_counts_once.
    + pose proof (sum_list_insert ns i 0 1 Hn). rewrite Hwork in Hsum.
      simpl in Hsum. lia.
  - rewrite Hwork in Hroom. simpl in Hroom. lia.
  - intros Hg%gone_insert; [|done]. destruct (Hgone Hg). congruence.
  - intros r Hr. destruct (Hret r Hr) as (Hall & _).
    by specialize (proj1 (Forall_lookup _ _) Hall i _ Hi).
  - (* a primitive *)
    destruct (Forall2_lookup_l _ _ _ _ _ Hns Hi) as (n & Hn & Hown).
    simpl in Hown. destruct Hown as [Hle Hk].
    exists (<[i := (n - adds o)%nat]> ns). split.
    + apply Forall2_insert; [done|]. simpl. apply Hk.
    + pose proof (sum_list_insert ns i n (n - adds o) Hn).
      rewrite exec_count. lia.
  - intros Hg%gone_insert; [|done]. by apply Hgone.
  - intros r Hr. destruct (Hret r Hr) as (Hall & _).
    by specialize (proj1 (Forall_lookup _ _) Hall i _ Hi).
  - (* back to the head of the loop *)
    destruct (Forall2_lookup_l _ _ _ _ _ Hns Hi) as (n & Hn & Hown).
    simpl in Hown. subst n.
    exists (<[i := 0%nat]> ns). split.
    + by apply Forall2_insert.
    + pose proof (sum_list_insert ns i 0 0 Hn). lia.
  - intros Hg%gone_insert; [|done]. by apply Hgone.
  - intros r Hr. destruct (Hret r Hr) as (Hall & _).
    by specialize (proj1 (Forall_lookup _ _) Hall i _ Hi).
  - (* a worker leaves *)
    destruct (Forall2_lookup_l _ _ _ _ _ Hns Hi) as (n & Hn & Hown).
    simpl in Hown. subst n.
    exists (<[i := 0%nat]> ns). split.
    + by apply Forall2_insert.
    + pose proof (sum_list_insert ns i 0 0 Hn). lia.
  - intros r Hr. destruct (Hret r Hr) as (Hall & _).
    by specialize (proj1 (Forall_lookup _ _) Hall i _ Hi).
  - (* return *)
    by exists ns.
  - auto.
  - intros Hg. by destruct (Hgone Hg).
  - intros r [= <-]. done.
Qed.

Lemma accounted_reachable w st :
  reachable E files baseURL outputDir label w st → accounted st.
Proof.
  intros [_ Hsteps]. revert st Hsteps.
  apply rtc_ind_r; [apply accounted_start|].
  intros st st' _ Hstep Hst. by eapply accounted_step.
Qed.

End Counting.

(** *** A schedule under which [downloadWithWorkers] returns *)

Section Schedule.
Context (E : Env) (files : list string) (baseURL outputDir label : string).

Local Abbreviation step := (step E files baseURL outputDir label).
Local Abbreviation item := (workItem E baseURL outputDir label (total files)).
Local Abbreviation waiting := (waiting E).
Local Abbreviation oneByOne := (oneByOne E files baseURL outputDir label).

Lemma with_goroutine_again st i g w g' w' :
  with_goroutine (with_goroutine st i g w) i g' w' = with_goroutine st i g' w'.
Proof. unfold with_goroutine. simpl. by rewrite list_insert_insert_eq. Qed.

Lemma with_goroutine_same st i g :
  goroutines st !! i = Some g → with_goroutine st i g (shared st) = st.
Proof.
  intros H. destruct st. unfold with_goroutine. simpl in *.
  by rewrite list_insert_id.
Qed.

(** A busy worker can run its program to the end. *)
Lemma busy_runs p st i :
  goroutines st !! i = Some (Busy p) →
  rtc step st (with_goroutine st i (Busy (Ret (run E p (shared st)).1))
                              (run E p (shared st)).2).
Proof.
  revert st. induction p as [a|X o k IH]; intros st Hi.
  - simpl. by rewrite with_goroutine_same.
  - rewrite run_Vis. eapply rtc_l; [by apply step_op|].
    set (st1 := with_goroutine st i _ _).
    assert (goroutines st1 !! i = Some (Busy (k (exec E o (shared st)).1)))
      as H1.
    { subst st1. simpl. apply list_lookup_insert_eq.
      by eapply lookup_lt_Some. }
    specialize (IH _ st1 H1). subst st1.
    by rewrite with_goroutine_again in IH.
Qed.

Lemma first_worker_takes_all rest w :
  1 ≤ workers E →
  rtc step (waiting rest w) (waiting [] (oneByOne rest w)).
Proof.
  intros Hw. revert w. induction rest as [|file rest IH]; intros w; [done|].
  assert (∃ n, Z.to_nat (workers E) = S n) as [n Hn] by (exists (Z.to_nat (workers E) - 1)%nat; lia).
  eapply rtc_l.
  { apply (step_send _ _ _ _ _ _ file rest); simpl; [done|done|lia]. }
  eapply rtc_l.
  { apply (step_recv _ _ _ _ _ _ 0%nat file []); simpl; [|done].
    by rewrite Hn. }
  eapply rtc_trans.
  { apply (busy_runs (item file) _ 0%nat). simpl. by rewrite Hn. }
  eapply rtc_l.
  { eapply (step_next _ _ _ _ _ _ 0%nat). simpl. by rewrite Hn. }
  simpl. specialize (IH (run E (item file) w).2).
  unfold waiting, with_goroutine in *. simpl. rewrite Hn in *. simpl. apply IH.
Qed.

Lemma workers_leave n m w :
  rtc step
    (mkPool [] true [] (replicate n Gone ++ replicate m Idle) None w)
    (mkPool [] true [] (replicate (n + m) Gone) None w).
Proof.
  revert n. induction m as [|m IH]; intros n.
  - simpl. by rewrite app_nil_r, Nat.add_0_r.
  - eapply rtc_l.
    { apply (step_exit _ _ _ _ _ _ n); simpl; try done.
      rewrite lookup_app_r by (by rewrite length_replicate).
      by rewrite length_replicate, Nat.sub_diag. }
    unfold with_goroutine. simpl.
    replace (<[n := Gone]> (replicate n Gone ++ Idle :: replicate m Idle))
      with (replicate (S n) Gone ++ replicate m Idle).
    + replace (n + S m)%nat with (S n + m)%nat by lia. apply IH.
    + rewrite replicate_S_end, <- app_assoc.
      rewrite insert_app_r_alt by (by rewrite length_replicate).
      by rewrite length_replicate, Nat.sub_diag.
Qed.

(** With at least one worker, [downloadWithWorkers] can return. *)
Lemma downloadWithWorkers_returns w :
  1 ≤ workers E →
  let w1 := oneByOne files (shared (start E files w)) in
  reachable E files baseURL outputDir label w
    (mkPool [] true [] (replicate (Z.to_nat (workers E)) Gone)
       (Some (run E (downloadWithWorkers_return files label) w1).1)
       (run E (downloadWithWorkers_return files label) w1).2).
Proof.
  intros Hw w1. split; [lia|].
  eapply rtc_trans; [apply (first_worker_takes_all files _ Hw)|].
  eapply rtc_l; [by apply step_close|]. simpl.
  eapply rtc_trans; [apply (workers_leave 0)|].
  eapply rtc_l; [|done].
  apply (step_return E files baseURL outputDir label
           (mkPool [] true [] _ None _)); simpl; try done.
  by apply Forall_replicate.
Qed.

End Schedule.

(** C8. (1) The loop body run for one item bumps exactly one of the
    three counters, exactly once, on every path.  (2) Whenever
    [downloadWithWorkers] has returned, under any interleaving of its
    goroutines, the three counters add up to the number of items, and
    the result is nil when [failed] is zero and otherwise the one error
    that names the count of failures, the total and the label.  (3) With
    at least one worker there is a run in which it returns. *)
Theorem every_item_is_counted_once :
  (∀ E baseURL outputDir label total file,
     owes 1 (workItem E baseURL outputDir label total file)) ∧
  (∀ E files baseURL outputDir label w st r,
     reachable E files baseURL outputDir label w st →
     returned st = Some r →
     let n := count (shared st) in
     n downloaded + n skipped + n failed = Z.of_nat (List.length files) ∧
     r = if 0 <? n failed
         then Some (ErrFailed (n failed) (Z.of_nat (List.length files)) label)
         else None) ∧
  (∀ E files baseURL outputDir label w,
     1 ≤ workers E →
     ∃ st r, reachable E files baseURL outputDir label w st ∧
             returned st = Some r).
Proof.
  split; [|split].
  - apply workItem_counts_once.
  - intros E files baseURL outputDir label w st r Hreach Hr n.
    destruct (accounted_reachable _ _ _ _ _ _ _ Hreach)
      as [(ns & Hns & Hsum) Hclosed Hroom _ Hgone Hret].
    destruct (Hret r Hr) as (Hall & Hcl & ->). split; [|done].
    rewrite (owed_nothing _ _ Hns Hall), (Hclosed Hcl) in Hsum.
    assert (work st = []) as Hwork.
    { destruct (goroutines st) as [|g gs] eqn:Hgs.
      - destruct (work st); [done|]. simpl in Hroom. lia.
      - apply Hgone. apply Forall_cons in Hall as [-> _]. by left. }
    rewrite Hwork in Hsum. unfold sum3, total in Hsum. simpl in Hsum.
    subst n. lia.
  - intros E files baseURL outputDir label w Hw.
    eexists _, _. split; [by apply downloadWithWorkers_returns|]. done.
Qed.

Lemma every_item_is_counted_once_witness :
  ∃ st,
    reachable Example.env ["missing"; "kchat.adf"]
      "https://cdn.dos.zone/vcsky" "/cache" "radio" (Example.disk ∅) st ∧
    returned st = Some (Some (ErrFailed 1 2 "radio")) ∧
    count (shared st) downloaded = 1 ∧
    count (shared st) failed = 1 ∧
    count (shared st) downloaded + count (shared st) skipped +
    count (shared st) failed = 2.
Proof.
  eexists.
  assert (reachable Example.env ["missing"; "kchat.adf"]
            "https://cdn.dos.zone/vcsky" "/cache" "radio" (Example.disk ∅) _)
    as Hreach by (by apply downloadWithWorkers_returns).
  split; [exact Hreach|].
  split; [vm_compute; reflexivity|].
  split; [vm_compute; reflexivity|].
  split; [vm_compute; reflexivity|].
  apply (proj1 (proj2 every_item_is_counted_once) _ _ _ _ _ _ _ _
           Hreach eq_refl).
Defined.

(** *** Claims are exclusive *)

Lemma exec_holding E {X} (o : op X) w h :
  releasable o h → h ⊆ activeDownloads w →
  holding o (exec E o w).1 h ⊆ activeDownloads (exec E o w).2 ∧
  ∀ h', h' ## h → h' ⊆ activeDownloads w →
        h' ## holding o (exec E o w).1 h ∧
        h' ⊆ activeDownloads (exec E o w).2.
Proof.
  destruct o; simpl;
    repeat match goal with
           | |- context [let (_, _) := ?t in _] => destruct t
           end;
    simpl; try (intros _ Hh; split; [done|]; intros h' ? ?; by split).
  - intros _ Hh. case_bool_decide as Hp; (split; [set_solver|]);
      intros h' Hd Hs; split; set_solver.
  - intros Hp Hh. split; [set_solver|].
    intros h' Hd Hs. split; set_solver.
Qed.

Lemma exclusive_update gs hs active i g h active' :
  Forall2 holds gs hs →
  (∀ i j hi hj, i ≠ j → hs !! i = Some hi → hs !! j = Some hj → hi ## hj) →
  (∀ i hi, hs !! i = Some hi → hi ⊆ active) →
  holds g h →
  h ⊆ active' →
  (∀ j hj, j ≠ i → hs !! j = Some hj → hj ## h ∧ hj ⊆ active') →
  exclusive_in (<[i := g]> gs) active'.
Proof.
  intros Hhs Hdis Hsub Hg Hh Hothers.
  exists (<[i := h]> hs). split; [by apply Forall2_insert|]. split.
  - intros j1 j2 h1 h2 Hne H1 H2.
    apply list_lookup_insert_Some in H1 as [(Hi1 & <- & _)|[Hn1 H1]];
      apply list_lookup_insert_Some in H2 as [(Hi2 & <- & _)|[Hn2 H2]].
    + congruence.
    + symmetry. by apply (Hothers j2 h2).
    + by apply (Hothers j1 h1).
    + by apply (Hdis j1 j2).
  - intros j hj Hj.
    apply list_lookup_insert_Some in Hj as [(_ & <- & _)|[Hn Hj]]; [done|].
    by apply (Hothers j hj).
Qed.

(** A step that changes neither the claims of goroutine [i] nor the
    registry. *)
Lemma exclusive_keep gs active i g :
  exclusive_in gs active → holds g ∅ → exclusive_in (<[i := g]> gs) active.
Proof.
  intros (hs & Hhs & Hdis & Hsub) Hg.
  apply (exclusive_update _ hs active i _ ∅); try done.
  intros j hj _ Hj. split; [apply disjoint_empty_r|by eapply Hsub].
Qed.

Section Claims.
Context (E : Env) (files : list string) (baseURL outputDir label : string).

Local Abbreviation step := (step E files baseURL outputDir label).

Lemma exclusive_start w : exclusive (start E files w).
Proof.
  exists (replicate (Z.to_nat (workers E)) ∅). split; [|split].
  - apply Forall2_replicate. done.
  - intros i j hi hj _ [-> _]%lookup_replicate _. apply disjoint_empty_l.
  - intros i hi [-> _]%lookup_replicate. done.
Qed.

Lemma exclusive_step st st' : exclusive st → step st st' → exclusive st'.
Proof.
  unfold exclusive. intros Hex Hstep.
  destruct Hstep as [st file rest Hun Hcl Hcap|st Hun Hcl
                    |st i file rest Hi Hwork|st i X o k Hi|st i u Hi
                    |st i Hi Hwork Hcl|st Hcl Hall Hnone]; simpl; try done.
  - apply exclusive_keep; [done|]. apply workItem_balanced.
  - destruct Hex as (hs & Hhs & Hdis & Hsub).
    destruct (Forall2_lookup_l _ _ _ _ _ Hhs Hi) as (h & Hh & [Hrel Hk]).
    destruct (exec_holding E o (shared st) h Hrel (Hsub _ _ Hh))
      as [Hmine Hothers].
    apply (exclusive_update _ hs (activeDownloads (shared st)) i _
             (holding o (exec E o (shared st)).1 h)); try done.
    { apply Hk. }
    intros j hj Hne Hj. apply Hothers; [by apply (Hdis j i)|by eapply Hsub].
  - by apply exclusive_keep.
  - by apply exclusive_keep.
Qed.

Lemma exclusive_reachable w st :
  reachable E files baseURL outputDir label w st → exclusive st.
Proof.
  intros [_ Hsteps]. revert st Hsteps.
  apply rtc_ind_r; [apply exclusive_start|].
  intros st st' _ Hstep Hst. by eapply exclusive_step.
Qed.

End Claims.

(** Run alone, a balanced program hands the registry back without the
    claims it held. *)
Lemma balanced_run E {A} (p : prog A) h w :
  balanced h p → h ⊆ activeDownloads w →
  activeDownloads (run E p w).2 = activeDownloads w ∖ h.
Proof.
  revert h w. induction p as [a|X o k IH]; intros h w; simpl.
  - intros -> _. apply set_eq. intros x.
    rewrite elem_of_difference. split; [|tauto].
    intros Hx. split; [done|]. apply not_elem_of_empty.
  - intros [Hrel Hk] Hsub.
    destruct (exec_holding E o w h Hrel Hsub) as [Hmine _].
    assert (activeDownloads (exec E o w).2 ∖ holding o (exec E o w).1 h
            = activeDownloads w ∖ h) as Hsame.
    { clear -Hrel Hsub. destruct o; simpl in *;
        repeat match goal with
               | |- context [let (_, _) := ?t in _] => destruct t
               end;
        simpl; try done.
      - case_bool_decide as Hp; apply set_eq; intros x;
          rewrite !elem_of_difference, ?elem_of_union, ?elem_of_singleton.
        + split; [intros [[->|?] ?]|intros [? ?]]; auto.
        + split; [intros [[->|?] ?]|intros [? ?]]; try tauto.
          split; [tauto|]. intros [->|?]; [|done]. apply Hp. done.
      - apply set_eq; intros x.
        rewrite !elem_of_difference, ?elem_of_singleton.
        split; [intros [[? ?] ?]|intros [? ?]].
        + split; [done|]. intros ?. tauto.
        + split; [split; [done|]|tauto]. intros ->. done. }
    specialize (IH (exec E o w).1 _ (exec E o w).2 (Hk _) Hmine).
    destruct (exec E o w) as [x w']. simpl in *. by rewrite IH.
Qed.

Lemma claimAll_loaded E p n w :
  p ∈ activeDownloads w → (claimAll E p n w).1 = replicate n true.
Proof.
  revert w. induction n as [|n IH]; intros w Hin; simpl; [done|].
  rewrite bool_decide_eq_true_2 by done.
  match goal with |- context [claimAll E p n ?w'] =>
    specialize (IH w'); destruct (claimAll E p n w') as [rest w'']
  end.
  simpl in *. rewrite IH; [done|].
  apply elem_of_union_l. by apply elem_of_singleton_2.
Qed.

(** C5. (1) Of any number of callers of [LoadOrStore] on a path that is
    free, in whatever order they come, the first sees the claim succeed
    and all the others see it held.  (2) [downloadFile] is balanced:
    on every path to a return (the file exists, the claim is held by
    another, the file exists after the claim, any error, success) it has
    released the claim it took and no other; run from any state it leaves
    [activeDownloads] exactly as it found it.  (3) In every state the
    pool of [downloadWithWorkers] can reach, the claims held by distinct
    workers are disjoint and all are in [activeDownloads]: no path is
    claimed by two fetches at once. *)
Theorem one_claim_per_path_released_on_every_exit :
  (∀ E p n w,
     p ∉ activeDownloads w →
     (claimAll E p (S n) w).1 = false :: replicate n true) ∧
  (∀ E url destPath,
     balanced ∅ (downloadFile E url destPath) ∧
     ∀ w, activeDownloads (run E (downloadFile E url destPath) w).2 =
          activeDownloads w) ∧
  (∀ E files baseURL outputDir label w st,
     reachable E files baseURL outputDir label w st → exclusive st).
Proof.
  split; [|split].
  - intros E p n w Hfree. simpl.
    rewrite bool_decide_eq_false_2 by done.
    match goal with |- context [claimAll E p n ?w'] =>
      pose proof (claimAll_loaded E p n w') as Hrest;
      destruct (claimAll E p n w') as [rest w'']
    end.
    simpl in *. rewrite Hrest; [done|].
    apply elem_of_union_l. by apply elem_of_singleton_2.
  - intros E url destPath. split; [apply downloadFile_balanced|].
    intros w.
    rewrite (balanced_run E _ ∅ w (downloadFile_balanced E url destPath))
      by apply empty_subseteq.
    apply set_eq. intros x. rewrite elem_of_difference.
    split; [tauto|]. intros Hx. split; [done|]. apply not_elem_of_empty.
  - intros E files baseURL outputDir label w st. apply exclusive_reachable.
Qed.

Lemma one_claim_per_path_released_on_every_exit_witness :
  ("/cache/fetched/audio/kchat.adf" ∉ activeDownloads (Example.disk ∅)) ∧
  (claimAll Example.env "/cache/fetched/audio/kchat.adf" 3%nat
     (Example.disk ∅)).1 = [false; true; true].
Proof.
  split; [apply not_elem_of_empty|].
  apply (proj1 one_claim_per_path_released_on_every_exit Example.env
           "/cache/fetched/audio/kchat.adf" 2%nat (Example.disk ∅)).
  apply not_elem_of_empty.
Defined.

(** * Further properties *)

(** ** Traces *)

Lemma exec_trace E {X} (o : op X) w :
  trace (exec E o w).2 = trace w ++ [ev o (exec E o w).1].
Proof.
  destruct o; simpl; try done;
    repeat match goal with
           | |- context [let (_, _) := ?t in _] => destruct t
           end; done.
Qed.

(** A program that only logs leaves everything but the log as it is. *)
Lemma logs_run E {A} (p : prog A) w :
  all_ops (@logs) p →
  fs (run E p w).2 = fs w ∧
  activeDownloads (run E p w).2 = activeDownloads w ∧
  count (run E p w).2 = count w ∧
  ∃ evs, trace (run E p w).2 = trace w ++ evs ∧
         Forall (λ e, touches e = false) evs.
Proof.
  revert w. induction p as [a|X o k IH]; intros w; simpl.
  - intros _. repeat split. exists []. by rewrite app_nil_r.
  - intros [Ho Hk]. destruct o; try done. simpl.
    destruct (IH tt (record (EvLog format args) w) (Hk tt))
      as (H1 & H2 & H3 & evs & H4 & H5).
    rewrite H1, H2, H3, H4. repeat split.
    exists (EvLog format args :: evs). simpl. rewrite <- app_assoc.
    split; [done|]. by constructor.
Qed.

(** ** [handleRoot] *)

Lemma handleRoot_logs E w r : all_ops (@logs) (handleRoot E w r).
Proof. unfold handleRoot, serveIndex. explore. Qed.

(** X8. [handleRoot] answers from the embedded files alone: whatever the
    request, it only logs, and the cache and the registry stay as they
    are; [/] gets [dist/index.html], another clean path the embedded
    file of that name under its MIME type, and a name that is not
    embedded 404. *)
Theorem handleRoot_serves_embedded_files_only E w r world :
  let out := run E (handleRoot E w r) world in
  let cleanedPath := TrimPrefix (URLPath r) "/" in
  (fs out.2 = fs world ∧
   activeDownloads out.2 = activeDownloads world ∧
   ∃ evs, trace out.2 = trace world ++ evs ∧
          Forall (λ e, touches e = false) evs) ∧
  (status w = None →
   URLPath r = "/" →
   match distFS E "dist/index.html" with
   | Some content =>
       status out.1 = Some StatusOK ∧
       wbody out.1 = (Write (wbody w) content).1.1 ∧
       header out.1 !! "Content-Type" = Some ["text/html; charset=utf-8"]
   | None => status out.1 = Some StatusNotFound
   end) ∧
  (status w = None →
   URLPath r ≠ "/" →
   Contains cleanedPath ".." = false →
   match distFS E ("dist/" +:+ cleanedPath) with
   | Some data =>
       status out.1 = Some StatusOK ∧
       wbody out.1 = (Write (wbody w) data).1.1 ∧
       header out.1 !! "Content-Type" =
         Some [let contentType :=
                 mime_TypeByExtension E (filepath_Ext E cleanedPath) in
               if String.eqb contentType "" then "application/octet-stream"
               else contentType]
   | None => status out.1 = Some StatusNotFound
   end).
Proof.
  intros out cleanedPath. split; [|split].
  - destruct (logs_run E _ world (handleRoot_logs E w r))
      as (H1 & H2 & _ & H4). auto.
  - intros Hw Hroot. subst out. unfold handleRoot, serveIndex.
    rewrite Hroot. simpl.
    destruct (distFS E "dist/index.html") as [content|]; simpl.
    + pose proof (CopyTo_status (Header_Set "Content-Type"
                    "text/html; charset=utf-8" w) (RData content REOF) tt)
        as Hs.
      pose proof (CopyTo_wbody (Header_Set "Content-Type"
                    "text/html; charset=utf-8" w) (RData content REOF) tt)
        as Hb.
      pose proof (CopyTo_header (Header_Set "Content-Type"
                    "text/html; charset=utf-8" w) (RData content REOF) tt)
        as Hh.
      destruct (CopyTo _ _ _) as [[w' []] [e|]]; simpl in *;
        rewrite Hs, Hb, Hh, WriteHeader_status by done;
        unfold Header_Set; simpl; rewrite Hw, lookup_insert_eq;
        (split; [done|]); (split; [|done]);
        unfold Copy; simpl;
        by destruct (Write (wbody w) content) as [[? ?] [?|]].
    + by apply http_Error_status.
  - intros Hw Hroot Hclean. subst out. unfold handleRoot.
    destruct (String.eqb_spec (URLPath r) "/") as [|_]; [done|].
    fold cleanedPath. rewrite Hclean.
    destruct (distFS E ("dist/" +:+ cleanedPath)) as [data|]; simpl.
    + unfold http_Write. rewrite CopyTo_status, CopyTo_wbody, CopyTo_header.
      rewrite WriteHeader_status by done. unfold Header_Set at 1 2. simpl.
      rewrite Hw. split; [done|]. split.
      * unfold Copy. simpl. by destruct (Write (wbody w) data) as [[? ?] [?|]].
      * unfold Header_Set. simpl. by rewrite lookup_insert_eq.
    + by apply http_NotFound_status.
Qed.

(** ** [corsHeadersMiddleware] *)

Lemma http_Error_header w msg code k :
  k ≠ "Content-Length" → k ≠ "Content-Type" →
  k ≠ "X-Content-Type-Options" →
  header (http_Error w msg code) !! k = header w !! k.
Proof.
  intros H1 H2 H3. unfold http_Error, http_Write.
  rewrite CopyTo_header, WriteHeader_header. unfold Header_Set, Header_Del.
  simpl. rewrite !lookup_insert_ne by done. by rewrite lookup_delete_ne.
Qed.

Lemma handleRoot_keeps_headers E w r k :
  k ≠ "Content-Length" → k ≠ "Content-Type" →
  k ≠ "X-Content-Type-Options" →
  returns (λ w', header w' !! k = header w !! k) (handleRoot E w r).
Proof.
  intros H1 H2 H3. unfold handleRoot, serveIndex.
  destruct (URLPath r =? "/")%string.
  - destruct (distFS E "dist/index.html") as [content|]; simpl.
    + pose proof (CopyTo_header (Header_Set "Content-Type"
                    "text/html; charset=utf-8" w) (RData content REOF) tt)
        as Hh.
      destruct (CopyTo _ _ _) as [[w' []] [e|]]; simpl in *; intros;
        rewrite Hh; unfold Header_Set; simpl; by rewrite lookup_insert_ne.
    + intros _. unfold http_NotFound. by apply http_Error_header.
  - destruct (Contains _ ".."); simpl.
    + intros _. by apply http_Error_header.
    + destruct (distFS E _) as [data|]; simpl.
      * unfold http_Write. rewrite CopyTo_header. unfold Header_Set. simpl.
        by rewrite lookup_insert_ne.
      * by apply http_Error_header.
Qed.

(** X4. An answer of [handleRoot] behind [corsHeadersMiddleware] carries
    the two cross-origin headers. *)
Theorem static_answers_are_cross_origin_isolated E w r world :
  let out := run E (corsHeadersMiddleware (handleRoot E) w r) world in
  header out.1 !! "Cross-Origin-Opener-Policy" = Some ["same-origin"] ∧
  header out.1 !! "Cross-Origin-Embedder-Policy" = Some ["require-corp"].
Proof.
  intros out. subst out. unfold corsHeadersMiddleware. split.
  - rewrite (returns_run E _ _ world
               (handleRoot_keeps_headers E _ r "Cross-Origin-Opener-Policy"
                  ltac:(done) ltac:(done) ltac:(done))).
    unfold Header_Set. simpl. rewrite lookup_insert_ne by done.
    by rewrite lookup_insert_eq.
  - rewrite (returns_run E _ _ world
               (handleRoot_keeps_headers E _ r "Cross-Origin-Embedder-Policy"
                  ltac:(done) ltac:(done) ltac:(done))).
    unfold Header_Set. simpl. by rewrite lookup_insert_eq.
Qed.

(** ** [serveLocalFile] *)

Lemma returns_true_run E {A} (p : prog (A * bool)) w :
  returns (λ out, out.2 = true) p → (run E p w).1.2 = true.
Proof. apply (returns_run E (λ out : A * bool, out.2 = true)). Qed.

Ltac always :=
  repeat (simpl;
          match goal with
          | |- ∀ _, _ => intro
          | |- returns _ (bind _ _) => eapply (returns_bind (λ _, True))
          | |- returns _ (match ?x with _ => _ end) => destruct x
          | |- True => exact I
          end);
  try done.

(** Once a file is settled on, the request is handled. *)
Lemma serveChosen_handles E w r localPath servePath encoding world :
  (run E (serveChosen E w r localPath servePath encoding) world).1.2 = true.
Proof. apply returns_true_run. unfold serveChosen, http_ServeFile. always. Qed.

Lemma serveLocalFile_false_iff E w r world localPath :
  (run E (serveLocalFile E w r localPath) world).1.2 = false ↔
    chooses E (fs world) r localPath = Miss.
Proof.
  rewrite serveLocalFile_chooses.
  destruct (chooses E (fs world) r localPath) as [servePath encoding| |];
    [rewrite serveChosen_handles|..]; simpl; by split.
Qed.

Lemma chooses_Miss E f r localPath :
  chooses E f r localPath = Miss ↔
    (Contains (acceptEncoding E r) "br" = true →
     regular (os_Stat f (basePathOf localPath +:+ ".br")) = false) ∧
    (Contains (acceptEncoding E r) "gzip" = true →
     regular (os_Stat f (basePathOf localPath +:+ ".gz")) = false) ∧
    (os_Stat f localPath = StatNotExist ∨ os_Stat f localPath = StatOk true).
Proof.
  unfold chooses.
  destruct (Contains (acceptEncoding E r) "br"),
    (regular (os_Stat f (basePathOf localPath +:+ ".br"))),
    (Contains (acceptEncoding E r) "gzip"),
    (regular (os_Stat f (basePathOf localPath +:+ ".gz"))),
    (os_Stat f localPath) as [[|]| |]; simpl;
    split; try done; try (intros (H1 & H2 & [H3|H3])); try done;
    try (by specialize (H1 eq_refl)); try (by specialize (H2 eq_refl));
    intros _; repeat split; try done; auto.
Qed.

(** A file under the path asked for is never a miss. *)
Lemma serveLocalFile_hit E w r world localPath rd data :
  fs world !! localPath = Some (File rd data) →
  (run E (serveLocalFile E w r localPath) world).1.2 = true.
Proof.
  intros Hfile. apply not_false_iff_true.
  rewrite serveLocalFile_false_iff, chooses_Miss.
  intros (_ & _ & Hstat).
  destruct (os_Stat_file _ _ _ _ Hfile) as [H|H]; rewrite H in Hstat;
    by destruct Hstat.
Qed.

(** X11. The answer of [serveLocalFile] is a miss exactly when [stat]
    finds no variant the client accepts to be a regular file and reports
    the path asked for absent or a directory.  A path below a regular
    file is not reported absent, so it is no miss.  A miss leaves the
    response and the disk as they were. *)
Theorem serveLocalFile_misses_exactly_when_nothing_is_there
    E w r world localPath :
  let basePath := basePathOf localPath in
  let out := run E (serveLocalFile E w r localPath) world in
  (out.1.2 = false ↔
     (Contains (acceptEncoding E r) "br" = true →
      regular (os_Stat (fs world) (basePath +:+ ".br")) = false) ∧
     (Contains (acceptEncoding E r) "gzip" = true →
      regular (os_Stat (fs world) (basePath +:+ ".gz")) = false) ∧
     (os_Stat (fs world) localPath = StatNotExist ∨
      os_Stat (fs world) localPath = StatOk true)) ∧
  (∀ q rd data,
     q ∈ parents localPath → fs world !! q = Some (File rd data) →
     os_Stat (fs world) localPath = StatError ∧ out.1.2 = true) ∧
  (out.1.2 = false → out.1.1 = w) ∧
  fs out.2 = fs world ∧
  fetches (trace out.2) = fetches (trace world).
Proof.
  intros basePath out.
  assert (out.1.2 = false ↔
          (Contains (acceptEncoding E r) "br" = true →
           regular (os_Stat (fs world) (basePath +:+ ".br")) = false) ∧
          (Contains (acceptEncoding E r) "gzip" = true →
           regular (os_Stat (fs world) (basePath +:+ ".gz")) = false) ∧
          (os_Stat (fs world) localPath = StatNotExist ∨
           os_Stat (fs world) localPath = StatOk true)) as Hiff.
  { subst out. rewrite serveLocalFile_false_iff. apply chooses_Miss. }
  split; [exact Hiff|]. split.
  { intros q rd data Hq Hfile.
    pose proof (os_Stat_below _ _ (throughFile_parent _ _ _ _ _ Hq Hfile))
      as Hstat.
    split; [done|]. apply not_false_iff_true. rewrite Hiff.
    intros (_ & _ & [H|H]); by rewrite Hstat in H. }
  split; [apply serveLocalFile_miss_run|].
  destruct (looks_run E _ world (serveLocalFile_looks E w r localPath))
    as (Hfs & _ & _ & evs & Ht & Hl).
  split; [done|]. subst out.
  by rewrite Ht, fetches_app, (looked_fetches _ Hl), app_nil_r.
Qed.

Lemma announced_typed E w localPath encoding :
  is_Some (header (Header_Set "Content-Encoding" encoding
                     (typed E w localPath)) !! "Content-Type").
Proof.
  unfold typed, Header_Set. simpl. rewrite lookup_insert_ne by done.
  by rewrite lookup_insert_eq.
Qed.

(** A variant handed to [http.ServeFile], and what a plain request gets
    of it. *)
Lemma variant_served E w r world localPath variant encoding data :
  encoding ≠ "" →
  let announced :=
    Header_Set "Content-Encoding" encoding (typed E w localPath) in
  let out := (run E (http_ServeFile E announced r variant) world).1 in
  plain r →
  os_Open (fs world) variant = Opened data →
  status out = Some (default StatusOK (status w)) ∧
  wbody out = (if String.eqb (Method r) "HEAD" then wbody w
               else (Copy (wbody w) (RData data REOF) tt).1.1) ∧
  header out !! "Content-Encoding" = Some [encoding] ∧
  header out !! "Content-Type" =
    Some [contentTypeOf E (basePathOf localPath)] ∧
  header out !! "Content-Length" = header w !! "Content-Length".
Proof.
  intros Henc announced out Hplain Hopen.
  destruct (http_ServeFile_plain E announced r variant world data Hplain Hopen
              (announced_typed E w localPath encoding))
    as (Hstatus & Hbody & Hsame & _ & Hlength).
  fold out in Hstatus, Hbody, Hsame, Hlength.
  rewrite Hstatus, Hbody, !Hsame, Hlength by done.
  subst announced. unfold typed, Header_Get, Header_Set. simpl.
  rewrite lookup_insert_eq.
  rewrite !lookup_insert_ne by done. rewrite lookup_insert_eq.
  repeat split; try done.
  destruct (String.eqb_spec encoding "") as [|_]; [done|].
  by rewrite !lookup_insert_ne.
Qed.

(** X12. A variant the client accepts, brotli before gzip, goes to
    [http.ServeFile] as it is on disk, with its encoding announced and
    under the content type of the name without the suffix.  A plain
    request is answered 200 with the bytes of the variant, unless it is a
    [HEAD], and no length is set. *)
Theorem precompressed_variant_is_sent_verbatim E w r world localPath data :
  let basePath := basePathOf localPath in
  let out := run E (serveLocalFile E w r localPath) world in
  let announced encoding :=
    Header_Set "Content-Encoding" encoding (typed E w localPath) in
  let sent encoding :=
    status out.1.1 = Some (default StatusOK (status w)) ∧
    wbody out.1.1 = (if String.eqb (Method r) "HEAD" then wbody w
                     else (Copy (wbody w) (RData data REOF) tt).1.1) ∧
    header out.1.1 !! "Content-Encoding" = Some [encoding] ∧
    header out.1.1 !! "Content-Type" = Some [contentTypeOf E basePath] ∧
    header out.1.1 !! "Content-Length" = header w !! "Content-Length" in
  (Contains (acceptEncoding E r) "br" = true →
   os_Stat (fs world) (basePath +:+ ".br") = StatOk false →
   out.1 = ((run E (http_ServeFile E (announced "br") r (basePath +:+ ".br"))
               world).1, true) ∧
   (plain r → os_Open (fs world) (basePath +:+ ".br") = Opened data →
    sent "br")) ∧
  (Contains (acceptEncoding E r) "gzip" = true →
   (Contains (acceptEncoding E r) "br" = true →
    regular (os_Stat (fs world) (basePath +:+ ".br")) = false) →
   os_Stat (fs world) (basePath +:+ ".gz") = StatOk false →
   out.1 = ((run E (http_ServeFile E (announced "gzip") r
                      (basePath +:+ ".gz")) world).1, true) ∧
   (plain r → os_Open (fs world) (basePath +:+ ".gz") = Opened data →
    sent "gzip")).
Proof.
  intros basePath out announced sent. split.
  - intros Hab Hstat.
    assert (out.1 = ((run E (http_ServeFile E (announced "br") r
                               (basePath +:+ ".br")) world).1, true)) as Hout.
    { subst out. rewrite serveLocalFile_chooses. unfold chooses.
      fold basePath. rewrite Hab, Hstat. simpl.
      by rewrite serveChosen_handed by (by right). }
    split; [done|]. intros Hplain Hopen. subst sent. simpl.
    rewrite Hout. simpl.
    by apply (variant_served E w r world localPath _ "br" data).
  - intros Hag Hbr Hstat.
    assert (out.1 = ((run E (http_ServeFile E (announced "gzip") r
                               (basePath +:+ ".gz")) world).1, true)) as Hout.
    { subst out. rewrite serveLocalFile_chooses. unfold chooses.
      fold basePath. rewrite Hag, Hstat.
      replace (Contains (acceptEncoding E r) "br" &&
               regular (os_Stat (fs world) (basePath +:+ ".br"))) with false
        by (destruct (Contains (acceptEncoding E r) "br"); [|done];
            by rewrite Hbr).
      simpl. by rewrite serveChosen_handed by (by left). }
    split; [done|]. intros Hplain Hopen. subst sent. simpl.
    rewrite Hout. simpl.
    by apply (variant_served E w r world localPath _ "gzip" data).
Qed.

(** ** [handleVcsky] *)

Lemma handleVcsky_local E w r world :
  Contains (TrimPrefix (URLPath r) "/vcsky/") ".." = false →
  let local := run E (serveLocalFile E w r (localPathOf E r)) world in
  local.1.2 = true →
  run E (handleVcsky E w r) world = (local.1.1, local.2).
Proof.
  intros Hclean local Hhit. unfold handleVcsky.
  rewrite Hclean. fold (localPathOf E r). rewrite run_bind.
  fold local. by rewrite Hhit.
Qed.

Lemma handleVcsky_hit E w r world rd data :
  Contains (TrimPrefix (URLPath r) "/vcsky/") ".." = false →
  fs world !! localPathOf E r = Some (File rd data) →
  let out := run E (handleVcsky E w r) world in
  fs out.2 = fs world ∧
  activeDownloads out.2 = activeDownloads world ∧
  fetches (trace out.2) = fetches (trace world) ∧
  renames (trace out.2) = renames (trace world).
Proof.
  intros Hclean Hfile out. subst out.
  rewrite handleVcsky_local
    by (first [done | by eapply serveLocalFile_hit]).
  simpl.
  destruct (looks_run E _ world (serveLocalFile_looks E w r (localPathOf E r)))
    as (Hfs & Hact & _ & evs & Ht & Hl).
  rewrite Hfs, Hact, Ht, fetches_app, renames_app.
  by rewrite (looked_fetches _ Hl), (looked_renames _ Hl), !app_nil_r.
Qed.

(** X9. A file in the cache under the requested path is answered from
    the cache: no request goes to the origin, nothing is renamed, the
    cache and the registry stay as they are. *)
Theorem cached_file_is_served_without_the_origin E w r world rd data :
  Contains (TrimPrefix (URLPath r) "/vcsky/") ".." = false →
  fs world !! localPathOf E r = Some (File rd data) →
  let out := run E (handleVcsky E w r) world in
  fs out.2 = fs world ∧
  activeDownloads out.2 = activeDownloads world ∧
  fetches (trace out.2) = fetches (trace world) ∧
  renames (trace out.2) = renames (trace world).
Proof. apply handleVcsky_hit. Qed.

Lemma clean_URLPath r :
  Contains (TrimPrefix (URLPath r) "/vcsky/") ".." = false →
  containsDotDot (URLPath r) = false.
Proof.
  intros Hclean. apply clean_containsDotDot.
  destruct (Contains (URLPath r) "..") eqn:H; [|done].
  by rewrite (Contains_TrimPrefix_vcsky _ H) in Hclean.
Qed.

Lemma serveError_status w text code :
  informational code = false →
  status w = None → status (serveError w text code) = Some code.
Proof. intros Hcode Hw. unfold serveError. by apply http_Error_status. Qed.

(** X26. Trouble with the local file is answered as such and not handed
    to the origin.  For a client that announces no encoding: a path whose
    [stat] fails for another reason than absence gets 500, and so does a
    path below a regular file; a file that cannot be opened gets 500 when
    it was to be decoded, and else what [http.ServeFile] makes of it: 403,
    or 301 for a URL that ends in [/index.html]. *)
Theorem local_trouble_is_not_handed_to_the_origin E w r world :
  Contains (TrimPrefix (URLPath r) "/vcsky/") ".." = false →
  acceptEncoding E r = "" →
  status w = None →
  let out := run E (handleVcsky E w r) world in
  let localPath := localPathOf E r in
  (os_Stat (fs world) localPath = StatError →
   status out.1 = Some StatusInternalServerError ∧
   fetches (trace out.2) = fetches (trace world)) ∧
  (∀ q rd data,
     q ∈ parents localPath → fs world !! q = Some (File rd data) →
     status out.1 = Some StatusInternalServerError ∧
     fetches (trace out.2) = fetches (trace world)) ∧
  (os_Stat (fs world) localPath = StatOk false →
   os_Open (fs world) localPath = OpenDenied →
   status out.1 =
     Some (if HasSuffix localPath ".br" then StatusInternalServerError
           else if HasSuffix (URLPath r) "/index.html"
                then StatusMovedPermanently
                else StatusForbidden) ∧
   fetches (trace out.2) = fetches (trace world)).
Proof.
  intros Hclean Hae Hw out localPath.
  set (local := run E (serveLocalFile E w r localPath) world).
  assert (local.1.2 = true → out = (local.1.1, local.2)) as Hrun
    by apply (handleVcsky_local E w r world Hclean).
  destruct (looks_run E _ world (serveLocalFile_looks E w r localPath))
    as (_ & _ & _ & evs & Ht & Hl).
  assert (fetches (trace local.2) = fetches (trace world)) as Hfetch
    by (subst local;
        by rewrite Ht, fetches_app, (looked_fetches _ Hl), app_nil_r).
  assert (chooses E (fs world) r localPath =
            match os_Stat (fs world) localPath with
            | StatOk false =>
                Serve localPath
                      (if HasSuffix localPath ".br" then "br"
                       else if HasSuffix localPath ".gz" then "gzip" else "")
            | StatError => Trouble
            | _ => Miss
            end) as Hchoice
    by (apply chooses_asked; left; by rewrite Hae).
  assert (os_Stat (fs world) localPath = StatError →
          status out.1 = Some StatusInternalServerError ∧
          fetches (trace out.2) = fetches (trace world)) as Hfailed.
  { intros Hstat.
    assert (local.1 = (http_Error w "Internal server error"
                         StatusInternalServerError, true)) as Hlocal
      by (subst local; by rewrite serveLocalFile_chooses, Hchoice, Hstat).
    rewrite Hrun by (by rewrite Hlocal). simpl. rewrite Hlocal. simpl.
    split; [by apply http_Error_status|done]. }
  split; [done|]. split.
  { intros q rd data Hq Hfile. apply Hfailed.
    by eapply os_Stat_below, throughFile_parent. }
  intros Hstat Hopen.
  assert (local.1.2 = true ∧
          status local.1.1 =
            Some (if HasSuffix localPath ".br" then StatusInternalServerError
                  else if HasSuffix (URLPath r) "/index.html"
                       then StatusMovedPermanently
                       else StatusForbidden)) as [Hhit Hstatus].
  { subst local. rewrite serveLocalFile_chooses, Hchoice, Hstat.
    destruct (HasSuffix localPath ".br") eqn:Hbr.
    - unfold serveChosen. rewrite Hae. simpl. rewrite Hopen. simpl.
      split; [done|]. by apply http_Error_status.
    - rewrite serveChosen_handed
        by (left; by destruct (HasSuffix localPath ".gz")).
      simpl. split; [done|].
      unfold http_ServeFile. rewrite (clean_URLPath _ Hclean).
      destruct (HasSuffix (URLPath r) "/index.html").
      + simpl. unfold localRedirect. rewrite WriteHeader_status by done.
        by destruct (HasSuffix localPath ".gz"), (RawQuery r =? "")%string;
          simpl; rewrite Hw.
      + simpl. rewrite Hopen. apply serveError_status; [done|].
        by destruct (HasSuffix localPath ".gz"). }
  rewrite Hrun by done. simpl. by rewrite Hstatus.
Qed.

Lemma handleVcsky_miss E w r world :
  let miss := run E (serveLocalFile E w r (localPathOf E r)) world in
  Contains (TrimPrefix (URLPath r) "/vcsky/") ".." = false →
  miss.1.2 = false →
  run E (handleVcsky E w r) world =
    run E (proxyAndCache E w r (urlOf E r) (localPathOf E r))
      (record (EvLog "fetch %s%s"
                 [AStr (cdn E); AStr (TrimPrefix (URLPath r) "/vcsky/")])
              miss.2).
Proof.
  intros miss Hclean Hmiss.
  destruct (serveLocalFile_miss_run E w r _ world Hmiss) as (Hw & _).
  unfold handleVcsky. rewrite Hclean. fold (localPathOf E r).
  rewrite run_bind. fold miss in Hw |- *. rewrite Hmiss. cbv iota.
  rewrite Hw. by rewrite run_bind.
Qed.

(** ** [proxyAndCache] without a cache entry *)

Arguments proxyOnly : simpl never.

Lemma fetchless_run E {A} (p : prog A) w :
  all_ops (@fetchless) p →
  fetches (trace (run E p w).2) = fetches (trace w).
Proof.
  revert w. induction p as [a|X o k IH]; intros w Hp; [done|].
  destruct Hp as [Ho Hk]. rewrite run_Vis, IH by done.
  rewrite exec_trace, fetches_app.
  destruct o; try done; simpl; by rewrite app_nil_r.
Qed.

(** Where [proxyAndCache] gives up caching: the answer goes to the
    client as it is, unless its status makes [WriteHeader] panic; the
    disk and the registry are left alone. *)
Lemma proxyOnly_run E w resp limitedBody needDecompress from wld :
  let out := run E (proxyOnly E w resp limitedBody needDecompress from) wld in
  out.1 = (if validCode (StatusCode resp) || written w
           then (CopyTo (WriteHeader (StatusCode resp) w)
                   (if needDecompress
                    then NewReader (brotli E) (reader limitedBody)
                    else reader limitedBody) tt).1.1
           else w) ∧
  fs out.2 = fs wld ∧
  activeDownloads out.2 = activeDownloads wld ∧
  fetches (trace out.2) = fetches (trace wld) ∧
  renames (trace out.2) = renames (trace wld).
Proof.
  unfold proxyOnly.
  destruct (validCode (StatusCode resp)), (written w); simpl;
    try (rewrite fetches_app, renames_app; simpl; by rewrite !app_nil_r).
  all: destruct needDecompress;
    match goal with |- context [CopyTo ?a ?b ?c] =>
      destruct (CopyTo a b c) as [[w' σ] [e|]]
    end; simpl; repeat split; try done.
  all: destruct from; simpl; rewrite ?fetches_app, ?renames_app; simpl;
    by rewrite ?app_nil_r.
Qed.

Lemma Copy_reader_unlimited b dst :
  wroom dst = None →
  wdata (Copy dst (reader b) tt).1.1 = wdata dst ++ body_bytes b.
Proof.
  revert dst. induction b as [|e|bs rest IH]; intros dst Hroom.
  - by rewrite app_nil_r.
  - by rewrite app_nil_r.
  - change (Copy dst (reader (BData bs rest)) tt)
      with (let '(dst', _, ew) := Write dst bs in
            match ew with
            | Some e => (dst', tt, Some e)
            | None => Copy dst' (reader rest) tt
            end).
    rewrite (Write_unlimited _ _ Hroom). simpl.
    rewrite IH by done. simpl. by rewrite app_assoc.
Qed.

Lemma relayed_body E w r url resp :
  needsDecompress E r url = false →
  wroom (wbody w) = None →
  wdata (wbody (relayed E w r url resp)) =
    wdata (wbody w) ++
    take (Z.to_nat maxProxySize) (body_bytes (RespBody resp)).
Proof.
  intros Hraw Hroom. unfold relayed. simpl. rewrite Hraw, CopyTo_wbody.
  rewrite Copy_reader_unlimited by (by rewrite prepared_wbody).
  by rewrite prepared_wbody, LimitReader_bytes.
Qed.

Lemma relayed_status E w r url resp :
  informational (StatusCode resp) = false →
  status w = None → status (relayed E w r url resp) = Some (StatusCode resp).
Proof.
  intros Hcode Hw. unfold relayed. simpl.
  by rewrite CopyTo_status, WriteHeader_status, prepared_status.
Qed.

(** The end of a run that relays: the response is the relayed one, and
    the trace gained the one request. *)
Ltac relay Hvalid Ht Hl :=
  match goal with
  | |- context [run ?E (proxyOnly ?E ?a ?b ?c ?d ?e) ?f] =>
      let H1 := fresh in
      let H2 := fresh in
      let H3 := fresh in
      let H4 := fresh in
      let H5 := fresh in
      destruct (proxyOnly_run E a b c d e f) as (H1 & H2 & H3 & H4 & H5);
      rewrite H1, H2, ?H3, H4, H5, Hvalid
  end;
  simpl;
  rewrite <- !app_assoc, !fetches_app, !renames_app, Ht;
  rewrite !fetches_app, !renames_app;
  rewrite (looked_fetches _ Hl), (looked_renames _ Hl);
  simpl; rewrite !app_nil_r; done.

Section Relaying.
Context (E : Env) (w : ResponseWriter) (r : Request) (url localPath : string).
Context (world : World) (resp : Response).

Let miss := run E (serveLocalFile E w r localPath) world.
Let out := run E (proxyAndCache E w r url localPath) world.

Hypothesis Hmiss : miss.1.2 = false.
Hypothesis Hreq : http_NewRequest E (Method r) url = true.
Hypothesis Horigin : origin E (proxyRequest E r url) = Some resp.
Hypothesis Hlength : ContentLength resp ≤ maxProxySize.

(** X15. An answer of the origin other than 200 is never cached: the
    cache and the registry stay as they are after the one request.  With
    a status of three digits the answer is passed on, under that status
    unless it is an informational one, which the client never reports.
    Any other status makes [WriteHeader] panic: no status and no byte
    are written. *)
Theorem other_status_is_relayed_and_not_cached :
  StatusCode resp ≠ StatusOK →
  (validCode (StatusCode resp) = true →
   out.1 = relayed E w r url resp ∧
   (status w = None → informational (StatusCode resp) = false →
    status out.1 = Some (StatusCode resp))) ∧
  (validCode (StatusCode resp) = false → status w = None →
   status out.1 = None ∧ wbody out.1 = wbody w) ∧
  fs out.2 = fs world ∧
  activeDownloads out.2 = activeDownloads world ∧
  fetches (trace out.2) = fetches (trace world) ++ [proxyRequest E r url] ∧
  renames (trace out.2) = renames (trace world).
Proof.
  intros Hstatus.
  destruct (serveLocalFile_miss_run E w r localPath world Hmiss)
    as (Hw & Hfs & Hact).
  destruct (looks_run E _ world (serveLocalFile_looks E w r localPath))
    as (_ & _ & _ & evs & Ht & Hl).
  set (copied := if needsDecompress E r url
                 then Header_Del "Content-Length"
                        (Header_Del "Content-Encoding"
                           (copyHeaders E (RespHeader resp) w))
                 else copyHeaders E (RespHeader resp) w).
  assert (out.1 = (if validCode (StatusCode resp) || written copied
                   then relayed E w r url resp else copied) ∧
          fs out.2 = fs world ∧
          activeDownloads out.2 = activeDownloads world ∧
          fetches (trace out.2) =
            fetches (trace world) ++ [proxyRequest E r url] ∧
          renames (trace out.2) = renames (trace world)) as H.
  { subst out. unfold proxyAndCache. rewrite run_bind.
    fold miss in Hw, Hfs, Hact, Ht |- *. rewrite Hmiss, Hw. simpl.
    rewrite Hreq. simpl. fold (proxyRequest E r url). rewrite Horigin.
    rewrite (proj2 (Z.ltb_ge _ _) Hlength).
    replace (StatusCode resp =? StatusOK) with false
      by (symmetry; by apply Z.eqb_neq).
    simpl. fold (needsDecompress E r url). fold copied.
    match goal with
    | |- context [run ?E (proxyOnly ?E ?a ?b ?c ?d ?e) ?f] =>
        destruct (proxyOnly_run E a b c d e f) as (H1 & H2 & H3 & H4 & H5);
        rewrite H1, H2, ?H3, H4, H5
    end.
    simpl. rewrite <- !app_assoc, !fetches_app, !renames_app, Ht.
    rewrite !fetches_app, !renames_app.
    rewrite (looked_fetches _ Hl), (looked_renames _ Hl). simpl.
    rewrite !app_nil_r. repeat split; done. }
  assert (status copied = status w ∧ wbody copied = wbody w) as [Hs Hb]
    by (subst copied; by destruct (needsDecompress E r url)).
  destruct H as (H1 & H2 & H3 & H4 & H5).
  split; [|split; [|done]].
  - intros Hvalid. rewrite H1, Hvalid. simpl. split; [done|].
    intros Hnone Hcode. by apply relayed_status.
  - intros Hinvalid Hnone. rewrite H1, Hinvalid. unfold written.
    rewrite Hs, Hnone. simpl. by rewrite Hs, Hb.
Qed.

(** X16. While the background download holds the claim on the path, a
    200 answer is passed on and nothing is cached. *)
Theorem claimed_path_is_relayed_and_not_cached :
  StatusCode resp = StatusOK →
  localPath ∈ activeDownloads world →
  out.1 = relayed E w r url resp ∧
  (status w = None → status out.1 = Some StatusOK) ∧
  fs out.2 = fs world ∧
  activeDownloads out.2 = activeDownloads world ∧
  fetches (trace out.2) = fetches (trace world) ++ [proxyRequest E r url] ∧
  renames (trace out.2) = renames (trace world).
Proof.
  intros Hstatus Hheld.
  assert (validCode (StatusCode resp) = true) as Hvalid by (by rewrite Hstatus).
  destruct (serveLocalFile_miss_run E w r localPath world Hmiss)
    as (Hw & Hfs & Hact).
  destruct (looks_run E _ world (serveLocalFile_looks E w r localPath))
    as (_ & _ & _ & evs & Ht & Hl).
  assert (out.1 = relayed E w r url resp ∧
          fs out.2 = fs world ∧
          activeDownloads out.2 = activeDownloads world ∧
          fetches (trace out.2) =
            fetches (trace world) ++ [proxyRequest E r url] ∧
          renames (trace out.2) = renames (trace world)) as H.
  { subst out. unfold proxyAndCache. rewrite run_bind.
    fold miss in Hw, Hfs, Hact, Ht |- *. rewrite Hmiss, Hw. simpl.
    rewrite (bool_decide_eq_true_2 _
               (eq_ind_r (λ s, localPath ∈ s) Hheld Hact)).
    rewrite Hreq. simpl. fold (proxyRequest E r url). rewrite Horigin.
    rewrite (proj2 (Z.ltb_ge _ _) Hlength).
    replace (StatusCode resp =? StatusOK) with true by (by rewrite Hstatus).
    simpl.
    relay Hvalid Ht Hl. }
  destruct H as (H1 & H2 & H3 & H4 & H5). repeat split; try done.
  intros Hnone. rewrite H1, <- Hstatus. apply relayed_status; [|done].
  by rewrite Hstatus.
Qed.

(** X17. When the cache directory or the temp file cannot be made, the
    answer is passed on all the same. *)
Theorem cache_write_failure_is_relayed :
  let dir := filepath_Dir E localPath in
  let made := os_MkdirAll E (fs world) dir in
  StatusCode resp = StatusOK →
  localPath ∉ activeDownloads world →
  made.1 = false ∨ (os_CreateTemp E made.2 dir ".tmp-*").1 = None →
  out.1 = relayed E w r url resp ∧
  (status w = None → status out.1 = Some StatusOK) ∧
  (needsDecompress E r url = false →
   wroom (wbody w) = None →
   wdata (wbody out.1) =
     wdata (wbody w) ++
     take (Z.to_nat maxProxySize) (body_bytes (RespBody resp))) ∧
  fs out.2 = made.2 ∧
  fetches (trace out.2) = fetches (trace world) ++ [proxyRequest E r url] ∧
  renames (trace out.2) = renames (trace world).
Proof.
  intros dir made Hstatus Hfree Hfail.
  assert (validCode (StatusCode resp) = true) as Hvalid by (by rewrite Hstatus).
  destruct (serveLocalFile_miss_run E w r localPath world Hmiss)
    as (Hw & Hfs & Hact).
  destruct (looks_run E _ world (serveLocalFile_looks E w r localPath))
    as (_ & _ & _ & evs & Ht & Hl).
  assert (out.1 = relayed E w r url resp ∧
          fs out.2 = made.2 ∧
          fetches (trace out.2) =
            fetches (trace world) ++ [proxyRequest E r url] ∧
          renames (trace out.2) = renames (trace world)) as H.
  { subst out. unfold proxyAndCache. rewrite run_bind.
    fold miss in Hw, Hfs, Hact, Ht |- *. rewrite Hmiss, Hw. simpl.
    rewrite (bool_decide_eq_false_2 _
               (eq_ind_r (λ s, localPath ∉ s) Hfree Hact)).
    rewrite Hreq. simpl. fold (proxyRequest E r url). rewrite Horigin.
    rewrite (proj2 (Z.ltb_ge _ _) Hlength).
    replace (StatusCode resp =? StatusOK) with true by (by rewrite Hstatus).
    simpl. rewrite Hfs. fold dir. fold made.
    destruct made as [[|] cache] eqn:Hmade; simpl in *.
    - destruct Hfail as [|Hfail]; [done|].
      destruct (os_CreateTemp E cache dir ".tmp-*") as [[[name file]|] cache']
        eqn:Htemp; [done|]. simpl.
      assert (cache' = cache) as ->.
      { unfold os_CreateTemp in Htemp.
        destruct (temp_file E dir ".tmp-*") as [[? ?]|]; [|congruence].
        destruct (cache !! s); congruence. }
      relay Hvalid Ht Hl.
    - relay Hvalid Ht Hl. }
  destruct H as (H1 & H2 & H4 & H5). repeat split; try done.
  - intros Hnone. rewrite H1, <- Hstatus. apply relayed_status; [|done].
    by rewrite Hstatus.
  - intros Hraw Hroom. rewrite H1. by apply relayed_body.
Qed.

End Relaying.

(** X14. When no request can be made or the origin cannot be reached, the
    client gets 502 and the cache is left alone. *)
Theorem unreachable_origin_is_bad_gateway E w r url localPath world :
  let miss := run E (serveLocalFile E w r localPath) world in
  let out := run E (proxyAndCache E w r url localPath) world in
  miss.1.2 = false →
  status w = None →
  http_NewRequest E (Method r) url = false ∨
    origin E (proxyRequest E r url) = None →
  status out.1 = Some StatusBadGateway ∧
  fs out.2 = fs world ∧
  activeDownloads out.2 = activeDownloads world ∧
  renames (trace out.2) = renames (trace world) ∧
  fetches (trace out.2) =
    fetches (trace world) ++
    (if http_NewRequest E (Method r) url then [proxyRequest E r url] else []).
Proof.
  intros miss out Hmiss Hnone Hfail.
  destruct (serveLocalFile_miss_run E w r localPath world Hmiss)
    as (Hw & Hfs & Hact).
  destruct (looks_run E _ world (serveLocalFile_looks E w r localPath))
    as (_ & _ & _ & evs & Ht & Hl).
  subst out. unfold proxyAndCache. rewrite run_bind.
  fold miss in Hw, Hfs, Hact, Ht |- *. rewrite Hmiss, Hw. simpl.
  destruct (http_NewRequest E (Method r) url) eqn:Hreq; simpl.
  - destruct Hfail as [|Horigin]; [done|].
    fold (proxyRequest E r url). rewrite Horigin. simpl.
    rewrite http_Error_status by done.
    rewrite <- !app_assoc, !fetches_app, !renames_app, Ht.
    rewrite !fetches_app, !renames_app.
    rewrite (looked_fetches _ Hl), (looked_renames _ Hl). simpl.
    by rewrite !app_nil_r.
  - rewrite http_Error_status by done.
    rewrite <- !app_assoc, !fetches_app, !renames_app, Ht.
    rewrite !fetches_app, !renames_app.
    rewrite (looked_fetches _ Hl), (looked_renames _ Hl). simpl.
    by rewrite !app_nil_r.
Qed.

Lemma forwardHeaders_lookup E h k :
  forwardHeaders E h !! k =
    if decide (ToLower (lowerUnicode E) k = "host" ∨
               ToLower (lowerUnicode E) k = "accept-encoding")
    then None else h !! k.
Proof.
  unfold forwardHeaders. rewrite map_lookup_filter.
  destruct (h !! k) as [v|]; simpl; [|by case_decide].
  case_guard as Hk; case_decide as Hk'; simpl in *; naive_solver.
Qed.

(** X13. A call of [proxyAndCache] sends the origin at most one request:
    the client's method and headers, without [Host] and
    [Accept-Encoding]. *)
Theorem origin_is_asked_at_most_once E w r url localPath world :
  let out := run E (proxyAndCache E w r url localPath) world in
  let req := proxyRequest E r url in
  (fetches (trace out.2) = fetches (trace world) ∨
   fetches (trace out.2) = fetches (trace world) ++ [req]) ∧
  UpMethod req = Method r ∧
  UpURL req = url ∧
  ∀ k, UpHeader req !! k =
         if decide (ToLower (lowerUnicode E) k = "host" ∨
                    ToLower (lowerUnicode E) k = "accept-encoding")
         then None else ReqHeader r !! k.
Proof.
  intros out req. split; [|split; [done|split; [done|]]].
  - destruct (looks_run E _ world (serveLocalFile_looks E w r localPath))
      as (_ & _ & _ & evs & Ht & Hl).
    subst out. unfold proxyAndCache. rewrite run_bind.
    destruct (run E (serveLocalFile E w r localPath) world) as [[w' [|]] wld];
      simpl in *.
    + left. by rewrite Ht, fetches_app, (looked_fetches _ Hl), app_nil_r.
    + destruct (http_NewRequest E (Method r) url); simpl.
      * right. fold (proxyRequest E r url). fold req.
        rewrite fetchless_run.
        { simpl. rewrite <- !app_assoc, Ht, !fetches_app.
          rewrite (looked_fetches _ Hl). simpl. by rewrite app_nil_r. }
        unfold proxyOnly. explore.
      * left. rewrite <- !app_assoc, Ht, !fetches_app.
        rewrite (looked_fetches _ Hl). simpl. by rewrite !app_nil_r.
  - intros k. apply forwardHeaders_lookup.
Qed.

(** ** [proxyAndCache] with a cache entry *)

Section Committing.
Context (E : Env) (w : ResponseWriter) (r : Request) (url localPath : string).
Context (world : World) (resp : Response).
Context (cache cache' : gmap string node).
Context (tempFileName : string) (tempFile : Writer).

Let dir := filepath_Dir E localPath.
Let miss := run E (serveLocalFile E w r localPath) world.
Let pass := sharedPass E w r url resp tempFile.
Let out := run E (proxyAndCache E w r url localPath) world.

Hypothesis Hmiss : miss.1.2 = false.
Hypothesis Hfree : localPath ∉ activeDownloads world.
Hypothesis Hreq : http_NewRequest E (Method r) url = true.
Hypothesis Horigin : origin E (proxyRequest E r url) = Some resp.
Hypothesis Hlength : ContentLength resp ≤ maxProxySize.
Hypothesis Hstatus : StatusCode resp = StatusOK.
Hypothesis Hmkdir : os_MkdirAll E (fs world) dir = (true, cache).
Hypothesis Htemp :
  os_CreateTemp E cache dir ".tmp-*" = (Some (tempFileName, tempFile), cache').
Hypothesis Hname : tempFileName ≠ localPath.
Hypothesis Hpass : pass.2 = None.
Hypothesis Hrename : rename_ok E tempFileName localPath = true.
Hypothesis Hdir : isDir (cache !! localPath) = false.

Lemma proxyAndCache_committed :
  fs out.2 =
    <[localPath := File true
        (take (Z.to_nat maxProxySize) (body_bytes (RespBody resp)))]> cache ∧
  out.1 = pass.1.1 ∧
  activeDownloads out.2 = activeDownloads world ∧
  fetches (trace out.2) = fetches (trace world) ++ [proxyRequest E r url].
Proof.
  destruct (proxyAndCache_pass E w r url localPath world resp cache cache'
              tempFileName tempFile Hmiss Hfree Hreq Horigin Hlength Hstatus
              Hmkdir Htemp Hname) as (Hout & Hact & Hcase).
  destruct (sharedPass_complete E w r url localPath resp cache cache'
              tempFileName tempFile Htemp Hpass) as [_ Hall].
  destruct (miss_trace E w r localPath world) as [Hfetch _].
  fold pass out miss in Hout, Hact, Hcase, Hall, Hfetch.
  rewrite Hpass, Hrename, Hdir in Hcase. simpl in Hcase.
  destruct Hcase as [Hfs Htrace].
  rewrite Hfs, Htrace, Hall, LimitReader_bytes, !fetches_app, Hfetch.
  simpl. by rewrite ?app_nil_r.
Qed.

(** X18. When the stream is not decoded, the bytes the client is sent are
    the bytes cached, whatever the method of the request. *)
Theorem answer_is_cached_as_sent :
  needsDecompress E r url = false →
  let body := take (Z.to_nat maxProxySize) (body_bytes (RespBody resp)) in
  fs out.2 !! localPath = Some (File true body) ∧
  wdata (wbody out.1) = wdata (wbody w) ++ body ∧
  header out.1 = header (copyHeaders E (RespHeader resp) w) ∧
  fetches (trace out.2) = fetches (trace world) ++ [proxyRequest E r url].
Proof.
  intros Hraw body.
  destruct proxyAndCache_committed as (Hfs & Hout & _ & Hfetch).
  rewrite Hfs, Hout, Hfetch, lookup_insert_eq.
  split; [done|]. split; [|split; [|done]].
  - pose proof Hpass as Hp. subst pass. unfold sharedPass in *.
    rewrite Hraw in *.
    match type of Hp with context [CopyTo ?a ?b ?c] =>
      destruct (CopyTo_Copy a b c) as [H1 H2];
      rewrite (CopyTo_wbody a b c); rewrite H2 in Hp;
      destruct (Copy (wbody a) b c) as [[dst' tmp'] err] eqn:Hc
    end.
    simpl in *. subst err.
    apply Copy_Tee_ok in Hc as (_ & _ & Hc).
    by rewrite Hc, prepared_wbody, LimitReader_bytes.
  - subst pass. unfold sharedPass. rewrite Hraw, CopyTo_header.
    unfold prepared. rewrite Hraw. by rewrite WriteHeader_header.
Qed.

End Committing.

(** ** Fetched once *)

Section Once.
Context (E : Env) (w : ResponseWriter) (r : Request).
Context (world : World) (resp : Response).
Context (cache cache' : gmap string node).
Context (tempFileName : string) (tempFile : Writer).

Let localPath := localPathOf E r.
Let url := urlOf E r.
Let dir := filepath_Dir E localPath.
Let miss := run E (serveLocalFile E w r localPath) world.
Let pass := sharedPass E w r url resp tempFile.
Let first := run E (handleVcsky E w r) world.

Hypothesis Hclean : Contains (TrimPrefix (URLPath r) "/vcsky/") ".." = false.
Hypothesis Hmiss : miss.1.2 = false.
Hypothesis Hfree : localPath ∉ activeDownloads world.
Hypothesis Hreq : http_NewRequest E (Method r) url = true.
Hypothesis Horigin : origin E (proxyRequest E r url) = Some resp.
Hypothesis Hlength : ContentLength resp ≤ maxProxySize.
Hypothesis Hstatus : StatusCode resp = StatusOK.
Hypothesis Hmkdir : os_MkdirAll E (fs world) dir = (true, cache).
Hypothesis Htemp :
  os_CreateTemp E cache dir ".tmp-*" = (Some (tempFileName, tempFile), cache').
Hypothesis Hname : tempFileName ≠ localPath.
Hypothesis Hpass : pass.2 = None.
Hypothesis Hrename : rename_ok E tempFileName localPath = true.
Hypothesis Hdir : isDir (cache !! localPath) = false.

(** X10. Once a request has brought a file into the cache, no later
    request for that path goes to the origin, whatever its query, method
    and headers. *)
Theorem fetched_once_then_served_from_the_cache :
  fetches (trace first.2) = fetches (trace world) ++ [proxyRequest E r url] ∧
  fs first.2 !! localPath =
    Some (File true
            (take (Z.to_nat maxProxySize) (body_bytes (RespBody resp)))) ∧
  ∀ w' r',
    URLPath r' = URLPath r →
    let second := run E (handleVcsky E w' r') first.2 in
    fetches (trace second.2) = fetches (trace first.2) ∧
    fs second.2 = fs first.2.
Proof.
  pose proof (handleVcsky_miss E w r world Hclean Hmiss) as Hfirst.
  fold localPath url miss first in Hfirst.
  set (world1 := record _ miss.2) in Hfirst.
  destruct (serveLocalFile_miss_run E w r localPath world Hmiss)
    as (_ & Hfs & Hact).
  destruct (miss_trace E w r localPath world) as [Hfetch _].
  fold miss in Hfs, Hact, Hfetch.
  destruct (proxyAndCache_committed E w r url localPath world1 resp
              cache cache' tempFileName tempFile)
    as (Hcache & _ & _ & Hasked); try done.
  { rewrite (looks_run_result E _ world1 world); [done| |done].
    apply serveLocalFile_looks. }
  { unfold world1. simpl. by rewrite Hact. }
  { unfold world1. simpl. by rewrite Hfs. }
  rewrite <- Hfirst in Hcache, Hasked.
  split; [|split].
  - rewrite Hasked. unfold world1. simpl.
    by rewrite fetches_app, Hfetch, app_nil_r.
  - by rewrite Hcache, lookup_insert_eq.
  - intros w' r' Hpath second.
    destruct (handleVcsky_hit E w' r' first.2 true
                (take (Z.to_nat maxProxySize) (body_bytes (RespBody resp))))
      as (H1 & _ & H3 & _); [by rewrite Hpath| |done].
    unfold localPathOf. rewrite Hpath. fold (localPathOf E r).
    fold localPath. by rewrite Hcache, lookup_insert_eq.
Qed.

End Once.

(** ** [downloadFile] *)

Lemma length_append s t :
  String.length (s +:+ t) = (String.length s + String.length t)%nat.
Proof. induction s as [|c s IH]; simpl; [done|]. by rewrite IH. Qed.

Lemma tmp_differs s : s +:+ ".tmp" ≠ s.
Proof.
  intros H. apply (f_equal String.length) in H.
  rewrite length_append in H. simpl in H. lia.
Qed.

Lemma os_Create_fresh E f p file f' :
  os_Create E f p = (Some file, f') →
  f' = <[p := File true []]> f ∧ wdata file = [].
Proof.
  unfold os_Create. destruct (create_ok E p) as [room|]; [|done].
  destruct (f !! p) as [[| |]|]; naive_solver.
Qed.

Lemma rename_into_place E destPath cache h :
  let tmpPath := destPath +:+ ".tmp" in
  os_Rename E (<[tmpPath := File true (wdata h)]> cache) tmpPath destPath =
    if rename_ok E tmpPath destPath && negb (isDir (cache !! destPath))
    then (true, <[destPath := File true (wdata h)]> (delete tmpPath cache))
    else (false, <[tmpPath := File true (wdata h)]> cache).
Proof.
  intros tmpPath. unfold os_Rename.
  rewrite lookup_insert_eq, lookup_insert_ne by apply tmp_differs.
  rewrite delete_insert_eq.
  destruct (cache !! destPath) as [[| |]|]; simpl;
    rewrite ?andb_false_r; try done;
    by destruct (rename_ok E tmpPath destPath).
Qed.

Section Fetching.
Context (E : Env) (url destPath : string) (world : World) (resp : Response).
Context (cache cache' : gmap string node) (body : Reader unit) (file : Writer).

Let dir := filepath_Dir E destPath.
Let tmpPath := destPath +:+ ".tmp".
Let copied := Copy file body tt.
Let out := run E (downloadFile E url destPath) world.

Hypothesis Habsent : exists_ (os_Stat (fs world) destPath) = false.
Hypothesis Hfree : destPath ∉ activeDownloads world.
Hypothesis Hmkdir : os_MkdirAll E (fs world) dir = (true, cache).
Hypothesis Hreq : http_NewRequest E "GET" url = true.
Hypothesis Horigin : origin E (downloadRequest url) = Some resp.
Hypothesis Hstatus : StatusCode resp = StatusOK.
Hypothesis Hbody : decodedBody E resp = Some body.
Hypothesis Hcreate : os_Create E cache tmpPath = (Some file, cache').

Lemma downloadFile_copied :
  out.1 =
    match copied.2 with
    | Some e => Some (ErrIO e)
    | None =>
        if (os_Rename E (<[tmpPath := File true (wdata copied.1.1)]> cache)
              tmpPath destPath).1
        then None else Some ErrRename
    end ∧
  fs out.2 =
    match copied.2 with
    | Some e => delete tmpPath cache
    | None =>
        (os_Rename E (<[tmpPath := File true (wdata copied.1.1)]> cache)
           tmpPath destPath).2
    end ∧
  activeDownloads out.2 = activeDownloads world ∧
  fetches (trace out.2) = fetches (trace world) ++ [downloadRequest url].
Proof.
  destruct (os_Create_fresh _ _ _ _ _ Hcreate) as [Hc' Hempty].
  subst out. unfold downloadFile, fetchClaimed. simpl.
  rewrite Habsent. simpl.
  rewrite (bool_decide_eq_false_2 _ Hfree). simpl.
  rewrite Habsent. simpl. fold dir. rewrite Hmkdir.
  simpl. rewrite Hreq. simpl. fold (downloadRequest url). rewrite Horigin.
  replace (StatusCode resp =? StatusOK) with true by (by rewrite Hstatus).
  simpl. fold (decodedBody E resp). rewrite Hbody. fold tmpPath.
  simpl. rewrite Hcreate. simpl. fold copied.
  assert (({[destPath]} ∪ activeDownloads world) ∖ {[destPath]} =
          activeDownloads world) as Hreleased by set_solver.
  destruct copied as [[h []] [e|]]; simpl;
    unfold os_Close; rewrite Hc', lookup_insert_eq, insert_insert_eq.
  - rewrite !fetches_app, !delete_insert_eq. simpl. by rewrite !app_nil_r.
  - destruct (os_Rename E _ tmpPath destPath) as [ok f]; simpl.
    rewrite !fetches_app. simpl. by rewrite !app_nil_r.
Qed.

(** X19. A download that goes through leaves the decoded body at the
    destination, no temp file and no claim, after one request. *)
Theorem download_is_stored_decoded :
  copied.2 = None →
  rename_ok E tmpPath destPath = true →
  isDir (cache !! destPath) = false →
  out.1 = None ∧
  fs out.2 !! destPath = Some (File true (wdata copied.1.1)) ∧
  fs out.2 !! tmpPath = None ∧
  activeDownloads out.2 = activeDownloads world ∧
  fetches (trace out.2) = fetches (trace world) ++ [downloadRequest url].
Proof.
  intros Hcopy Hrename Hdir.
  destruct downloadFile_copied as (Hres & Hfs & Hact & Hfetch).
  pose proof (rename_into_place E destPath cache copied.1.1) as Hr.
  simpl in Hr. fold tmpPath in Hr.
  rewrite Hcopy, Hr, Hrename, Hdir in Hres, Hfs.
  simpl in Hres, Hfs. rewrite Hres, Hfs, Hact, Hfetch.
  rewrite lookup_insert_eq, lookup_insert_ne by (symmetry; apply tmp_differs).
  by rewrite lookup_delete_eq.
Qed.

(** X20. A copy that fails takes the temp file with it; a rename that
    fails leaves the temp file behind.  Either way the destination is
    as it was and the claim is given back. *)
Theorem failed_download_cleans_up_only_after_a_failed_copy :
  (∀ e, copied.2 = Some e →
        out.1 = Some (ErrIO e) ∧
        fs out.2 !! tmpPath = None ∧
        fs out.2 !! destPath = cache !! destPath ∧
        activeDownloads out.2 = activeDownloads world) ∧
  (copied.2 = None →
   rename_ok E tmpPath destPath = false ∨ isDir (cache !! destPath) = true →
   out.1 = Some ErrRename ∧
   fs out.2 !! tmpPath = Some (File true (wdata copied.1.1)) ∧
   fs out.2 !! destPath = cache !! destPath ∧
   activeDownloads out.2 = activeDownloads world).
Proof.
  destruct downloadFile_copied as (Hres & Hfs & Hact & Hfetch).
  split.
  - intros e Hcopy. rewrite Hcopy in Hres, Hfs. rewrite Hres, Hfs, Hact.
    rewrite lookup_delete_eq.
    by rewrite lookup_delete_ne by apply tmp_differs.
  - intros Hcopy Hfail.
    pose proof (rename_into_place E destPath cache copied.1.1) as Hr.
    simpl in Hr. fold tmpPath in Hr. rewrite Hcopy, Hr in Hres, Hfs.
    replace (rename_ok E tmpPath destPath && negb (isDir (cache !! destPath)))
      with false in Hres, Hfs
      by (destruct Hfail as [-> | ->]; by rewrite ?andb_false_r).
    simpl in Hres, Hfs. rewrite Hres, Hfs, Hact.
    rewrite lookup_insert_eq.
    by rewrite lookup_insert_ne by apply tmp_differs.
Qed.

End Fetching.

Lemma os_MkdirAll_other E f dir p :
  dir ≠ p → (os_MkdirAll E f dir).2 !! p = f !! p.
Proof.
  intros Hne. unfold os_MkdirAll.
  destruct (f !! dir) as [[| |]|]; simpl; try done.
  destruct (mkdir_ok E dir); simpl; [|done].
  by rewrite lookup_insert_ne.
Qed.

(** X21. Whatever happens, [downloadFile] leaves the destination as it
    was or holding the whole decoded body of a 200 answer. *)
Theorem destination_is_untouched_or_complete E url destPath world :
  filepath_Dir E destPath ≠ destPath →
  let out := run E (downloadFile E url destPath) world in
  fs out.2 !! destPath = fs world !! destPath ∨
  ∃ resp body file h,
    origin E (downloadRequest url) = Some resp ∧
    StatusCode resp = StatusOK ∧
    decodedBody E resp = Some body ∧
    wdata file = [] ∧
    Copy file body tt = (h, tt, None) ∧
    fs out.2 !! destPath = Some (File true (wdata h)) ∧
    out.1 = None.
Proof.
  intros Hdir out.
  destruct (exists_ (os_Stat (fs world) destPath)) eqn:Habsent.
  { left. subst out. unfold downloadFile. simpl. by rewrite Habsent. }
  destruct (decide (destPath ∈ activeDownloads world)) as [Hheld|Hfree].
  { left. subst out. unfold downloadFile. simpl. rewrite Habsent. simpl.
    by rewrite (bool_decide_eq_true_2 _ Hheld). }
  pose proof (os_MkdirAll_other E (fs world) _ _ Hdir) as Hmade.
  destruct (os_MkdirAll E (fs world) (filepath_Dir E destPath))
    as [made cache] eqn:Hmkdir.
  simpl in Hmade.
  destruct made; cycle 1.
  { left. subst out. unfold downloadFile, fetchClaimed. simpl.
    rewrite Habsent. simpl. rewrite (bool_decide_eq_false_2 _ Hfree). simpl.
    rewrite Habsent. simpl. by rewrite Hmkdir. }
  destruct (http_NewRequest E "GET" url) eqn:Hreq; cycle 1.
  { left. subst out. unfold downloadFile, fetchClaimed. simpl.
    rewrite Habsent. simpl. rewrite (bool_decide_eq_false_2 _ Hfree). simpl.
    rewrite Habsent. simpl. rewrite Hmkdir. simpl. by rewrite Hreq. }
  destruct (origin E (downloadRequest url)) as [resp|] eqn:Horigin; cycle 1.
  { left. subst out. unfold downloadFile, fetchClaimed. simpl.
    rewrite Habsent. simpl. rewrite (bool_decide_eq_false_2 _ Hfree). simpl.
    rewrite Habsent. simpl. rewrite Hmkdir. simpl. rewrite Hreq. simpl.
    fold (downloadRequest url). by rewrite Horigin. }
  destruct (decide (StatusCode resp = StatusOK)) as [Hstatus|Hstatus]; cycle 1.
  { left. subst out. unfold downloadFile, fetchClaimed. simpl.
    rewrite Habsent. simpl. rewrite (bool_decide_eq_false_2 _ Hfree). simpl.
    rewrite Habsent. simpl. rewrite Hmkdir. simpl. rewrite Hreq. simpl.
    fold (downloadRequest url). rewrite Horigin.
    replace (StatusCode resp =? StatusOK) with false
      by (symmetry; by apply Z.eqb_neq).
    done. }
  destruct (decodedBody E resp) as [body|] eqn:Hbody; cycle 1.
  { left. subst out. unfold downloadFile, fetchClaimed. simpl.
    rewrite Habsent. simpl. rewrite (bool_decide_eq_false_2 _ Hfree). simpl.
    rewrite Habsent. simpl. rewrite Hmkdir. simpl. rewrite Hreq. simpl.
    fold (downloadRequest url). rewrite Horigin.
    replace (StatusCode resp =? StatusOK) with true by (by rewrite Hstatus).
    simpl. fold (decodedBody E resp). by rewrite Hbody. }
  destruct (os_Create E cache (destPath +:+ ".tmp")) as [[file|] cache']
    eqn:Hcreate; cycle 1.
  { left. subst out. unfold downloadFile, fetchClaimed. simpl.
    rewrite Habsent. simpl. rewrite (bool_decide_eq_false_2 _ Hfree). simpl.
    rewrite Habsent. simpl. rewrite Hmkdir. simpl. rewrite Hreq. simpl.
    fold (downloadRequest url). rewrite Horigin.
    replace (StatusCode resp =? StatusOK) with true by (by rewrite Hstatus).
    simpl. fold (decodedBody E resp). rewrite Hbody. simpl.
    rewrite Hcreate. simpl.
    assert (cache' = cache) as ->; [|done].
    unfold os_Create in Hcreate.
    destruct (create_ok E _) as [room|]; [|congruence].
    destruct (cache !! (destPath +:+ ".tmp")) as [[| |]|]; congruence. }
  destruct (downloadFile_copied E url destPath world resp cache cache' body
              file Habsent Hfree Hmkdir Hreq Horigin Hstatus Hbody Hcreate)
    as (Hres & Hfs & _).
  fold out in Hres, Hfs.
  destruct (os_Create_fresh _ _ _ _ _ Hcreate) as [Hc' Hempty].
  destruct (Copy file body tt) as [[h []] [e|]] eqn:Hcopy; simpl in Hres, Hfs.
  { left. rewrite Hfs.
    by rewrite lookup_delete_ne by apply tmp_differs. }
  rewrite rename_into_place in Hres, Hfs.
  destruct (rename_ok E _ destPath && _); simpl in Hres, Hfs.
  - right. exists resp, body, file, h. rewrite Hfs, lookup_insert_eq. done.
  - left. rewrite Hfs. by rewrite lookup_insert_ne by apply tmp_differs.
Qed.

(** ** [downloadWithWorkers] *)

Section Pools.
Context (E : Env) (files : list string) (baseURL outputDir label : string).

Local Abbreviation step := (step E files baseURL outputDir label).
Local Abbreviation reachable := (reachable E files baseURL outputDir label).

Lemma no_worker_is_stuck w st :
  workers E = 0 → files ≠ [] →
  rtc step (start E files w) st → st = start E files w.
Proof.
  intros Hw Hfiles. revert st. apply rtc_ind_r; [done|].
  intros st st' _ Hstep ->. unfold start in Hstep. rewrite Hw in Hstep.
  inversion Hstep; simpl in *; try done; try lia.
Qed.

(** X22. Without workers nothing is downloaded: a list that is not empty
    is never got through, an empty one is. *)
Theorem without_workers_only_the_empty_list_returns w :
  workers E = 0 →
  (files ≠ [] →
   ∀ st, reachable w st →
         returned st = None ∧ unsent st = files ∧
         trace (shared st) = trace w) ∧
  (files = [] →
   ∃ st, reachable w st ∧ returned st = Some None ∧
         fs (shared st) = fs w).
Proof.
  intros Hw. split.
  - intros Hfiles st [_ Hsteps].
    by rewrite (no_worker_is_stuck w st Hw Hfiles Hsteps).
  - intros ->. eexists. split; [split; [lia|]|].
    + eapply rtc_l; [by apply step_close|].
      eapply rtc_l; [|done].
      apply (step_return E [] baseURL outputDir label
               (mkPool [] true [] _ None _)); simpl; try done.
      rewrite Hw. simpl. constructor.
    + simpl. done.
Qed.

Lemma workItem_skips f file :
  exists_ (os_Stat f (filepath_Join E outputDir file)) = true →
  only_skips f (workItem E baseURL outputDir label (total files) file).
Proof. intros H. unfold workItem. simpl. by rewrite H. Qed.

Lemma only_skips_exec f {X} (o : op X) (k : X → prog unit) w :
  only_skips f (Vis o k) → fs w = f →
  only_skips f (k (exec E o w).1) ∧
  fs (exec E o w).2 = f ∧
  fetches (trace (exec E o w).2) = fetches (trace w) ∧
  count (exec E o w).2 downloaded = count w downloaded ∧
  count (exec E o w).2 failed = count w failed.
Proof.
  intros Hp Hfs. destruct o; simpl in Hp; try done; simpl.
  - rewrite Hfs, fetches_app. simpl. by rewrite app_nil_r.
  - destruct Hp as [-> Hp]. rewrite fetches_app. simpl.
    by rewrite app_nil_r.
Qed.

Lemma skipping_start w : skipping files w (start E files w).
Proof.
  split; simpl; try done.
  - by apply Forall_replicate.
  - by apply Forall_forall.
Qed.

Lemma skipping_step w st st' :
  (∀ file, file ∈ files →
           exists_ (os_Stat (fs w) (filepath_Join E outputDir file)) = true) →
  skipping files w st → step st st' → skipping files w st'.
Proof.
  intros Hthere [Hfs Hfetch Hdown Hfail Hgs Hwork Hunsent] Hstep.
  destruct Hstep as [st file rest Hun Hcl Hcap|st Hun Hcl
                    |st i file rest Hi Hw|st i X o k Hi|st i u Hi
                    |st i Hi Hw Hcl|st Hcl Hall Hnone];
    split; simpl; try done.
  - rewrite Hun in Hunsent. apply Forall_cons in Hunsent as [Hfile _].
    apply Forall_app. split; [done|]. by constructor.
  - rewrite Hun in Hunsent. by apply Forall_cons in Hunsent as [_ ?].
  - rewrite Hw in Hwork. apply Forall_cons in Hwork as [Hfile _].
    apply Forall_insert; [done|]. apply workItem_skips. by apply Hthere.
  - rewrite Hw in Hwork. by apply Forall_cons in Hwork as [_ ?].
  - pose proof (proj1 (Forall_lookup _ _) Hgs i _ Hi) as Hp.
    by destruct (only_skips_exec _ o k (shared st) Hp Hfs) as (_ & ? & _).
  - pose proof (proj1 (Forall_lookup _ _) Hgs i _ Hi) as Hp.
    destruct (only_skips_exec _ o k (shared st) Hp Hfs) as (_ & _ & ? & _).
    congruence.
  - pose proof (proj1 (Forall_lookup _ _) Hgs i _ Hi) as Hp.
    destruct (only_skips_exec _ o k (shared st) Hp Hfs)
      as (_ & _ & _ & ? & _).
    congruence.
  - pose proof (proj1 (Forall_lookup _ _) Hgs i _ Hi) as Hp.
    destruct (only_skips_exec _ o k (shared st) Hp Hfs)
      as (_ & _ & _ & _ & ?).
    congruence.
  - pose proof (proj1 (Forall_lookup _ _) Hgs i _ Hi) as Hp.
    destruct (only_skips_exec _ o k (shared st) Hp Hfs) as (? & _).
    by apply Forall_insert.
  - by apply Forall_insert.
  - by apply Forall_insert.
  - rewrite !fetches_app. simpl. rewrite !app_nil_r. exact Hfetch.
Qed.

(** X23. When every item is already at its destination, a bulk run asks
    the origin for nothing, leaves the disk alone, and returns nil with
    every item counted as skipped. *)
Theorem complete_cache_is_only_checked w st :
  (∀ file, file ∈ files →
           exists_ (os_Stat (fs w) (filepath_Join E outputDir file)) = true) →
  reachable w st →
  fs (shared st) = fs w ∧
  fetches (trace (shared st)) = fetches (trace w) ∧
  ∀ r, returned st = Some r →
       r = None ∧ count (shared st) skipped = Z.of_nat (List.length files).
Proof.
  intros Hthere Hreach.
  assert (skipping files w st) as [Hfs Hfetch Hdown Hfail _ _ _].
  { destruct Hreach as [_ Hsteps]. revert st Hsteps.
    apply rtc_ind_r; [apply skipping_start|].
    intros st st' _ Hstep Hst. by eapply skipping_step. }
  split; [done|]. split; [done|]. intros r Hr.
  destruct (accounted_reachable E files baseURL outputDir label w st Hreach)
    as [(ns & Hns & Hsum) _ _ _ _ Hret].
  destruct (Hret r Hr) as (Hall & _ & ->).
  rewrite (owed_nothing _ _ Hns Hall) in Hsum.
  destruct (accounted_reachable E files baseURL outputDir label w st Hreach)
    as [_ Hclosed Hroom _ Hgone _].
  unfold verdict. rewrite Hfail. split; [done|].
  destruct (Hret _ Hr) as (_ & Hcl & _).
  assert (work st = [] ∧ unsent st = []) as [Hw Hu].
  { split; [|by apply Hclosed].
    destruct (goroutines st) as [|g gs] eqn:Hgs.
    - destruct (work st); [done|simpl in Hroom; lia].
    - apply Hgone. apply Forall_cons in Hall as [-> _]. left. }
  rewrite Hw, Hu in Hsum. unfold sum3, total in Hsum. simpl in Hsum. lia.
Qed.

End Pools.

(** ** [basicAuthMiddleware] *)

Lemma cut_app a sep b :
  cut a sep = None → cut (a +:+ String sep b) sep = Some (a, b).
Proof.
  induction a as [|c a IH]; simpl.
  - by rewrite Ascii.eqb_refl.
  - destruct (Ascii.eqb c sep); [done|].
    destruct (cut a sep) as [[? ?]|]; [done|].
    intros _. by rewrite IH.
Qed.

Lemma cut_inv s sep a b :
  cut s sep = Some (a, b) → s = a +:+ String sep b ∧ cut a sep = None.
Proof.
  revert a. induction s as [|c s IH]; intros a; simpl; [done|].
  destruct (Ascii.eqb_spec c sep) as [->|Hne].
  - by intros [= <- <-].
  - destruct (cut s sep) as [[a' b']|]; [|done].
    intros [= <- <-]. destruct (IH a' eq_refl) as [-> Ha']. simpl.
    split; [done|]. destruct (Ascii.eqb_spec c sep); [done|].
    by rewrite Ha'.
Qed.

Lemma byte_val_inj a b : byte_val a = byte_val b → a = b.
Proof.
  unfold byte_val. intros H%(inj Z.of_N).
  apply (f_equal Byte.of_N) in H. rewrite !Byte.of_to_N in H. congruence.
Qed.

Lemma differences_fold v (xys : list (byte * byte)) :
  0 ≤ v →
  foldl (λ v xy, Z.lor v (Z.lxor (byte_val xy.1) (byte_val xy.2))) v xys
    = 0 ↔
  v = 0 ∧ Forall (λ xy, xy.1 = xy.2) xys.
Proof.
  revert v. induction xys as [|[x y] xys IH]; intros v Hv; simpl.
  - split; [by intros ->|by intros [-> _]].
  - rewrite IH.
    + rewrite Z.lor_eq_0_iff, Z.lxor_eq_0_iff, Forall_cons. simpl.
      split; [intros [[-> ?%byte_val_inj] ?]|intros [-> [-> ?]]]; auto.
    + apply Z.lor_nonneg. split; [done|]. apply Z.lxor_nonneg.
      unfold byte_val. lia.
Qed.

Lemma ConstantTimeCompare_eq x y : ConstantTimeCompare x y = 1 ↔ x = y.
Proof.
  unfold ConstantTimeCompare.
  destruct (Nat.eqb_spec (List.length x) (List.length y)) as [Hlen|Hlen];
    simpl.
  - match goal with |- context [foldl ?f 0 (zip x y)] =>
      destruct (Z.eqb_spec (foldl f 0 (zip x y)) 0) as [H0|H0]
    end.
    + split; [intros _|done].
      apply differences_fold in H0 as [_ Hall]; [|done].
      revert y Hlen Hall. induction x as [|a x IH]; intros [|b y]; try done.
      simpl. intros [= Hlen] [Hab Hall]%Forall_cons. simpl in Hab.
      subst b. f_equal. by apply IH.
    + split; [done|]. intros ->. exfalso. apply H0.
      apply differences_fold; [done|]. split; [done|].
      clear. induction y as [|b y IH]; simpl; by constructor.
  - split; [done|]. by intros ->.
Qed.

Lemma list_byte_of_string_inj s t :
  list_byte_of_string s = list_byte_of_string t → s = t.
Proof.
  intros H%(f_equal string_of_list_byte).
  by rewrite !string_of_list_byte_of_string in H.
Qed.

Lemma credentials_checked E login password decode next w r :
  Method r ≠ "OPTIONS" →
  (credentials E login password decode
     (Header_Get (ReqHeader r) "Authorization") →
   basicAuthMiddleware E login password decode next w r = next w r) ∧
  (¬ credentials E login password decode
       (Header_Get (ReqHeader r) "Authorization") →
   basicAuthMiddleware E login password decode next w r =
     Ret (unauthorized w)).
Proof.
  intros Hmethod. unfold basicAuthMiddleware.
  destruct (String.eqb_spec (Method r) "OPTIONS") as [|_]; [done|].
  set (auth := Header_Get (ReqHeader r) "Authorization").
  split.
  - intros (scheme & payload & decoded & Hauth & Hscheme & Hbasic & Hdec
            & Hpair & Hlogin).
    change (" " +:+ payload) with (String " " payload) in Hauth.
    change (":" +:+ password) with (String ":" password) in Hpair.
    rewrite Hauth.
    destruct (String.eqb_spec (scheme +:+ String " " payload) "") as [He|_].
    { by destruct scheme. }
    unfold SplitN2. rewrite (cut_app _ _ _ Hscheme), Hbasic. simpl.
    rewrite Hdec, Hpair, (cut_app _ _ _ Hlogin).
    by rewrite !(proj2 (ConstantTimeCompare_eq _ _) eq_refl).
  - intros Hnot.
    destruct (String.eqb_spec auth "") as [|_]; [done|].
    unfold SplitN2.
    destruct (cut auth " ") as [[scheme payload]|] eqn:Hcut; [|done].
    destruct (String.eqb_spec (ToLower (lowerUnicode E) scheme) "basic")
      as [Hbasic|];
      [|done].
    simpl. destruct (decode payload) as [decoded|] eqn:Hdec; [|done].
    destruct (cut (string_of_list_byte decoded) ":") as [[user pass]|]
      eqn:Hpair; [|done].
    destruct (Z.eqb_spec (ConstantTimeCompare (list_byte_of_string user)
                            (list_byte_of_string login)) 1) as [Hu|];
      [|done].
    destruct (Z.eqb_spec (ConstantTimeCompare (list_byte_of_string pass)
                            (list_byte_of_string password)) 1) as [Hp|];
      [|done].
    exfalso. apply Hnot.
    apply ConstantTimeCompare_eq, list_byte_of_string_inj in Hu, Hp.
    subst user pass.
    apply cut_inv in Hcut as [Hauth Hscheme].
    apply cut_inv in Hpair as [Hpair Hlogin].
    by exists scheme, payload, decoded.
Qed.

Lemma unauthorized_response w :
  status w = None →
  status (unauthorized w) = Some StatusUnauthorized ∧
  ∃ challenge,
    header (unauthorized w) !! "WWW-Authenticate" = Some [challenge].
Proof.
  intros Hw. unfold unauthorized. split.
  - by apply http_Error_status.
  - eexists. unfold http_Error, http_Write.
    rewrite CopyTo_header, WriteHeader_header. unfold Header_Set, Header_Del.
    simpl. rewrite !lookup_insert_ne by done.
    rewrite lookup_delete_ne by done. by rewrite lookup_insert_eq.
Qed.

(** X5. A request other than [OPTIONS] gets past [basicAuthMiddleware]
    exactly with a header [scheme payload] whose scheme [strings.ToLower]
    turns into [basic] and whose payload decodes to the login, a colon
    and the password; any other is answered 401 with a challenge, and the
    handler is not run. *)
Theorem only_the_credentials_get_past
    E login password decode (next : Handler) w r :
  Method r ≠ "OPTIONS" →
  (credentials E login password decode
     (Header_Get (ReqHeader r) "Authorization") →
   basicAuthMiddleware E login password decode next w r = next w r) ∧
  (¬ credentials E login password decode
       (Header_Get (ReqHeader r) "Authorization") →
   basicAuthMiddleware E login password decode next w r =
     Ret (unauthorized w) ∧
   (status w = None →
    status (unauthorized w) = Some StatusUnauthorized ∧
    ∃ challenge,
      header (unauthorized w) !! "WWW-Authenticate" = Some [challenge])).
Proof.
  intros Hmethod.
  destruct (credentials_checked E login password decode next w r Hmethod)
    as [Hyes Hno].
  split; [done|]. intros Hnot. split; [by apply Hno|].
  apply unauthorized_response.
Qed.

(** X6. A login with a colon in it cannot be presented: every request
    other than [OPTIONS] is refused. *)
Theorem login_with_a_colon_locks_everyone_out
    E login password decode (next : Handler) w r :
  cut login ":" ≠ None →
  Method r ≠ "OPTIONS" →
  basicAuthMiddleware E login password decode next w r = Ret (unauthorized w).
Proof.
  intros Hcolon Hmethod.
  apply (credentials_checked E login password decode next w r Hmethod).
  by intros (_ & _ & _ & _ & _ & _ & _ & _ & ?).
Qed.

(** X7. An [OPTIONS] request is not asked for credentials: behind
    [basicAuthMiddleware] it is answered as without it.  So a plain
    [OPTIONS] request that announces no encoding is given, through
    [handleVcsky], a cached file whose name does not end in [.br]: status
    200 and the bytes of the file. *)
Theorem options_request_is_served_without_credentials
    E login password decode (next : Handler) w r world data :
  Method r = "OPTIONS" →
  basicAuthMiddleware E login password decode next w r = next w r ∧
  (Contains (TrimPrefix (URLPath r) "/vcsky/") ".." = false →
   HasSuffix (URLPath r) "/index.html" = false →
   conditional r = false →
   acceptEncoding E r = "" →
   HasSuffix (localPathOf E r) ".br" = false →
   os_Stat (fs world) (localPathOf E r) = StatOk false →
   os_Open (fs world) (localPathOf E r) = Opened data →
   status w = None →
   let out := run E (basicAuthMiddleware E login password decode
                       (handleVcsky E) w r) world in
   status out.1 = Some StatusOK ∧
   wbody out.1 = (Copy (wbody w) (RData data REOF) tt).1.1 ∧
   header out.1 !! "WWW-Authenticate" = header w !! "WWW-Authenticate").
Proof.
  intros Hmethod.
  assert (∀ next, basicAuthMiddleware E login password decode next w r =
                    next w r) as Hpass
    by (intros next'; unfold basicAuthMiddleware; by rewrite Hmethod).
  split; [apply Hpass|].
  intros Hclean Hindex Hcond Hae Hbr Hstat Hopen Hw out. subst out.
  rewrite Hpass.
  set (localPath := localPathOf E r) in *.
  set (encoding := if HasSuffix localPath ".gz" then "gzip" else "").
  set (announced := if String.eqb encoding "" then typed E w localPath
                    else Header_Set "Content-Encoding" encoding
                           (typed E w localPath)).
  assert ((run E (serveLocalFile E w r localPath) world).1 =
            ((run E (http_ServeFile E announced r localPath) world).1, true))
    as Hlocal.
  { rewrite serveLocalFile_chooses, chooses_asked
      by (left; by rewrite Hae).
    rewrite Hstat, Hbr. fold encoding.
    apply serveChosen_handed. left. subst encoding.
    by destruct (HasSuffix localPath ".gz"). }
  pose proof (handleVcsky_local E w r world Hclean) as Hrun.
  simpl in Hrun. fold localPath in Hrun. rewrite Hrun by (by rewrite Hlocal).
  rewrite Hlocal. simpl.
  assert (status announced = None ∧ wbody announced = wbody w ∧
          header announced !! "WWW-Authenticate" =
            header w !! "WWW-Authenticate" ∧
          is_Some (header announced !! "Content-Type"))
    as (Hs & Hb & Hh & Hct).
  { subst announced. unfold typed, Header_Set.
    destruct (String.eqb encoding ""); simpl; rewrite Hw;
      rewrite !lookup_insert_ne by done; rewrite ?lookup_insert_eq;
      by repeat split. }
  destruct (http_ServeFile_plain E announced r localPath world data)
    as (Hstatus & Hbody & Hsame & _); [|done|done|].
  { split; [by apply clean_URLPath|done]. }
  rewrite Hstatus, Hbody, Hsame, Hs, Hb, Hh, Hmethod by done. done.
Qed.

(** ** [responseWriter] *)

Lemma WriteHeader_again code w c :
  status w = Some c → WriteHeader code w = w.
Proof. unfold WriteHeader. by intros ->. Qed.

Lemma WriteHeader_first code w :
  informational code = false →
  status w = None →
  WriteHeader code w = mkRW (header w) (interim w) (Some code) (wbody w).
Proof. unfold WriteHeader. by intros -> ->. Qed.

Lemma WriteHeader_interim code w :
  informational code = true →
  status w = None →
  WriteHeader code w = mkRW (header w) (interim w ++ [code]) None (wbody w).
Proof. unfold WriteHeader. by intros -> ->. Qed.

Lemma finalCode_final code : finalCode code = true → informational code = false.
Proof. unfold finalCode. by intros [_ ?%negb_true_iff]%andb_true_iff. Qed.

Lemma through_direct rw c :
  finalCall c →
  (if wroteHeader rw
   then status (rw_ResponseWriter rw) = Some (rw_status rw)
   else status (rw_ResponseWriter rw) = None ∧ rw_status rw = StatusOK) →
  rw_ResponseWriter (through rw c) = direct (rw_ResponseWriter rw) c ∧
  (if wroteHeader (through rw c)
   then status (rw_ResponseWriter (through rw c)) =
          Some (rw_status (through rw c))
   else status (rw_ResponseWriter (through rw c)) = None ∧
        rw_status (through rw c) = StatusOK).
Proof.
  destruct rw as [w code wrote]. simpl. intros Hfinal Hinv.
  destruct c as [code'|b|key value|key]; simpl.
  - apply finalCode_final in Hfinal.
    unfold rw_WriteHeader. simpl. destruct wrote; simpl.
    + by rewrite (WriteHeader_again _ _ _ Hinv).
    + destruct Hinv as [Hnone _]. by rewrite (WriteHeader_first _ _ Hfinal Hnone).
  - unfold rw_Write, rw_WriteHeader, ResponseWriter_Write. simpl.
    destruct wrote; simpl.
    + rewrite (WriteHeader_again _ _ _ Hinv).
      by destruct (Write _ b) as [[body n] err].
    + destruct Hinv as [Hnone _].
      rewrite (WriteHeader_first StatusOK _ eq_refl Hnone).
      rewrite (WriteHeader_again _ _ StatusOK) by done. simpl.
      by destruct (Write _ b) as [[body n] err].
  - unfold rw_Header_Set. simpl. split; [done|]. by destruct wrote.
  - unfold rw_Header_Del. simpl. split; [done|]. by destruct wrote.
Qed.

(** X3. As long as the handler passes [WriteHeader] final codes only
    (three digits, not informational), the status [loggingMiddleware]
    finds in its [responseWriter] is the status the client was sent, 200
    if the handler wrote nothing, and the wrapper changes nothing of the
    response.  An informational code breaks both: the wrapper takes it
    for the status and lets no other through, so that the client gets
    200 where the handler said otherwise, and the log shows the
    informational code. *)
Theorem logged_status_is_the_status_sent :
  (∀ w calls,
     status w = None →
     Forall finalCall calls →
     let rw := foldl through (logged w) calls in
     rw_ResponseWriter rw = foldl direct w calls ∧
     rw_status rw = default StatusOK (status (rw_ResponseWriter rw)) ∧
     (wroteHeader rw = false ↔ status (rw_ResponseWriter rw) = None)) ∧
  (∀ w early code b,
     status w = None →
     informational early = true →
     finalCode code = true →
     let calls := [CallWriteHeader early; CallWriteHeader code; CallWrite b] in
     let rw := foldl through (logged w) calls in
     status (foldl direct w calls) = Some code ∧
     status (rw_ResponseWriter rw) = Some StatusOK ∧
     rw_status rw = early).
Proof.
  split.
  - intros w calls Hw Hfinal rw.
    assert (rw_ResponseWriter rw = foldl direct w calls ∧
            if wroteHeader rw
            then status (rw_ResponseWriter rw) = Some (rw_status rw)
            else status (rw_ResponseWriter rw) = None ∧
                 rw_status rw = StatusOK)
      as [Hsame Hinv].
    { subst rw. induction calls as [|c calls IH] using rev_ind.
      { unfold logged. simpl. by rewrite Hw. }
      apply Forall_app in Hfinal as [Hcalls [Hc _]%Forall_cons].
      rewrite !foldl_app. simpl. destruct (IH Hcalls) as [IH1 IH2].
      destruct (through_direct _ c Hc IH2) as [H1 H2].
      split; [by rewrite H1, IH1|done]. }
    split; [done|]. destruct (wroteHeader rw).
    + rewrite Hinv. simpl. by split.
    + destruct Hinv as [-> ->]. by split.
  - intros w early code b Hw Hearly Hcode calls rw. subst rw calls.
    apply finalCode_final in Hcode. simpl.
    unfold rw_Write, rw_WriteHeader, ResponseWriter_Write, logged. simpl.
    rewrite (WriteHeader_interim early w Hearly Hw).
    rewrite (WriteHeader_first code) by done.
    rewrite (WriteHeader_again StatusOK _ code) by done.
    rewrite (WriteHeader_first StatusOK) by done. simpl.
    by destruct (Write (wbody w) b) as [[body n] err].
Qed.

(** ** [loadEnvConfig] *)

(** X1. What the environment does not set stays as the flags left it, and
    loading the environment twice is loading it once. *)
Theorem loadEnvConfig_only_overrides Getenv c :
  ((∀ name, Getenv name = "") → loadEnvConfig Getenv c = c) ∧
  loadEnvConfig Getenv (loadEnvConfig Getenv c) = loadEnvConfig Getenv c.
Proof.
  split.
  - intros Hunset. unfold loadEnvConfig. rewrite !Hunset. simpl.
    by destruct c.
  - unfold loadEnvConfig. simpl. f_equal.
    + destruct (Getenv "PORT" =? "")%string; simpl; [done|].
      destruct (Strconv.Atoi (Getenv "PORT")) as [n|]; [|done].
      by destruct (0 <? n) eqn:Hn.
    + by destruct (Getenv "AUTH_LOGIN" =? "")%string.
    + by destruct (Getenv "AUTH_PASSWORD" =? "")%string.
    + by destruct (Getenv "CDN" =? "")%string.
    + by destruct (Getenv "DOWNLOAD_DIR" =? "")%string.
    + by destruct ((Getenv "DOWNLOAD_CACHE" =? "1")%string ||
                   (Getenv "DOWNLOAD_CACHE" =? "true")%string).
    + destruct (Getenv "WORKERS" =? "")%string; simpl; [done|].
      destruct (Strconv.Atoi (Getenv "WORKERS")) as [n|]; [|done].
      by destruct (0 <? n) eqn:Hn.
Qed.

(** X2. The environment can turn nothing off: a port and a worker count
    that are positive stay positive, a login and a password that are set
    stay set, the background download stays on, and [download] is not
    touched. *)
Theorem environment_turns_nothing_off Getenv c :
  let c' := loadEnvConfig Getenv c in
  (0 < Flags.port c → 0 < Flags.port c') ∧
  (0 < Flags.workers c → 0 < Flags.workers c') ∧
  (Flags.login c ≠ "" → Flags.login c' ≠ "") ∧
  (Flags.password c ≠ "" → Flags.password c' ≠ "") ∧
  (Flags.downloadCache c = true → Flags.downloadCache c' = true) ∧
  Flags.download c' = Flags.download c.
Proof.
  unfold loadEnvConfig. simpl. repeat split.
  - intros Hc. destruct (Getenv "PORT" =? "")%string; simpl; [done|].
    destruct (Strconv.Atoi (Getenv "PORT")) as [n|]; [|done].
    destruct (Z.ltb_spec 0 n); done.
  - intros Hc. destruct (Getenv "WORKERS" =? "")%string; simpl; [done|].
    destruct (Strconv.Atoi (Getenv "WORKERS")) as [n|]; [|done].
    destruct (Z.ltb_spec 0 n); done.
  - intros Hc.
    by destruct (String.eqb_spec (Getenv "AUTH_LOGIN") "").
  - intros Hc.
    by destruct (String.eqb_spec (Getenv "AUTH_PASSWORD") "").
  - intros ->. by destruct (_ || _).
Qed.

(** ** The bulk downloader and the proxy *)

Lemma append_assoc (a b c : string) : (a +:+ b) +:+ c = a +:+ (b +:+ c).
Proof.
  induction a as [|x a IH]; [done|].
  change (String x ((a +:+ b) +:+ c) = String x (a +:+ (b +:+ c))).
  by f_equal.
Qed.

Lemma upto_from n s : upto n s +:+ Strings.from n s = s.
Proof.
  revert s. induction n as [|n IH]; intros [|c s]; simpl; try done.
  change (String c (upto n s +:+ Strings.from n s) = String c s).
  by rewrite IH.
Qed.

Lemma TrimSuffix_back s suffix :
  HasSuffix s suffix = true → TrimSuffix s suffix +:+ suffix = s.
Proof.
  intros H. unfold TrimSuffix. rewrite H. unfold HasSuffix in H.
  apply andb_true_iff in H as [_ H%String.eqb_eq].
  rewrite <- H at 2. apply upto_from.
Qed.

Lemma bulk_url E dir file :
  (HasSuffix (cdn E) "/" = true →
   cdn E +:+ dir +:+ "/" +:+ file =
     (TrimSuffix (cdn E) "/" +:+ "/" +:+ dir) +:+ "/" +:+ file) ∧
  (HasSuffix (cdn E) "/" = false →
   cdn E +:+ dir +:+ "/" +:+ file ≠
     (TrimSuffix (cdn E) "/" +:+ "/" +:+ dir) +:+ "/" +:+ file).
Proof.
  split.
  - intros H. pose proof (TrimSuffix_back _ _ H) as Hcdn.
    set (t := TrimSuffix (cdn E) "/") in *. rewrite <- Hcdn.
    by rewrite !append_assoc.
  - intros H. rewrite (TrimSuffix_none _ _ H).
    intros Heq%(f_equal String.length).
    rewrite !length_append in Heq. simpl in Heq. lia.
Qed.

(** X24. The URL the proxy asks the origin for and the URL the bulk
    downloader asks for, for the same item, are the same exactly when
    [cdn] ends in a slash: the downloader trims and adds the slash, the
    proxy does not. *)
Theorem proxy_and_downloader_agree_only_with_a_trailing_slash E r file :
  RawQuery r = "" →
  (URLPath r = "/vcsky/fetched/audio/" +:+ file →
   if HasSuffix (cdn E) "/"
   then urlOf E r = audioBaseURL E +:+ "/" +:+ file
   else urlOf E r ≠ audioBaseURL E +:+ "/" +:+ file) ∧
  (URLPath r = "/vcsky/fetched/models/gta3.img/" +:+ file →
   if HasSuffix (cdn E) "/"
   then urlOf E r = assetsBaseURL E +:+ "/" +:+ file
   else urlOf E r ≠ assetsBaseURL E +:+ "/" +:+ file).
Proof.
  intros Hquery. unfold urlOf, audioBaseURL, assetsBaseURL.
  rewrite Hquery. simpl. split; intros ->; simpl.
  - destruct (bulk_url E "fetched/audio" file) as [Hyes Hno].
    destruct (HasSuffix (cdn E) "/"); [by apply Hyes|by apply Hno].
  - destruct (bulk_url E "fetched/models/gta3.img" file) as [Hyes Hno].
    destruct (HasSuffix (cdn E) "/"); [by apply Hyes|by apply Hno].
Qed.

Section Served.
Context (E : Env) (file : string) (world : World) (resp : Response).
Context (cache cache' : gmap string node) (body : Reader unit) (h : Writer).

Let url := audioBaseURL E +:+ "/" +:+ file.
Let destPath := filepath_Join E (audioOutputDir E) file.
Let dir := filepath_Dir E destPath.
Let tmpPath := destPath +:+ ".tmp".
Let copied := Copy h body tt.
Let downloaded := run E (downloadFile E url destPath) world.

Hypothesis Hjoin :
  filepath_Join E (filepath_Join E (downloadDir E) "fetched/audio") file =
  filepath_Join E (downloadDir E) ("fetched/audio/" +:+ file).
Hypothesis Hclean : Contains ("fetched/audio/" +:+ file) ".." = false.
Hypothesis Habsent : exists_ (os_Stat (fs world) destPath) = false.
Hypothesis Hfree : destPath ∉ activeDownloads world.
Hypothesis Hmkdir : os_MkdirAll E (fs world) dir = (true, cache).
Hypothesis Hreq : http_NewRequest E "GET" url = true.
Hypothesis Horigin : origin E (downloadRequest url) = Some resp.
Hypothesis Hstatus : StatusCode resp = StatusOK.
Hypothesis Hbody : decodedBody E resp = Some body.
Hypothesis Hcreate : os_Create E cache tmpPath = (Some h, cache').
Hypothesis Hcopy : copied.2 = None.
Hypothesis Hrename : rename_ok E tmpPath destPath = true.
Hypothesis Hdir : isDir (cache !! destPath) = false.

(** X25. What the bulk downloader has stored for an item, the proxy
    serves: a later request for the item under [/vcsky/fetched/audio/]
    finds the file and does not go to the origin. *)
Theorem downloaded_item_is_served_from_the_cache w r :
  URLPath r = "/vcsky/fetched/audio/" +:+ file →
  let out := run E (handleVcsky E w r) downloaded.2 in
  fs downloaded.2 !! localPathOf E r =
    Some (File true (wdata copied.1.1)) ∧
  fetches (trace out.2) = fetches (trace downloaded.2) ∧
  fs out.2 = fs downloaded.2.
Proof.
  intros Hpath out.
  destruct (downloadFile_copied E url destPath world resp cache cache' body
              h Habsent Hfree Hmkdir Hreq Horigin Hstatus Hbody Hcreate)
    as (_ & Hfs & _).
  fold tmpPath in Hfs. fold copied in Hfs. fold downloaded in Hfs.
  pose proof (rename_into_place E destPath cache copied.1.1) as Hr.
  simpl in Hr. fold tmpPath in Hr.
  rewrite Hcopy, Hr, Hrename, Hdir in Hfs. simpl in Hfs.
  assert (localPathOf E r = destPath) as Hlocal.
  { unfold localPathOf. rewrite Hpath. simpl. symmetry. apply Hjoin. }
  assert (fs downloaded.2 !! localPathOf E r =
            Some (File true (wdata copied.1.1))) as Hfile
    by (by rewrite Hlocal, Hfs, lookup_insert_eq).
  split; [done|].
  destruct (handleVcsky_hit E w r downloaded.2 true (wdata copied.1.1))
    as (H1 & _ & H3 & _); [|done|done].
  rewrite Hpath. simpl. exact Hclean.
Qed.

End Served.

(** ** The further properties on the concrete installations *)

Lemma handleRoot_serves_embedded_files_only_witness :
  let r := Example.get "/app.js" "" in
  let out := run Sample.site
               (handleRoot Sample.site (newResponseWriter None) r)
               (Example.disk ∅) in
  status out.1 = Some StatusOK ∧
  wdata (wbody out.1) = Sample.js ∧
  header out.1 !! "Content-Type" = Some ["text/javascript; charset=utf-8"] ∧
  fs out.2 = ∅.
Proof.
  intros r out.
  destruct (handleRoot_serves_embedded_files_only Sample.site
              (newResponseWriter None) r (Example.disk ∅))
    as ((Hfs & _) & _ & Hfile).
  specialize (Hfile eq_refl ltac:(discriminate) eq_refl).
  change (distFS _ _) with (Some Sample.js) in Hfile.
  destruct Hfile as (Hstatus & Hbody & Htype).
  fold out in Hfs, Hstatus, Hbody, Htype.
  rewrite Hstatus, Hbody, Htype, Hfs. repeat split.
Defined.

Lemma serveLocalFile_misses_exactly_when_nothing_is_there_witness :
  let r := Example.get "/vcsky/foo.js" "gzip" in
  let world := Example.disk {["/cache/foo.js.br" := File true Example.abc]} in
  let serve := serveLocalFile Example.env (newResponseWriter None) r in
  let out := run Example.env (serve "/cache/foo.js") world in
  let below := run Example.env (serve "/cache/foo.js.br/x") world in
  out.1 = (newResponseWriter None, false) ∧ fs out.2 = fs world ∧
  "/cache/foo.js.br" ∈ parents "/cache/foo.js.br/x" ∧
  os_Stat (fs world) "/cache/foo.js.br/x" = StatError ∧
  below.1.2 = true.
Proof.
  intros r world serve out below.
  destruct (serveLocalFile_misses_exactly_when_nothing_is_there Example.env
              (newResponseWriter None) r world "/cache/foo.js")
    as ([_ Hmiss] & _ & Hsame & Hfs & _).
  destruct (serveLocalFile_misses_exactly_when_nothing_is_there Example.env
              (newResponseWriter None) r world "/cache/foo.js.br/x")
    as (_ & Hbelow & _).
  fold serve in Hmiss, Hsame, Hfs, Hbelow. fold out in Hmiss, Hsame, Hfs.
  fold below in Hbelow.
  assert (out.1.2 = false) as Hfalse.
  { apply Hmiss. split; [discriminate|]. split; [reflexivity|].
    left. reflexivity. }
  assert ("/cache/foo.js.br" ∈ parents "/cache/foo.js.br/x") as Hparent
    by (apply list_elem_of_In; vm_compute; tauto).
  split.
  { specialize (Hsame Hfalse). destruct out.1 as [w' b]. simpl in *.
    congruence. }
  split; [exact Hfs|]. split; [exact Hparent|].
  exact (Hbelow "/cache/foo.js.br" true Example.abc Hparent eq_refl).
Defined.

Lemma precompressed_variant_is_sent_verbatim_witness :
  let r := Example.get "/vcsky/foo.js" "gzip, deflate, br;q=0" in
  let world := Example.disk {["/cache/foo.js.br" := File true Example.abc]} in
  let out := run Example.env
               (serveLocalFile Example.env (newResponseWriter None) r
                  "/cache/foo.js") world in
  plain r ∧
  status out.1.1 = Some StatusOK ∧
  wdata (wbody out.1.1) = Example.abc ∧
  header out.1.1 !! "Content-Encoding" = Some ["br"] ∧
  header out.1.1 !! "Content-Type" = Some ["text/javascript; charset=utf-8"] ∧
  header out.1.1 !! "Content-Length" = None.
Proof.
  intros r world out.
  assert (plain r) as Hplain by (by repeat split).
  split; [exact Hplain|].
  destruct (precompressed_variant_is_sent_verbatim Example.env
              (newResponseWriter None) r world "/cache/foo.js" Example.abc)
    as [Hbr _].
  destruct (Hbr eq_refl eq_refl) as [_ Hsent].
  destruct (Hsent Hplain eq_refl) as (H1 & H2 & H3 & H4 & H5).
  fold out in H1, H2, H3, H4, H5. rewrite H1, H2, H3, H4, H5. repeat split.
Defined.

Lemma cached_file_is_served_without_the_origin_witness :
  let r := mkRequest "GET" "/vcsky/foo.js" "v=2" ∅ in
  let world := Example.disk {["/cache/foo.js" := File true Example.abc]} in
  let out := run Example.env
               (handleVcsky Example.env (newResponseWriter None) r) world in
  fs out.2 = fs world ∧ fetches (trace out.2) = [].
Proof.
  intros r world out.
  destruct (cached_file_is_served_without_the_origin Example.env
              (newResponseWriter None) r world true Example.abc)
    as (Hfs & _ & Hfetch & _); [reflexivity|reflexivity|].
  fold out in Hfs, Hfetch. by rewrite Hfs, Hfetch.
Defined.

Lemma other_status_is_relayed_and_not_cached_witness :
  let r := Example.get "/vcsky/missing" "" in
  let out := run Example.env
               (proxyAndCache Example.env (newResponseWriter None) r
                  "https://cdn.dos.zone/vcsky/missing" "/cache/missing")
               (Example.disk ∅) in
  status out.1 = Some 404 ∧ fs out.2 = ∅ ∧
  fetches (trace out.2) =
    [proxyRequest Example.env r "https://cdn.dos.zone/vcsky/missing"].
Proof.
  intros r out.
  destruct (other_status_is_relayed_and_not_cached Example.env
              (newResponseWriter None) r
              "https://cdn.dos.zone/vcsky/missing" "/cache/missing"
              (Example.disk ∅) (mkResponse 404 (-1) ∅ BEOF))
    as (Hrelayed & _ & Hfs & _ & Hfetch & _);
    [reflexivity | reflexivity | reflexivity
    | unfold maxProxySize; simpl; lia | discriminate | ].
  destruct (Hrelayed eq_refl) as [_ Hstatus].
  fold out in Hstatus, Hfs, Hfetch.
  by rewrite (Hstatus eq_refl eq_refl), Hfs, Hfetch.
Defined.

Lemma claimed_path_is_relayed_and_not_cached_witness :
  let r := Example.get "/vcsky/foo.js" "" in
  let world := mkWorld ∅ {["/cache/foo.js"]} (λ _, 0) [] in
  let out := run Example.env
               (proxyAndCache Example.env (newResponseWriter None) r
                  "https://cdn.dos.zone/vcsky/foo.js" "/cache/foo.js")
               world in
  status out.1 = Some StatusOK ∧ fs out.2 = ∅ ∧
  activeDownloads out.2 = {["/cache/foo.js"]}.
Proof.
  intros r world out.
  destruct (claimed_path_is_relayed_and_not_cached Example.env
              (newResponseWriter None) r
              "https://cdn.dos.zone/vcsky/foo.js" "/cache/foo.js"
              world Example.smallResponse)
    as (_ & Hstatus & Hfs & Hact & _);
    [reflexivity | reflexivity | reflexivity
    | unfold maxProxySize; simpl; lia | reflexivity
    | change ("/cache/foo.js" ∈ ({["/cache/foo.js"]} : gset string));
      by apply elem_of_singleton_2 | ].
  fold out in Hstatus, Hfs, Hact.
  by rewrite (Hstatus eq_refl), Hfs, Hact.
Defined.

Lemma cache_write_failure_is_relayed_witness :
  let r := Example.get "/vcsky/foo.js" "" in
  let out := run Sample.readOnly
               (proxyAndCache Sample.readOnly (newResponseWriter None) r
                  "https://cdn.dos.zone/vcsky/foo.js" "/cache/foo.js")
               (Example.disk ∅) in
  status out.1 = Some StatusOK ∧
  wdata (wbody out.1) = Example.abc ++ Example.abc ∧
  fs out.2 = ∅.
Proof.
  intros r out.
  destruct (cache_write_failure_is_relayed Sample.readOnly
              (newResponseWriter None) r
              "https://cdn.dos.zone/vcsky/foo.js" "/cache/foo.js"
              (Example.disk ∅) Example.smallResponse)
    as (_ & Hstatus & Hbody & Hfs & _);
    [reflexivity | reflexivity | reflexivity
    | unfold maxProxySize; simpl; lia | reflexivity
    | apply not_elem_of_empty | left; reflexivity | ].
  fold out in Hstatus, Hbody, Hfs.
  rewrite (Hstatus eq_refl), (Hbody eq_refl eq_refl), Hfs.
  split; [done|]. split; [|done].
  unfold maxProxySize. reflexivity.
Defined.

Lemma unreachable_origin_is_bad_gateway_witness :
  let r := Example.get "/vcsky/foo.js" "" in
  let out := run Sample.offline
               (proxyAndCache Sample.offline (newResponseWriter None) r
                  "https://cdn.dos.zone/vcsky/foo.js" "/cache/foo.js")
               (Example.disk ∅) in
  status out.1 = Some StatusBadGateway ∧ fs out.2 = ∅.
Proof.
  intros r out.
  destruct (unreachable_origin_is_bad_gateway Sample.offline
              (newResponseWriter None) r
              "https://cdn.dos.zone/vcsky/foo.js" "/cache/foo.js"
              (Example.disk ∅))
    as (Hstatus & Hfs & _);
    [reflexivity | reflexivity | right; reflexivity | ].
  fold out in Hstatus, Hfs. by rewrite Hstatus, Hfs.
Defined.

Lemma answer_is_cached_as_sent_witness :
  let r := mkRequest "HEAD" "/vcsky/foo.js" "" ∅ in
  let out := run Sample.heading
               (proxyAndCache Sample.heading (newResponseWriter None) r
                  "https://cdn.dos.zone/vcsky/foo.js" "/cache/foo.js")
               (Example.disk ∅) in
  fs out.2 !! "/cache/foo.js" = Some (File true []) ∧
  wdata (wbody out.1) = [].
Proof.
  intros r out.
  destruct (answer_is_cached_as_sent Sample.heading
              (newResponseWriter None) r
              "https://cdn.dos.zone/vcsky/foo.js" "/cache/foo.js"
              (Example.disk ∅) (mkResponse 200 6 ∅ BEOF)
              Example.cacheDir Example.withTemp
              "/cache/.tmp-1" (mkWriter [] None))
    as (Hfs & Hbody & _);
    [reflexivity | apply not_elem_of_empty | reflexivity | reflexivity
    | unfold maxProxySize; simpl; lia | reflexivity | reflexivity
    | reflexivity | done | reflexivity | reflexivity | reflexivity
    | reflexivity | ].
  fold out in Hfs, Hbody. rewrite Hfs, Hbody. split; reflexivity.
Defined.

Lemma fetched_once_then_served_from_the_cache_witness :
  let r := Example.get "/vcsky/foo.js" "" in
  let first := run Example.env
                 (handleVcsky Example.env (newResponseWriter None) r)
                 (Example.disk ∅) in
  let again := mkRequest "GET" "/vcsky/foo.js" "v=2" ∅ in
  let second := run Example.env
                  (handleVcsky Example.env (newResponseWriter None) again)
                  first.2 in
  fetches (trace first.2) =
    [proxyRequest Example.env r "https://cdn.dos.zone/vcsky/foo.js"] ∧
  fetches (trace second.2) = fetches (trace first.2).
Proof.
  intros r first again second.
  destruct (fetched_once_then_served_from_the_cache Example.env
              (newResponseWriter None) r (Example.disk ∅)
              Example.smallResponse Example.cacheDir Example.withTemp
              "/cache/.tmp-1" (mkWriter [] None))
    as (Hfirst & _ & Hsecond);
    [reflexivity | reflexivity | apply not_elem_of_empty | reflexivity
    | reflexivity | unfold maxProxySize; simpl; lia | reflexivity
    | reflexivity | reflexivity | done | reflexivity | reflexivity
    | reflexivity | ].
  fold first in Hfirst, Hsecond.
  destruct (Hsecond (newResponseWriter None) again eq_refl) as [Hfetch _].
  fold second in Hfetch. split; [exact Hfirst|exact Hfetch].
Defined.

Lemma download_is_stored_decoded_witness :
  let url := "https://cdn.dos.zone/vcsky/fetched/audio/kchat.adf" in
  let out := run Sample.compressing
               (downloadFile Sample.compressing url "/cache/kchat.adf")
               (Example.disk ∅) in
  out.1 = None ∧
  fs out.2 !! "/cache/kchat.adf" =
    Some (File true (list_byte_of_string "aabbcc")) ∧
  fs out.2 !! "/cache/kchat.adf.tmp" = None ∧
  activeDownloads out.2 = ∅ ∧
  fetches (trace out.2) = [downloadRequest url].
Proof.
  intros url out.
  destruct (download_is_stored_decoded Sample.compressing url
              "/cache/kchat.adf" (Example.disk ∅) Sample.compressed
              Example.cacheDir
              (<["/cache/kchat.adf.tmp" := File true []]> Example.cacheDir)
              (NewReader Example.expand (reader (BData Example.abc BEOF)))
              (mkWriter [] None))
    as (Hres & Hfile & Htmp & Hact & Hfetch);
    [reflexivity | apply not_elem_of_empty | reflexivity | reflexivity
    | reflexivity | reflexivity | reflexivity | reflexivity | reflexivity
    | reflexivity | reflexivity | ].
  split; [exact Hres|]. split; [exact Hfile|]. split; [exact Htmp|].
  split; [exact Hact|exact Hfetch].
Defined.

Lemma failed_download_cleans_up_only_after_a_failed_copy_witness :
  let url := "https://cdn.dos.zone/vcsky/fetched/audio/kchat.adf" in
  let out := run Sample.noRename
               (downloadFile Sample.noRename url "/cache/kchat.adf")
               (Example.disk ∅) in
  out.1 = Some ErrRename ∧
  fs out.2 !! "/cache/kchat.adf.tmp" =
    Some (File true (Example.abc ++ Example.abc)) ∧
  fs out.2 !! "/cache/kchat.adf" = None.
Proof.
  intros url out.
  destruct (failed_download_cleans_up_only_after_a_failed_copy
              Sample.noRename url "/cache/kchat.adf" (Example.disk ∅)
              Example.smallResponse Example.cacheDir
              (<["/cache/kchat.adf.tmp" := File true []]> Example.cacheDir)
              (reader (BData Example.abc (BData Example.abc BEOF)))
              (mkWriter [] None))
    as [_ Hleft];
    [reflexivity | apply not_elem_of_empty | reflexivity | reflexivity
    | reflexivity | reflexivity | reflexivity | reflexivity | ].
  destruct (Hleft eq_refl (or_introl eq_refl)) as (Hres & Htmp & Hdest & _).
  split; [exact Hres|]. split; [exact Htmp|exact Hdest].
Defined.

Lemma destination_is_untouched_or_complete_witness :
  let url := "https://cdn.dos.zone/vcsky/missing" in
  let out := run Example.env
               (downloadFile Example.env url "/cache/missing")
               (Example.disk ∅) in
  fs out.2 !! "/cache/missing" = None ∨
  ∃ resp body file h,
    origin Example.env (downloadRequest url) = Some resp ∧
    StatusCode resp = StatusOK ∧
    decodedBody Example.env resp = Some body ∧
    wdata file = [] ∧
    Copy file body tt = (h, tt, None) ∧
    fs out.2 !! "/cache/missing" = Some (File true (wdata h)) ∧
    out.1 = None.
Proof.
  intros url out.
  destruct (destination_is_untouched_or_complete Example.env url
              "/cache/missing" (Example.disk ∅)) as [H|H];
    [discriminate | left; exact H | right; exact H].
Defined.

Lemma without_workers_only_the_empty_list_returns_witness :
  let st := start Sample.idle ["kchat.adf"] (Example.disk ∅) in
  workers Sample.idle = 0 ∧
  reachable Sample.idle ["kchat.adf"] "https://cdn.dos.zone/vcsky"
    "/cache" "radio" (Example.disk ∅) st ∧
  returned st = None ∧ unsent st = ["kchat.adf"].
Proof.
  intros st.
  assert (reachable Sample.idle ["kchat.adf"] "https://cdn.dos.zone/vcsky"
            "/cache" "radio" (Example.disk ∅) st) as Hreach
    by (split; [vm_compute; discriminate|apply rtc_refl]).
  destruct (without_workers_only_the_empty_list_returns Sample.idle
              ["kchat.adf"] "https://cdn.dos.zone/vcsky" "/cache" "radio"
              (Example.disk ∅) eq_refl) as [Hstuck _].
  destruct (Hstuck ltac:(discriminate) st Hreach) as (Hnone & Hunsent & _).
  split; [reflexivity|]. split; [exact Hreach|]. by split.
Defined.

Lemma complete_cache_is_only_checked_witness :
  let world := Example.disk {["/cache/kchat.adf" := File true Example.abc]} in
  ∃ st,
    reachable Example.env ["kchat.adf"] "https://cdn.dos.zone/vcsky"
      "/cache" "radio" world st ∧
    returned st = Some None ∧
    count (shared st) skipped = 1 ∧
    fetches (trace (shared st)) = [].
Proof.
  intros world. eexists.
  assert (reachable Example.env ["kchat.adf"] "https://cdn.dos.zone/vcsky"
            "/cache" "radio" world _) as Hreach
    by (by apply downloadWithWorkers_returns).
  split; [exact Hreach|].
  assert (∀ file, file ∈ ["kchat.adf"] →
            exists_ (os_Stat (fs world)
                       (filepath_Join Example.env "/cache" file)) = true)
    as Hthere by (intros file ->%list_elem_of_singleton; reflexivity).
  destruct (complete_cache_is_only_checked Example.env ["kchat.adf"]
              "https://cdn.dos.zone/vcsky" "/cache" "radio" world _
              Hthere Hreach)
    as (_ & Hfetch & Hret).
  destruct (Hret _ eq_refl) as [Hnil Hskipped].
  split; [|split; [exact Hskipped|exact Hfetch]].
  exact (f_equal Some Hnil).
Defined.

Lemma only_the_credentials_get_past_witness :
  let r := mkRequest "GET" "/vcsky/foo.js" ""
             {["Authorization" := ["BASIC YWRtaW46c2VjcmV0"]]} in
  let w := newResponseWriter None in
  Method r ≠ "OPTIONS" ∧
  credentials Example.env "admin" "secret" Sample.base64
    (Header_Get (ReqHeader r) "Authorization") ∧
  basicAuthMiddleware Example.env "admin" "secret" Sample.base64
    (handleVcsky Example.env) w r = handleVcsky Example.env w r.
Proof.
  intros r w.
  assert (Method r ≠ "OPTIONS") as Hmethod by discriminate.
  assert (credentials Example.env "admin" "secret" Sample.base64
            (Header_Get (ReqHeader r) "Authorization")) as Hcred.
  { exists "BASIC", "YWRtaW46c2VjcmV0", (list_byte_of_string "admin:secret").
    repeat split; reflexivity. }
  split; [exact Hmethod|]. split; [exact Hcred|].
  exact (proj1 (only_the_credentials_get_past Example.env "admin" "secret"
                  Sample.base64 (handleVcsky Example.env) w r Hmethod) Hcred).
Defined.

Lemma login_with_a_colon_locks_everyone_out_witness :
  let r := mkRequest "GET" "/" ""
             {["Authorization" := ["Basic YTpiOmM="]]} in
  let w := newResponseWriter None in
  Sample.base64 "YTpiOmM=" = Some (list_byte_of_string "a:b:c") ∧
  basicAuthMiddleware Sample.site "a:b" "c" Sample.base64
    (handleRoot Sample.site) w r = Ret (unauthorized w).
Proof.
  intros r w. split; [reflexivity|].
  apply (login_with_a_colon_locks_everyone_out Sample.site "a:b" "c"
           Sample.base64 (handleRoot Sample.site) w r); discriminate.
Defined.

Lemma options_request_is_served_without_credentials_witness :
  let r := mkRequest "OPTIONS" "/vcsky/foo.js" "" ∅ in
  let world := Example.disk {["/cache/foo.js" := File true Example.abc]} in
  let out := run Example.env
               (basicAuthMiddleware Example.env "admin" "secret" Sample.base64
                  (handleVcsky Example.env) (newResponseWriter None) r)
               world in
  Header_Get (ReqHeader r) "Authorization" = "" ∧
  status out.1 = Some StatusOK ∧
  wdata (wbody out.1) = Example.abc.
Proof.
  intros r world out. split; [reflexivity|].
  destruct (options_request_is_served_without_credentials Example.env
              "admin" "secret" Sample.base64 (handleVcsky Example.env)
              (newResponseWriter None) r world Example.abc eq_refl)
    as [_ Hserved].
  destruct Hserved as (Hstatus & Hbody & _); [reflexivity..|].
  fold out in Hstatus, Hbody. rewrite Hstatus, Hbody. split; reflexivity.
Defined.

Lemma logged_status_is_the_status_sent_witness :
  let calls := [CallHeaderSet "Content-Type" "text/plain";
                CallWriteHeader StatusNotFound;
                CallWrite Example.abc;
                CallWriteHeader StatusOK] in
  let rw := foldl through (logged (newResponseWriter None)) calls in
  let hints := [CallWriteHeader 103; CallWriteHeader StatusNotFound;
                CallWrite Example.abc] in
  let hinted := foldl through (logged (newResponseWriter None)) hints in
  Forall finalCall calls ∧
  rw_status rw = StatusNotFound ∧
  status (rw_ResponseWriter rw) = Some StatusNotFound ∧
  status (foldl direct (newResponseWriter None) hints) = Some StatusNotFound ∧
  status (rw_ResponseWriter hinted) = Some StatusOK ∧
  rw_status hinted = 103.
Proof.
  intros calls rw hints hinted.
  assert (Forall finalCall calls) as Hfinal by (by repeat constructor).
  split; [exact Hfinal|].
  destruct (proj1 logged_status_is_the_status_sent (newResponseWriter None)
              calls eq_refl Hfinal) as (Hsame & Hstatus & _).
  destruct (proj2 logged_status_is_the_status_sent (newResponseWriter None)
              103 StatusNotFound Example.abc eq_refl eq_refl eq_refl)
    as (Hdirect & Hclient & Hlog).
  fold rw in Hsame, Hstatus. rewrite Hstatus, Hsame.
  split; [reflexivity|]. split; [reflexivity|].
  split; [exact Hdirect|]. split; [exact Hclient|exact Hlog].
Defined.

Lemma loadEnvConfig_only_overrides_witness :
  loadEnvConfig (λ _, "") Sample.flags = Sample.flags ∧
  loadEnvConfig Sample.getenv (loadEnvConfig Sample.getenv Sample.flags) =
    loadEnvConfig Sample.getenv Sample.flags.
Proof.
  destruct (loadEnvConfig_only_overrides (λ _, "") Sample.flags) as [Hid _].
  destruct (loadEnvConfig_only_overrides Sample.getenv Sample.flags)
    as [_ Hagain].
  split; [apply Hid; reflexivity|exact Hagain].
Defined.

Lemma environment_turns_nothing_off_witness :
  let c := loadEnvConfig Sample.getenv Sample.flags in
  Sample.getenv "PORT" = "0" ∧ Sample.getenv "WORKERS" = "-3" ∧
  0 < Flags.port c ∧ 0 < Flags.workers c ∧ Flags.login c = "admin".
Proof.
  intros c.
  destruct (environment_turns_nothing_off Sample.getenv Sample.flags)
    as (Hport & Hworkers & _).
  fold c in Hport, Hworkers.
  split; [reflexivity|]. split; [reflexivity|].
  split; [apply Hport; reflexivity|]. split; [apply Hworkers; reflexivity|].
  reflexivity.
Defined.

Lemma proxy_and_downloader_agree_only_with_a_trailing_slash_witness :
  let r := Example.get "/vcsky/fetched/audio/kchat.adf" "" in
  urlOf Example.env r = "https://cdn.dos.zone/vcsky/fetched/audio/kchat.adf" ∧
  urlOf Example.env r = audioBaseURL Example.env +:+ "/kchat.adf".
Proof.
  intros r.
  destruct (proxy_and_downloader_agree_only_with_a_trailing_slash
              Example.env r "kchat.adf" eq_refl) as [Haudio _].
  specialize (Haudio eq_refl).
  change (HasSuffix (cdn Example.env) "/") with true in Haudio.
  split; [reflexivity|exact Haudio].
Defined.

Lemma downloaded_item_is_served_from_the_cache_witness :
  let url := "https://cdn.dos.zone/vcsky/fetched/audio/kchat.adf" in
  let dest := "/cache/fetched/audio/kchat.adf" in
  let downloaded := run Example.env (downloadFile Example.env url dest)
                      (Example.disk ∅) in
  let r := Example.get "/vcsky/fetched/audio/kchat.adf" "" in
  let out := run Example.env
               (handleVcsky Example.env (newResponseWriter None) r)
               downloaded.2 in
  fs downloaded.2 !! dest = Some (File true (Example.abc ++ Example.abc)) ∧
  fetches (trace out.2) = [downloadRequest url].
Proof.
  intros url dest downloaded r out.
  destruct (downloaded_item_is_served_from_the_cache Example.env "kchat.adf"
              (Example.disk ∅) Example.smallResponse
              {["/cache/fetched/audio" := Dir]}
              (<["/cache/fetched/audio/kchat.adf.tmp" := File true []]>
                 {["/cache/fetched/audio" := Dir]})
              (reader (BData Example.abc (BData Example.abc BEOF)))
              (mkWriter [] None)
              ltac:(reflexivity) ltac:(reflexivity) ltac:(reflexivity)
              ltac:(apply not_elem_of_empty) ltac:(reflexivity)
              ltac:(reflexivity) ltac:(reflexivity) ltac:(reflexivity)
              ltac:(reflexivity) ltac:(reflexivity) ltac:(reflexivity)
              ltac:(reflexivity) ltac:(reflexivity)
              (newResponseWriter None) r ltac:(reflexivity))
    as (Hfile & Hfetch & _).
  split; [exact Hfile|].
  transitivity (fetches (trace downloaded.2)); [exact Hfetch|reflexivity].
Defined.

Lemma local_trouble_is_not_handed_to_the_origin_witness :
  let r := Example.get "/vcsky/foo.js" "" in
  let broken := Example.disk {["/cache/foo.js" := Broken]} in
  let locked := Example.disk {["/cache/foo.js" := File false Example.abc]} in
  let under := Example.disk {["/cache" := File true Example.abc]} in
  let handle := run Example.env
                  (handleVcsky Example.env (newResponseWriter None) r) in
  status (handle broken).1 = Some StatusInternalServerError ∧
  status (handle locked).1 = Some StatusForbidden ∧
  fetches (trace (handle locked).2) = [] ∧
  status (handle under).1 = Some StatusInternalServerError ∧
  fetches (trace (handle under).2) = [].
Proof.
  intros r broken locked under handle.
  destruct (local_trouble_is_not_handed_to_the_origin Example.env
              (newResponseWriter None) r broken eq_refl eq_refl eq_refl)
    as (Hbroken & _).
  destruct (local_trouble_is_not_handed_to_the_origin Example.env
              (newResponseWriter None) r locked eq_refl eq_refl eq_refl)
    as (_ & _ & Hlocked).
  destruct (local_trouble_is_not_handed_to_the_origin Example.env
              (newResponseWriter None) r under eq_refl eq_refl eq_refl)
    as (_ & Hunder & _).
  destruct (Hbroken eq_refl) as [H1 _].
  destruct (Hlocked eq_refl eq_refl) as [H2 H3].
  assert ("/cache" ∈ parents (localPathOf Example.env r)) as Hparent
    by (apply list_elem_of_In; vm_compute; tauto).
  destruct (Hunder "/cache" true Example.abc Hparent eq_refl) as [H4 H5].
  split; [exact H1|]. split; [exact H2|]. split; [exact H3|].
  split; [exact H4|exact H5].
Defined.
